(** * build.py: the packaging script of the LibraLM DXT bundle

    A shallow embedding of [build.py] and the properties of its build
    pipeline.  The script is glue over the file system, two external
    processes and a zip writer, so the model is

    - a file system: a tree of named entries, regular files and
      directories, with the process working directory as an absolute path;
    - Python's control flow: a state monad over the world in which a
      computation either returns a value or raises, with [SystemExit]
      kept apart from the subclasses of [Exception];
    - the environment: the two external programs, the JSON parser, the
      operating system's refusals to remove an entry and the zip writer's
      refusals to store a file are oracles gathered in a record [env];
    - standard output as the list of the lines printed, one event for each
      [print] of the script; the output takes every line. *)

From Stdlib Require Import List String Ascii ZArith Bool Arith Lia.
Import ListNotations.
Open Scope string_scope.
Open Scope list_scope.

Set Warnings "-register-all".

(** ** The file system *)

Definition path := list string.

Inductive compression := ZIP_STORED | ZIP_DEFLATED.

(** What a regular file holds: bytes, or a zip archive as [zipfile] wrote
    it (compression method and members, each an entry name and the data of
    the file that was added). *)
Inductive data :=
| Bytes (s : string)
| Zip (method : compression) (members : list (string * data)).

Inductive node :=
| File (d : data)
| Dir (entries : list (string * node)).

Definition entries := list (string * node).

(** The induction principle that reaches the children of a directory. *)
Section NodeInd.
Variable P : node -> Prop.
Hypothesis HFile : forall d, P (File d).
Hypothesis HDir : forall es, Forall (fun e => P (snd e)) es -> P (Dir es).

Fixpoint node_ind' (n : node) : P n :=
  match n with
  | File d => HFile d
  | Dir es =>
      HDir es ((fix go (l : entries) : Forall (fun e => P (snd e)) l :=
               match l with
               | [] => Forall_nil _
               | e :: l' => Forall_cons e (node_ind' (snd e)) (go l')
               end) es)
  end.
End NodeInd.

Definition is_dir_node (n : node) : bool :=
  match n with Dir _ => true | File _ => false end.

(** The first entry of that name. *)
Fixpoint find (k : string) (es : entries) : option node :=
  match es with
  | [] => None
  | (k', n) :: es' => if String.eqb k' k then Some n else find k es'
  end.

(** Replaces the first entry of that name, or adds one at the end. *)
Fixpoint put (k : string) (v : node) (es : entries) : entries :=
  match es with
  | [] => [(k, v)]
  | (k', n) :: es' =>
      if String.eqb k' k then (k, v) :: es' else (k', n) :: put k v es'
  end.

(** Removes the entries of that name. *)
Definition drop (k : string) (es : entries) : entries :=
  filter (fun e => negb (String.eqb (fst e) k)) es.

(** Applies [f] to the first entry of that name. *)
Fixpoint modify (k : string) (f : node -> node) (es : entries) : entries :=
  match es with
  | [] => []
  | (k', n) :: es' =>
      if String.eqb k' k then (k', f n) :: es' else (k', n) :: modify k f es'
  end.

Fixpoint lookup (p : path) (n : node) : option node :=
  match p with
  | [] => Some n
  | k :: q =>
      match n with
      | File _ => None
      | Dir es => match find k es with
                  | Some c => lookup q c
                  | None => None
                  end
      end
  end.

(** Applies [f] to the entries of the directory at [p]; nothing changes
    when [p] is not a directory. *)
Fixpoint update (p : path) (f : entries -> entries) (n : node) : node :=
  match n with
  | File _ => n
  | Dir es =>
      match p with
      | [] => Dir (f es)
      | k :: q => Dir (modify k (update q f) es)
      end
  end.

Definition exists_at (p : path) (root : node) : bool :=
  match lookup p root with Some _ => true | None => false end.

Definition is_dir_at (p : path) (root : node) : bool :=
  match lookup p root with Some (Dir _) => true | _ => false end.

Definition is_file_at (p : path) (root : node) : bool :=
  match lookup p root with Some (File _) => true | _ => false end.

(** Directory and base name of a path. *)
Definition dirname (p : path) : path := removelast p.
Definition basename (p : path) : string := last p "".

(** A path the script names: relative to the working directory, or
    absolute (what [os.getcwd] returns). *)
Inductive pathname :=
| Rel (p : path)
| Abs (p : path).

Definition resolve (cwd : path) (pn : pathname) : path :=
  match pn with
  | Rel p => cwd ++ p
  | Abs p => p
  end.

(** ** Exceptions, output and the world *)

Inductive error :=
| FileNotFoundError
| NotADirectoryError
| IsADirectoryError
| FileExistsError
| PermissionError
| ValueError                      (* JSONDecodeError, UnicodeDecodeError *)
| TypeError
| CalledProcessError (returncode : Z).

(** [SystemExit] derives from [BaseException] only: a handler for
    [Exception] lets it through. *)
Inductive exn :=
| Exception (e : error)
| SystemExit (code : Z).

Inductive result (A : Type) :=
| Return (a : A)
| Raise (x : exn).
Arguments Return {A} a.
Arguments Raise {A} x.

(** How [subprocess.run] ends: the child ran and exited, or [run] itself
    raised (the executable is absent, say). *)
Inductive proc :=
| Exited (returncode : Z) (stdout : string)
| NotStarted (e : error).

(** One constructor per [print] of the script; what an f-string formats is
    the constructor's argument. *)
Inductive event :=
| Cleaning_previous_build
| Creating_bundle_directory
| Copying_source_files
| Copied (file : string)
| Installing_dependencies
| Dependencies_installed
| Failed_to_install_dependencies (e : error)
| Cleaning_up_dependencies
| Creating_DXT_package
| Created_libralm_dxt
| Validating_manifest
| Missing_required_field (field : string)
| Manifest_is_valid
| Error_reading_manifest (e : error)
| Node_found (version : string)
| Node_not_found
| Building_banner
| Banner_rule
| Build_failed_node_required
| Please_install_node
| Build_failed_invalid_manifest
| Cleaning_up
| Build_complete
| To_install_in_Claude_Desktop
| Step_1_open_Claude_Desktop
| Step_2_go_to_settings
| Step_3_click_install_from_file
| Step_4_select_libralm_dxt
| Build_failed (e : error).

Record world := World {
  fs : node;            (* the tree below the root directory *)
  cwd : path;           (* the process working directory, absolute *)
  out : list event      (* standard output, oldest first *)
}.

Inductive json :=
| JNull
| JBool (b : bool)
| JNumber (literal : string)
| JString (s : string)
| JArray (xs : list json)
| JObject (members : list (string * json)).

(** The environment.  The package manager runs with the staging directory
    as its working directory: the oracle maps the contents of that
    directory to how the process ended and to the contents it left.
    [zip_error p] is the error with which [ZipFile.write] refuses the file
    at [p], if it does: [ValueError] for a time stamp before 1980, which
    the format cannot hold, [FileNotFoundError] for a link whose target
    is gone.  Standard output takes every line, and files carry no
    permission bits: [print] and the writing of a file are never
    refused. *)
Record env := Env {
  node_version : proc;                            (* node --version *)
  npm_install : entries -> proc * entries;        (* npm install --production *)
  json_load : string -> option json;              (* json.load on the text *)
  deny : path -> bool;                            (* the OS refuses to remove this entry *)
  zip_error : path -> option error                (* ZipFile.write refuses this file *)
}.

(** ** The monad of the script *)

Definition M (A : Type) := world -> result A * world.

Definition ret {A} (a : A) : M A := fun w => (Return a, w).

Definition bind {A B} (m : M A) (k : A -> M B) : M B :=
  fun w => match m w with
           | (Return a, w') => k a w'
           | (Raise x, w') => (Raise x, w')
           end.

Definition raise {A} (x : exn) : M A := fun w => (Raise x, w).

Notation "x <- m ;; k" := (bind m (fun x => k))
  (at level 61, m at next level, right associativity).
Notation "m ;; k" := (bind m (fun _ => k))
  (at level 61, right associativity).

(** [try: body / except <those h accepts>: handler]. *)
Definition try_except {A} (body : M A) (h : exn -> option (M A)) : M A :=
  fun w => match body w with
           | (Return a, w') => (Return a, w')
           | (Raise x, w') => match h x with
                              | Some k => k w'
                              | None => (Raise x, w')
                              end
           end.

(** [try: body / finally: fin]: [fin] runs on every exit of [body]; an
    exception of [fin] replaces the outcome of [body]. *)
Definition try_finally {A} (body : M A) (fin : M unit) : M A :=
  fun w => match body w with
           | (r, w') => match fin w' with
                        | (Return _, w'') => (r, w'')
                        | (Raise x, w'') => (Raise x, w'')
                        end
           end.

Definition when (b : bool) (m : M unit) : M unit :=
  if b then m else ret tt.

(** [for x in xs: body x]. *)
Fixpoint for_each {A} (xs : list A) (body : A -> M unit) : M unit :=
  match xs with
  | [] => ret tt
  | x :: xs' => body x ;; for_each xs' body
  end.

Definition get_fs : M node := fun w => (Return (fs w), w).
Definition get_cwd : M path := fun w => (Return (cwd w), w).
Definition set_fs (t : node) : M unit :=
  fun w => (Return tt, World t (cwd w) (out w)).
Definition set_cwd (p : path) : M unit :=
  fun w => (Return tt, World (fs w) p (out w)).
(** [print(...)] on a standard output that takes the line. *)
Definition print (e : event) : M unit :=
  fun w => (Return tt, World (fs w) (cwd w) (out w ++ [e])).
Definition sys_exit {A} (code : Z) : M A := raise (SystemExit code).
Definition fail {A} (e : error) : M A := raise (Exception e).

(** [str.isspace] on a character, read as a code point below 256: the
    controls 9 to 13 and 28 to 31, the space, and the two spaces of
    Latin-1, 133 and 160. *)
Definition is_space (c : ascii) : bool :=
  let n := nat_of_ascii c in
  (Nat.leb 9 n && Nat.leb n 13) || (Nat.leb 28 n && Nat.leb n 32)
  || Nat.eqb n 133 || Nat.eqb n 160.

(** [str.strip()]: the white space at both ends goes. *)

Fixpoint lstrip (s : string) : string :=
  match s with
  | EmptyString => EmptyString
  | String c s' => if is_space c then lstrip s' else s
  end.

Fixpoint rstrip (s : string) : string :=
  match s with
  | EmptyString => EmptyString
  | String c s' =>
      match rstrip s' with
      | EmptyString => if is_space c then EmptyString else String c EmptyString
      | r => String c r
      end
  end.

Definition strip (s : string) : string := rstrip (lstrip s).

(** ** Removal *)

Inductive removal :=
| Removed
| Refused (left : node).

Definition residual (r : removal) : option node :=
  match r with
  | Removed => None
  | Refused n => Some n
  end.

Fixpoint height (n : node) : nat :=
  match n with
  | File _ => 0
  | Dir es => S (list_max (map (fun e => height (snd e)) es))
  end.

(** [fnmatch] for the patterns of the script: [*] and literal characters,
    case-sensitive. *)
Fixpoint glob_match (pat name : string) : bool :=
  match pat with
  | EmptyString => match name with EmptyString => true | _ => false end
  | String c pat' =>
      if Ascii.eqb c "*" then
        (fix star (s : string) : bool :=
           glob_match pat' s
           || match s with
              | EmptyString => false
              | String _ s' => star s'
              end) name
      else
        match name with
        | EmptyString => false
        | String d name' => Ascii.eqb c d && glob_match pat' name'
        end
  end.

Section Primitives.
Variable E : env.

(** [os.unlink] on the node at [p]. *)
Definition unlink_node (p : path) (n : node) : removal :=
  if deny E p then Refused n else Removed.

(** The children of a directory, removed in order with [rm]; what is
    left of them.  A refusal stops the loop unless errors are ignored. *)
Definition rmtree_children (rm : path -> node -> removal) (ignore_errors : bool)
           (p : path) : entries -> entries :=
  fix go (l : entries) : entries :=
    match l with
    | [] => []
    | (k, c) :: l' =>
        match rm (p ++ [k]) c with
        | Removed => go l'
        | Refused c' => (k, c') :: (if ignore_errors then go l' else l')
        end
    end.

(** [shutil.rmtree] on the directory at [p]: the children in order
    (directories recursively, the others unlinked), then [os.rmdir].
    Without [ignore_errors] the first refusal stops it; with it the
    refusal is skipped.  [Refused] carries what is left. *)
Fixpoint rmtree_node (ignore_errors : bool) (p : path) (n : node) : removal :=
  match n with
  | File _ => unlink_node p n
  | Dir es =>
      match rmtree_children (rmtree_node ignore_errors) ignore_errors p es with
      | [] => if deny E p then Refused (Dir []) else Removed
      | rest => Refused (Dir rest)
      end
  end.

(** Puts [v] at [p], or removes the entries of that name. *)
Definition set_at (p : path) (v : option node) (root : node) : node :=
  update (dirname p)
         (fun es => match v with
                    | Some n => put (basename p) n es
                    | None => drop (basename p) es
                    end) root.

Definition os_path_exists (pn : pathname) : M bool :=
  t <- get_fs ;; c <- get_cwd ;;
  ret (exists_at (resolve c pn) t).

Definition os_getcwd : M path := get_cwd.

Definition os_chdir (pn : pathname) : M unit :=
  t <- get_fs ;; c <- get_cwd ;;
  match lookup (resolve c pn) t with
  | Some (Dir _) => set_cwd (resolve c pn)
  | Some (File _) => fail NotADirectoryError
  | None => fail FileNotFoundError
  end.

(** [shutil.rmtree(path)] and [shutil.rmtree(path, ignore_errors=True)]. *)
Definition shutil_rmtree (pn : pathname) (ignore_errors : bool) : M unit :=
  t <- get_fs ;; c <- get_cwd ;;
  let p := resolve c pn in
  match lookup p t with
  | Some (Dir es) =>
      match rmtree_node ignore_errors p (Dir es) with
      | Removed => set_fs (set_at p None t)
      | Refused r =>
          set_fs (set_at p (Some r) t) ;;
          if ignore_errors then ret tt else fail PermissionError
      end
  | Some (File _) =>
      if ignore_errors then ret tt else fail NotADirectoryError
  | None =>
      if ignore_errors then ret tt else fail FileNotFoundError
  end.

(** [os.remove(path)], also [Path.unlink()]. *)
Definition os_remove (pn : pathname) : M unit :=
  t <- get_fs ;; c <- get_cwd ;;
  let p := resolve c pn in
  match lookup p t with
  | Some (File d) =>
      match unlink_node p (File d) with
      | Removed => set_fs (set_at p None t)
      | Refused _ => fail PermissionError
      end
  | Some (Dir _) => fail IsADirectoryError
  | None => fail FileNotFoundError
  end.

(** [os.makedirs(path, exist_ok=True)] for a path of one component below
    an existing directory: there is no parent to create. *)
Definition os_makedirs_exist_ok (pn : pathname) : M unit :=
  t <- get_fs ;; c <- get_cwd ;;
  let p := resolve c pn in
  match lookup p t with
  | Some (Dir _) => ret tt
  | Some (File _) => fail FileExistsError
  | None =>
      if is_dir_at (dirname p) t
      then set_fs (set_at p (Some (Dir [])) t)
      else fail FileNotFoundError
  end.

(** [shutil.copy2(src, "dir/")]: the source is opened first, then the
    target [dir/basename(src)]; when [dir] is not a directory, the target
    is [dir/] itself, whose opening fails, and [copyfile] raises
    [FileNotFoundError] for a target that does not exist. *)
Definition shutil_copy2 (src dst_dir : pathname) : M unit :=
  t <- get_fs ;; c <- get_cwd ;;
  let s := resolve c src in
  let d := resolve c dst_dir in
  match lookup s t with
  | None => fail FileNotFoundError
  | Some (Dir _) => fail IsADirectoryError
  | Some (File x) =>
      if is_dir_at d t then
        if is_dir_at (d ++ [basename s]) t
        then fail IsADirectoryError
        else set_fs (update d (put (basename s) (File x)) t)
      else fail FileNotFoundError
  end.

Inductive command :=
| node__version                (* ["node", "--version"] *)
| npm_install__production.     (* ["npm", "install", "--production"] *)

(** [subprocess.run(cmd, check=...)] returns the return code and the
    captured output. *)
Definition subprocess_run (cmd : command) (check : bool) : M (Z * string) :=
  t <- get_fs ;; c <- get_cwd ;;
  o <- match cmd with
       | node__version => ret (node_version E)
       | npm_install__production =>
           match lookup c t with
           | Some (Dir es) =>
               set_fs (update c (fun _ => snd (npm_install E es)) t) ;;
               ret (fst (npm_install E es))
           | _ => ret (NotStarted FileNotFoundError)
           end
       end ;;
  match o with
  | Exited rc so =>
      if check && negb (rc =? 0)%Z
      then fail (CalledProcessError rc)
      else ret (rc, so)
  | NotStarted e => fail e
  end.
End Primitives.

(** ** Globbing, walking and the zip writer *)

Definition matches (patterns : list string) (name : string) : bool :=
  existsb (fun pat => glob_match pat name) patterns.

(** [os.walk(top)]: for each directory, top down, its path, the names of
    its sub-directories and the names of its other entries. *)
Fixpoint walk (root : path) (n : node) : list (path * list string * list string) :=
  match n with
  | File _ => []
  | Dir es =>
      (root,
       map fst (filter (fun e => is_dir_node (snd e)) es),
       map fst (filter (fun e => negb (is_dir_node (snd e))) es))
      :: flat_map (fun e => walk (root ++ [fst e]) (snd e)) es
  end.

Definition os_path_join (root : path) (file : string) : path := root ++ [file].

Fixpoint common_prefix (a b : path) : nat :=
  match a, b with
  | x :: a', y :: b' => if String.eqb x y then S (common_prefix a' b') else 0
  | _, _ => 0
  end.

Fixpoint join_sep (l : path) : string :=
  match l with
  | [] => ""
  | [x] => x
  | x :: l' => (x ++ "/" ++ join_sep l')%string
  end.

(** [os.path.relpath(path, start)]: both made absolute, the common prefix
    dropped, one [..] for each component of [start] that is left. *)
Definition os_path_relpath (c : path) (p start : path) : string :=
  let start_list := c ++ start in
  let path_list := c ++ p in
  let i := common_prefix start_list path_list in
  let rel_list := repeat ".." (List.length start_list - i) ++ skipn i path_list in
  match rel_list with
  | [] => "."
  | _ => join_sep rel_list
  end.


Section Script.
Variable E : env.

(** The traversal of [Path(root).rglob(pattern)] with the body of the loop
    run on each match.  The generator is lazy: it yields the matches of a
    directory, and lists the directory again for the sub-directories to
    descend into once the loop has dealt with those matches. *)
Definition remove_match (p : path) (n : node) : option node :=
  if is_dir_node n
  then residual (rmtree_node E true p n)      (* shutil.rmtree(path, ignore_errors=True) *)
  else match unlink_node E p n with           (* try: path.unlink() *)
       | Removed => None
       | Refused r => Some r                  (* except: pass *)
       end.

Definition sweep (pattern : string) (p : path) (es : entries) : entries :=
  flat_map (fun e =>
              if glob_match pattern (fst e)
              then match remove_match (p ++ [fst e]) (snd e) with
                   | None => []
                   | Some r => [(fst e, r)]
                   end
              else [e]) es.

Fixpoint rglob_remove (fuel : nat) (pattern : string) (p : path) (es : entries)
  : entries :=
  match fuel with
  | 0 => es
  | S fuel' =>
      map (fun e =>
             match snd e with
             | Dir sub => (fst e, Dir (rglob_remove fuel' pattern (p ++ [fst e]) sub))
             | File _ => e
             end) (sweep pattern p es)
  end.

(** [for path in Path(root).rglob(pattern): <remove path>]; nothing is
    yielded when [root] is not a directory. *)
Definition for_rglob_remove (root : pathname) (pattern : string) : M unit :=
  t <- get_fs ;; c <- get_cwd ;;
  let p := resolve c root in
  match lookup p t with
  | Some (Dir es) =>
      set_fs (update p (fun es => rglob_remove (height (Dir es)) pattern p es) t)
  | _ => ret tt
  end.

Definition os_walk (top : path) : M (list (path * list string * list string)) :=
  t <- get_fs ;; c <- get_cwd ;;
  match lookup (c ++ top) t with
  | Some n => ret (walk top n)
  | None => ret []
  end.

(** [zipfile.ZipFile(path, "w", method)]: the archive file is created, or
    truncated, when it is opened.  The handle is the file itself: members
    are appended to it as they are written. *)
Definition zipfile_open (pn : pathname) (method : compression) : M unit :=
  t <- get_fs ;; c <- get_cwd ;;
  let p := resolve c pn in
  if is_dir_at p t then fail IsADirectoryError
  else if is_dir_at (dirname p) t
       then set_fs (set_at p (Some (File (Zip method []))) t)
       else fail FileNotFoundError.

(** [dxt.write(filename, arcname)]: the file is examined first, and a
    file that the writer refuses leaves the archive as it is; a directory
    is stored as an empty member whose name ends with a slash. *)
Definition zipfile_write (pn : pathname) (filename : path) (arcname : string)
  : M unit :=
  t <- get_fs ;; c <- get_cwd ;;
  let p := resolve c pn in
  match lookup (c ++ filename) t with
  | None => fail FileNotFoundError
  | Some n =>
      match zip_error E (c ++ filename) with
      | Some e => fail e
      | None =>
          let member := match n with
                        | File d => (arcname, d)
                        | Dir _ => ((arcname ++ "/")%string, Bytes "")
                        end in
          match lookup p t with
          | Some (File (Zip m ms)) =>
              set_fs (set_at p (Some (File (Zip m (ms ++ [member])))) t)
          | _ => fail ValueError
          end
      end
  end.

Definition os_path_getsize (pn : pathname) : M unit :=
  t <- get_fs ;; c <- get_cwd ;;
  if exists_at (resolve c pn) t then ret tt else fail FileNotFoundError.

(** [open(path, "r")] then [json.load]. *)
Definition open_json_load (pn : pathname) : M json :=
  t <- get_fs ;; c <- get_cwd ;;
  match lookup (resolve c pn) t with
  | None => fail FileNotFoundError
  | Some (Dir _) => fail IsADirectoryError
  | Some (File (Zip _ _)) => fail ValueError
  | Some (File (Bytes s)) =>
      match json_load E s with
      | Some j => ret j
      | None => fail ValueError
      end
  end.

Fixpoint is_infix (needle hay : string) : bool :=
  String.prefix needle hay
  || match hay with
     | EmptyString => false
     | String _ hay' => is_infix needle hay'
     end.

Definition has_key (key : string) (members : list (string * json)) : bool :=
  existsb (fun kv => String.eqb (fst kv) key) members.

Definition json_is_string (s : string) (j : json) : bool :=
  match j with
  | JString s' => String.eqb s s'
  | _ => false
  end.

(** [field in manifest]: a key of a dict, an element of a list, a
    substring of a string; [TypeError] on a number, a boolean or [None]. *)
Definition py_in (field : string) (manifest : json) : M bool :=
  match manifest with
  | JObject members => ret (has_key field members)
  | JArray xs => ret (existsb (json_is_string field) xs)
  | JString s => ret (is_infix field s)
  | _ => fail TypeError
  end.
End Script.

(** ** The script *)

Definition bundle : pathname := Rel ["bundle"].
Definition libralm_dxt : pathname := Rel ["libralm.dxt"].

Definition files_to_copy : list string :=
  ["manifest.json"; "libralm_mcp_server.js"; "package.json"; "LICENSE";
   "README.md"; "icon.png"].

Definition patterns_to_remove : list string :=
  ["*.md"; "*.txt"; "test"; "tests"; "example"; "examples"; ".github"].

Definition required : list string :=
  ["dxt_version"; "name"; "version"; "description"; "author"; "server"].

Section Build.
Variable E : env.

Definition clean_build : M unit :=
  print Cleaning_previous_build ;;
  b <- os_path_exists bundle ;;
  when b (shutil_rmtree E bundle false) ;;
  a <- os_path_exists libralm_dxt ;;
  when a (os_remove E libralm_dxt).

Definition create_bundle_dir : M unit :=
  print Creating_bundle_directory ;;
  os_makedirs_exist_ok bundle.

Definition copy_source_files : M unit :=
  print Copying_source_files ;;
  for_each files_to_copy (fun file =>
    b <- os_path_exists (Rel [file]) ;;
    when b (shutil_copy2 (Rel [file]) bundle ;;
            print (Copied file))).

(** The first half of [install_dependencies]: up to the end of the
    [try] statement. *)
Definition install_packages : M unit :=
  print Installing_dependencies ;;
  shutil_copy2 (Rel ["package.json"]) bundle ;;
  original_dir <- os_getcwd ;;
  os_chdir bundle ;;
  try_finally
    (try_except
       (subprocess_run E npm_install__production true ;;
        print Dependencies_installed)
       (fun x => match x with
                 | Exception (CalledProcessError rc) =>
                     Some (print (Failed_to_install_dependencies
                                    (CalledProcessError rc)) ;;
                           sys_exit 1%Z)
                 | _ => None
                 end))
    (os_chdir (Abs original_dir)).

(** The second half: the clean-up of the installed tree. *)
Definition prune_dependencies : M unit :=
  print Cleaning_up_dependencies ;;
  for_each patterns_to_remove (fun pattern =>
    for_rglob_remove E (Rel ["bundle"; "node_modules"]) pattern).

Definition install_dependencies : M unit :=
  install_packages ;;
  prune_dependencies.

Definition create_dxt_package : M unit :=
  print Creating_DXT_package ;;
  zipfile_open libralm_dxt ZIP_DEFLATED ;;
  c <- get_cwd ;;
  triples <- os_walk ["bundle"] ;;
  for_each triples (fun '(root, _, files) =>
    for_each files (fun file =>
      let file_path := os_path_join root file in
      let arcname := os_path_relpath c file_path ["bundle"] in
      zipfile_write E libralm_dxt file_path arcname)) ;;
  os_path_getsize libralm_dxt ;;
  print Created_libralm_dxt.

(** The loop over the required fields, with its early [return False]. *)
Fixpoint check_required (manifest : json) (fields : list string) : M bool :=
  match fields with
  | [] => print Manifest_is_valid ;; ret true
  | field :: rest =>
      b <- py_in field manifest ;;
      if negb b
      then print (Missing_required_field field) ;; ret false
      else check_required manifest rest
  end.

Definition validate_manifest : M bool :=
  print Validating_manifest ;;
  try_except
    (manifest <- open_json_load E (Rel ["manifest.json"]) ;;
     check_required manifest required)
    (fun x => match x with
              | Exception e => Some (print (Error_reading_manifest e) ;; ret false)
              | SystemExit _ => None
              end).

Definition check_node : M bool :=
  try_except
    (result <- subprocess_run E node__version false ;;
     if (fst result =? 0)%Z
     then print (Node_found (strip (snd result))) ;; ret true
     else print Node_not_found ;; ret false)
    (fun x => match x with
              | Exception FileNotFoundError => Some (print Node_not_found ;; ret false)
              | _ => None
              end).

(** The body of the [try] statement of [main], and its
    [except Exception as e] clause. *)
Definition build_steps : M unit :=
  clean_build ;;
  create_bundle_dir ;;
  copy_source_files ;;
  install_dependencies ;;
  create_dxt_package ;;
  print Cleaning_up ;;
  shutil_rmtree E bundle false ;;
  print Build_complete ;;
  print To_install_in_Claude_Desktop ;;
  print Step_1_open_Claude_Desktop ;;
  print Step_2_go_to_settings ;;
  print Step_3_click_install_from_file ;;
  print Step_4_select_libralm_dxt.

Definition except_Exception (x : exn) : option (M unit) :=
  match x with
  | Exception e => Some (print (Build_failed e) ;; sys_exit 1%Z)
  | SystemExit _ => None
  end.

Definition main : M unit :=
  print Building_banner ;;
  print Banner_rule ;;
  node_ok <- check_node ;;
  when (negb node_ok)
       (print Build_failed_node_required ;; print Please_install_node ;;
        sys_exit 1%Z) ;;
  manifest_ok <- validate_manifest ;;
  when (negb manifest_ok) (print Build_failed_invalid_manifest ;; sys_exit 1%Z) ;;
  try_except build_steps except_Exception.

(** The exit status of the process: 0 when [main] returns, the code of
    [sys.exit], 1 for an exception nobody caught. *)
Definition exit_status (r : result unit) : Z :=
  match r with
  | Return _ => 0%Z
  | Raise (SystemExit code) => code
  | Raise (Exception _) => 1%Z
  end.

Definition run (w : world) : Z * world :=
  (exit_status (fst (main w)), snd (main w)).
End Build.

(** ** Vocabulary of the statements *)

(** [diverge p q]: the two paths part before either ends, so neither is
    above the other. *)
Fixpoint diverge (p q : path) : bool :=
  match p, q with
  | a :: p', b :: q' => if String.eqb a b then diverge p' q' else true
  | _, _ => false
  end.

(** Every path that parts from all of [ps] leads to the same node in both
    trees: what changed lies at or below one of [ps]. *)
Definition frame (ps : list path) (t t' : node) : Prop :=
  forall q, (forall p, In p ps -> diverge p q = true) -> lookup q t' = lookup q t.

(** [m] keeps the invariant [P] of the world, however it ends. *)
Definition preserves {A} (P : world -> Prop) (m : M A) : Prop :=
  forall w, P w -> P (snd (m w)).

(** [P] does not look at the output. *)
Definition out_blind (P : world -> Prop) : Prop :=
  forall t c o o', P (World t c o) -> P (World t c o').

(** [m] reads the world and leaves it as it is. *)
Definition pure {A} (m : M A) : Prop := forall w, snd (m w) = w.

(** [m] never ends in [sys.exit]. *)
Definition no_exit {A} (m : M A) : Prop :=
  forall w code, fst (m w) <> Raise (SystemExit code).

(** The working directory is [c] and the tree differs from [t0] at or
    below the paths [ps] only. *)
Definition framed (c : path) (ps : list path) (t0 : node) (w : world) : Prop :=
  cwd w = c /\ frame ps t0 (fs w).

(** The working directory is [c] and the staging directory exists. *)
Definition staged (c : path) (w : world) : Prop :=
  cwd w = c /\ is_dir_at (c ++ ["bundle"]) (fs w) = true.

(** The working directory is [c]. *)
Definition at_cwd (c : path) (w : world) : Prop := cwd w = c.

(** [m] keeps the working directory and changes the tree at or below the
    relative path [r] only. *)
Definition writes {A} (r : path) (m : M A) : Prop :=
  forall w, cwd (snd (m w)) = cwd w
            /\ frame [cwd w ++ r] (fs w) (fs (snd (m w))).

(** The two entries of the working directory that the build writes. *)
Definition touched (c : path) : list path :=
  [c ++ ["bundle"]; c ++ ["libralm.dxt"]].

(** How the [try] statement of [install_dependencies] ends for each outcome
    of the package manager, and what it prints. *)
Definition npm_outcome (p : proc) : result unit * list event :=
  match p with
  | Exited rc _ =>
      if (rc =? 0)%Z then (Return tt, [Dependencies_installed])
      else (Raise (SystemExit 1%Z),
            [Failed_to_install_dependencies (CalledProcessError rc)])
  | NotStarted (CalledProcessError rc) =>
      (Raise (SystemExit 1%Z),
       [Failed_to_install_dependencies (CalledProcessError rc)])
  | NotStarted e => (Raise (Exception e), [])
  end.

(** ** A small project to run the script on *)

Definition demo_manifest_text : string := "{six fields}".

Definition demo_manifest : json :=
  JObject [("dxt_version", JString "0.1"); ("name", JString "libralm");
           ("version", JString "1.0.0"); ("description", JString "books");
           ("author", JObject [("name", JString "LibraLM")]);
           ("server", JObject [("type", JString "node")])].

(** A manifest without [version] and without [author]. *)
Definition demo_short_text : string := "{four fields}".

Definition demo_short_manifest : json :=
  JObject [("dxt_version", JString "0.1"); ("name", JString "libralm");
           ("description", JString "books"); ("server", JObject [])].

Definition demo_json_load (s : string) : option json :=
  if String.eqb s demo_manifest_text then Some demo_manifest
  else if String.eqb s demo_short_text then Some demo_short_manifest
  else None.

(** What the package manager leaves in the staging directory. *)
Definition demo_installed : entries :=
  [("foo", Dir [("index.js", File (Bytes "js"));
                ("README.md", File (Bytes "doc"));
                ("test", Dir [("t.js", File (Bytes "t"))]);
                ("lib", Dir [("a.js", File (Bytes "a"));
                             ("notes.txt", File (Bytes "n"))])]);
   (".bin", Dir [])].

Definition demo_npm (es : entries) : proc * entries :=
  (Exited 0 "",
   put "node_modules" (Dir demo_installed)
       (put "package-lock.json" (File (Bytes "lock")) es)).

(** The package manager fails half way. *)
Definition demo_npm_fails (es : entries) : proc * entries :=
  (Exited 1 "", put "node_modules" (Dir [(".staging", Dir [])]) es).

Definition demo_env : env :=
  Env (Exited 0 "v20.1.0") demo_npm demo_json_load (fun _ => false)
      (fun _ => None).

Definition demo_env_npm_fails : env :=
  Env (Exited 0 "v20.1.0") demo_npm_fails demo_json_load (fun _ => false)
      (fun _ => None).

Definition demo_env_no_node : env :=
  Env (NotStarted FileNotFoundError) demo_npm demo_json_load (fun _ => false)
      (fun _ => None).

Definition demo_home : path := ["home"; "dev"].

Definition demo_tree (project : entries) : node :=
  Dir [("home", Dir [("dev", Dir project)]); ("tmp", Dir [])].

(** A project with the leftovers of an earlier build. *)
Definition demo_project : entries :=
  [("manifest.json", File (Bytes demo_manifest_text));
   ("libralm_mcp_server.js", File (Bytes "server"));
   ("package.json", File (Bytes "{}"));
   ("README.md", File (Bytes "readme"));
   ("notes.txt", File (Bytes "private"));
   ("bundle", Dir [("stale", File (Bytes "old"))]);
   ("libralm.dxt", File (Zip ZIP_DEFLATED [("stale", Bytes "old")]))].

Definition demo_world : world := World (demo_tree demo_project) demo_home [].

Definition demo_short_world : world :=
  World (demo_tree (put "manifest.json" (File (Bytes demo_short_text)) demo_project))
        demo_home [].


(** The two [if] statements of [clean_build]. *)
Definition remove_old_bundle (E : env) : M unit :=
  b <- os_path_exists bundle ;;
  when b (shutil_rmtree E bundle false).

Definition remove_old_archive (E : env) : M unit :=
  a <- os_path_exists libralm_dxt ;;
  when a (os_remove E libralm_dxt).

(** No entry below [n] has a name that matches [pattern]. *)
Fixpoint clean (pattern : string) (n : node) : bool :=
  match n with
  | File _ => true
  | Dir es =>
      forallb (fun e => negb (glob_match pattern (fst e)) && clean pattern (snd e)) es
  end.

(** What one pass of the pruning loop makes of the tree. *)
Definition prune_tree (E : env) (pattern : string) (p : path) (t : node) : node :=
  match lookup p t with
  | Some (Dir es) =>
      update p (fun es => rglob_remove E (height (Dir es)) pattern p es) t
  | _ => t
  end.

(** No entry below the directory at [p] has a name that matches. *)
Definition clean_at (pattern : string) (p : path) (t : node) : bool :=
  match lookup p t with
  | Some n => clean pattern n
  | None => true
  end.

(** Names as a file system has them: not empty, no slash; and distinct
    within a directory. *)
Fixpoint has_slash (s : string) : bool :=
  match s with
  | EmptyString => false
  | String ch s' => Ascii.eqb ch "/" || has_slash s'
  end.

Definition valid_name (s : string) : bool :=
  negb (String.eqb s "") && negb (has_slash s).

Fixpoint distinct (l : list string) : bool :=
  match l with
  | [] => true
  | x :: l' => negb (existsb (String.eqb x) l') && distinct l'
  end.

Fixpoint wf (n : node) : bool :=
  match n with
  | File _ => true
  | Dir es =>
      distinct (map fst es)
      && forallb (fun e => valid_name (fst e) && wf (snd e)) es
  end.

(** The regular files of a directory, and the members that the archive
    gets for the tree [n] found at [rel] below the staging directory, in
    the order of the walk. *)
Definition file_pairs (es : entries) : list (string * data) :=
  flat_map (fun e => match snd e with
                     | File d => [(fst e, d)]
                     | Dir _ => []
                     end) es.

Fixpoint members_of (rel : path) (n : node) : list (string * data) :=
  match n with
  | File _ => []
  | Dir es =>
      map (fun fd => (join_sep (rel ++ [fst fd]), snd fd)) (file_pairs es)
      ++ flat_map (fun e => members_of (rel ++ [fst e]) (snd e)) es
  end.

(** The tree [t] with the archive of members [ms] in the directory [c]. *)
Definition with_archive (c : path) (t : node) (ms : list (string * data)) : node :=
  set_at (c ++ ["libralm.dxt"]) (Some (File (Zip ZIP_DEFLATED ms))) t.

(** The body of the outer loop of [create_dxt_package], run in the
    directory [c]. *)
Definition archive_directory (E : env) (c : path)
           (triple : path * list string * list string) : M unit :=
  let '(root, _, files) := triple in
  for_each files (fun file =>
    let file_path := os_path_join root file in
    let arcname := os_path_relpath c file_path ["bundle"] in
    zipfile_write E libralm_dxt file_path arcname).



(** [main] up to its [try] statement, and the runs that get as far as the
    staging directory, or as far as the call of [install_dependencies]. *)
Definition checks (E : env) : M unit :=
  print Building_banner ;;
  print Banner_rule ;;
  node_ok <- check_node E ;;
  when (negb node_ok)
       (print Build_failed_node_required ;; print Please_install_node ;;
        sys_exit 1%Z) ;;
  manifest_ok <- validate_manifest E ;;
  when (negb manifest_ok) (print Build_failed_invalid_manifest ;; sys_exit 1%Z).

Definition reaches_staging (E : env) : M unit :=
  checks E ;; clean_build E ;; create_bundle_dir.

Definition reaches_install (E : env) : M unit :=
  reaches_staging E ;; copy_source_files.

(** What is left of the [try] statement after each of them. *)
Definition after_staging (E : env) : M unit :=
  copy_source_files ;;
  install_dependencies E ;;
  create_dxt_package E ;;
  print Cleaning_up ;;
  shutil_rmtree E bundle false ;;
  print Build_complete ;;
  print To_install_in_Claude_Desktop ;;
  print Step_1_open_Claude_Desktop ;;
  print Step_2_go_to_settings ;;
  print Step_3_click_install_from_file ;;
  print Step_4_select_libralm_dxt.


(** [sys.exit] is only ever called with 1. *)
Definition exits_with_1 {A} (m : M A) : Prop :=
  forall w code, fst (m w) = Raise (SystemExit code) -> code = 1%Z.

(** The working directory is [c] and the archive is a regular file. *)
Definition archived (c : path) (w : world) : Prop :=
  cwd w = c /\ is_file_at (c ++ ["libralm.dxt"]) (fs w) = true.

(** How many entries of the directory at [p] are called [k]. *)
Definition count_name (k : string) (es : entries) : nat :=
  List.length (filter (fun e => String.eqb (fst e) k) es).

Definition count_at (p : path) (k : string) (t : node) : option nat :=
  match lookup p t with
  | Some (Dir es) => Some (count_name k es)
  | _ => None
  end.

(** The working directory is [c] and holds [n] entries called
    [libralm.dxt]. *)
Definition archives_here (c : path) (n : nat) (w : world) : Prop :=
  cwd w = c /\ count_at c "libralm.dxt" (fs w) = Some n.

(** Node is installed but may not be executed. *)
Definition demo_env_node_denied : env :=
  Env (NotStarted PermissionError) demo_npm demo_json_load (fun _ => false)
      (fun _ => None).

(** A project whose manifest is a list of names, and one without a
    manifest. *)
Definition demo_list_text : string := "[six names]".

Definition demo_list_manifest : json :=
  JArray [JString "dxt_version"; JString "name"; JString "version";
          JString "description"; JString "author"; JString "server"].

Definition demo_list_json_load (s : string) : option json :=
  if String.eqb s demo_list_text then Some demo_list_manifest
  else if String.eqb s "7" then Some (JNumber "7")
  else None.

Definition demo_env_list : env :=
  Env (Exited 0 "v20.1.0") demo_npm demo_list_json_load (fun _ => false)
      (fun _ => None).

Definition demo_list_world : world :=
  World (demo_tree (put "manifest.json" (File (Bytes demo_list_text)) demo_project))
        demo_home [].

Definition demo_number_world : world :=
  World (demo_tree (put "manifest.json" (File (Bytes "7")) demo_project))
        demo_home [].

Definition demo_no_manifest : world :=
  World (demo_tree (drop "manifest.json" demo_project)) demo_home [].

(** A project in which [bundle] is a regular file. *)
Definition demo_stray_world : world :=
  World (demo_tree (put "bundle" (File (Bytes "stray")) demo_project)) demo_home [].
(** A pattern without a wildcard. *)
Fixpoint no_star (s : string) : bool :=
  match s with
  | EmptyString => true
  | String c s' => negb (Ascii.eqb c "*") && no_star s'
  end.
(** The relative paths of the staging directory that the pruning leaves
    alone: those outside [node_modules], and those below it without a
    matching component. *)
Definition survives (rel : path) : bool :=
  match rel with
  | k :: q =>
      if String.eqb k "node_modules"
      then forallb (fun name => negb (matches patterns_to_remove name)) q
      else true
  | [] => true
  end.




(** A project that has not been built yet. *)
Definition demo_fresh_world : world :=
  World (demo_tree (drop "bundle" (drop "libralm.dxt" demo_project))) demo_home [].

(** A project in which [LICENSE] is a directory. *)
Definition demo_license_dir_world : world :=
  World (demo_tree (put "bundle" (Dir [])
                      (put "LICENSE" (Dir [("MIT", File (Bytes "mit"))])
                           demo_project)))
        demo_home [].


(** The environment [E] with a zip writer that takes every file. *)
Definition accepting (E : env) : env :=
  Env (node_version E) (npm_install E) (json_load E) (deny E) (fun _ => None).

(** * Properties *)

(** ** Entries of a directory *)

Lemma find_put_same (k : string) (v : node) (es : entries) :
  find k (put k v es) = Some v.
Proof.
  induction es as [|[k' n] es IH]; simpl.
  - now rewrite String.eqb_refl.
  - destruct (String.eqb k' k) eqn:Hk; simpl.
    + now rewrite String.eqb_refl.
    + now rewrite Hk.
Qed.

Lemma find_put_other (k k' : string) (v : node) (es : entries) :
  k <> k' -> find k' (put k v es) = find k' es.
Proof.
  intros Hne. induction es as [|[k0 n] es IH]; simpl.
  - destruct (String.eqb k k') eqn:Hk; [apply String.eqb_eq in Hk; contradiction | reflexivity].
  - destruct (String.eqb k0 k) eqn:Hk; simpl.
    + apply String.eqb_eq in Hk. subst k0.
      destruct (String.eqb k k') eqn:Hk'; [apply String.eqb_eq in Hk'; contradiction | reflexivity].
    + destruct (String.eqb k0 k'); [reflexivity | exact IH].
Qed.

Lemma find_drop_same (k : string) (es : entries) : find k (drop k es) = None.
Proof.
  induction es as [|[k' n] es IH]; simpl; [reflexivity|].
  destruct (String.eqb k' k) eqn:Hk; simpl; [exact IH|].
  now rewrite Hk.
Qed.

Lemma find_drop_other (k k' : string) (es : entries) :
  k <> k' -> find k' (drop k es) = find k' es.
Proof.
  intros Hne. induction es as [|[k0 n] es IH]; simpl; [reflexivity|].
  destruct (String.eqb k0 k) eqn:Hk; simpl.
  - apply String.eqb_eq in Hk. subst k0.
    destruct (String.eqb k k') eqn:Hk'; [apply String.eqb_eq in Hk'; contradiction | exact IH].
  - destruct (String.eqb k0 k'); [reflexivity | exact IH].
Qed.

Lemma find_modify_same (k : string) (f : node -> node) (es : entries) :
  find k (modify k f es) = option_map f (find k es).
Proof.
  induction es as [|[k' n] es IH]; simpl; [reflexivity|].
  destruct (String.eqb k' k) eqn:Hk; simpl; now rewrite Hk.
Qed.

Lemma find_modify_other (k k' : string) (f : node -> node) (es : entries) :
  k <> k' -> find k' (modify k f es) = find k' es.
Proof.
  intros Hne. induction es as [|[k0 n] es IH]; simpl; [reflexivity|].
  destruct (String.eqb k0 k) eqn:Hk; simpl.
  - apply String.eqb_eq in Hk. subst k0.
    destruct (String.eqb k k') eqn:Hk'; [apply String.eqb_eq in Hk'; contradiction | reflexivity].
  - destruct (String.eqb k0 k'); [reflexivity | exact IH].
Qed.

Lemma put_put (k : string) (v v' : node) (es : entries) :
  put k v' (put k v es) = put k v' es.
Proof.
  induction es as [|[k' n] es IH]; simpl.
  - now rewrite String.eqb_refl.
  - destruct (String.eqb k' k) eqn:Hk; simpl.
    + now rewrite String.eqb_refl.
    + now rewrite Hk, IH.
Qed.

(** ** Paths in the tree *)

Lemma lookup_app (p q : path) (n : node) :
  lookup (p ++ q) n =
  match lookup p n with
  | Some m => lookup q m
  | None => None
  end.
Proof.
  revert n. induction p as [|k p IH]; intros n; simpl; [reflexivity|].
  destruct n as [d|es]; [reflexivity|].
  destruct (find k es); [apply IH | reflexivity].
Qed.

Lemma lookup_update_above (p q : path) (f : entries -> entries) (n : node) :
  lookup p (update (p ++ q) f n) = option_map (update q f) (lookup p n).
Proof.
  revert n. induction p as [|k p IH]; intros n; simpl.
  - now destruct n.
  - destruct n as [d|es]; simpl; [reflexivity|].
    rewrite find_modify_same.
    destruct (find k es); simpl; [apply IH | reflexivity].
Qed.

Lemma lookup_update_below (p q : path) (f : entries -> entries) (n : node) :
  lookup (p ++ q) (update p f n) =
  match lookup p n with
  | Some m => lookup q (update [] f m)
  | None => None
  end.
Proof.
  rewrite lookup_app.
  pose proof (lookup_update_above p [] f n) as H.
  rewrite app_nil_r in H. rewrite H.
  now destruct (lookup p n).
Qed.

Lemma update_ext (p : path) (f g : entries -> entries) (n : node) :
  (forall es, f es = g es) -> update p f n = update p g n.
Proof.
  intros Hfg. revert n. induction p as [|k p IH]; intros [d|es]; simpl; try reflexivity.
  - now rewrite Hfg.
  - f_equal. induction es as [|[k' c] es IHes]; simpl; [reflexivity|].
    destruct (String.eqb k' k); [now rewrite IH | now rewrite IHes].
Qed.

Lemma update_update (p : path) (f g : entries -> entries) (n : node) :
  update p g (update p f n) = update p (fun es => g (f es)) n.
Proof.
  revert n. induction p as [|k p IH]; intros [d|es]; simpl; try reflexivity.
  f_equal. induction es as [|[k' c] es IHes]; simpl; [reflexivity|].
  destruct (String.eqb k' k) eqn:Hk; simpl; rewrite Hk; [now rewrite IH | now rewrite IHes].
Qed.

Lemma diverge_app_l (p q r : path) :
  diverge p q = true -> diverge (p ++ r) q = true.
Proof.
  revert q. induction p as [|a p IH]; intros [|b q]; simpl; try discriminate.
  destruct (String.eqb a b); [apply IH | reflexivity].
Qed.

Lemma diverge_common (c p q : path) : diverge (c ++ p) (c ++ q) = diverge p q.
Proof.
  induction c as [|a c IH]; simpl; [reflexivity|].
  now rewrite String.eqb_refl.
Qed.

Lemma lookup_update_diverge (p q : path) (f : entries -> entries) (n : node) :
  diverge p q = true -> lookup q (update p f n) = lookup q n.
Proof.
  revert q n. induction p as [|a p IH]; intros [|b q] n; simpl; try discriminate.
  destruct (String.eqb a b) eqn:Hab; intros Hd.
  - apply String.eqb_eq in Hab. subst b.
    destruct n as [d|es]; simpl; [reflexivity|].
    rewrite find_modify_same. destruct (find a es); simpl; [now apply IH | reflexivity].
  - destruct n as [d|es]; simpl; [reflexivity|].
    rewrite find_modify_other; [reflexivity|].
    intros ->. now rewrite String.eqb_refl in Hab.
Qed.

Lemma dirname_snoc (d : path) (k : string) : dirname (d ++ [k]) = d.
Proof. apply removelast_last. Qed.

Lemma basename_snoc (d : path) (k : string) : basename (d ++ [k]) = k.
Proof. apply last_last. Qed.

Lemma update_keeps_kind (p : path) (f : entries -> entries) (n : node) :
  is_dir_node (update p f n) = is_dir_node n.
Proof. destruct n, p; reflexivity. Qed.

Lemma is_dir_at_update_above (p q : path) (f : entries -> entries) (t : node) :
  is_dir_at p (update (p ++ q) f t) = is_dir_at p t.
Proof.
  unfold is_dir_at. rewrite lookup_update_above.
  destruct (lookup p t) as [n|]; simpl; [|reflexivity].
  pose proof (update_keeps_kind q f n) as H.
  destruct (update q f n), n; simpl in H; congruence.
Qed.

Lemma is_dir_at_update_same (p : path) (f : entries -> entries) (t : node) :
  is_dir_at p (update p f t) = is_dir_at p t.
Proof.
  pose proof (is_dir_at_update_above p [] f t) as H.
  now rewrite app_nil_r in H.
Qed.

Lemma is_dir_at_parent (d : path) (k : string) (t : node) (n : node) :
  lookup (d ++ [k]) t = Some n -> is_dir_at d t = true.
Proof.
  unfold is_dir_at. rewrite lookup_app.
  destruct (lookup d t) as [[x|es]|]; simpl; congruence.
Qed.

Lemma lookup_set_at_same (d : path) (k : string) (v : option node) (t : node) :
  is_dir_at d t = true -> lookup (d ++ [k]) (set_at (d ++ [k]) v t) = v.
Proof.
  unfold set_at, is_dir_at. rewrite dirname_snoc, basename_snoc, lookup_update_below.
  destruct (lookup d t) as [[x|es]|]; try discriminate. intros _. simpl.
  destruct v as [n|].
  - now rewrite find_put_same.
  - now rewrite find_drop_same.
Qed.

Lemma lookup_set_at_diverge (d : path) (k : string) (v : option node) (q : path)
      (t : node) :
  diverge (d ++ [k]) q = true -> lookup q (set_at (d ++ [k]) v t) = lookup q t.
Proof.
  unfold set_at. rewrite dirname_snoc, basename_snoc.
  revert q t. induction d as [|a d IH]; intros [|b q] t; simpl; try discriminate.
  - destruct (String.eqb k b) eqn:Hk; [discriminate|]. intros _.
    assert (Hne : k <> b) by (intros ->; now rewrite String.eqb_refl in Hk).
    destruct t as [x|es]; simpl; [reflexivity|].
    destruct v; [now rewrite find_put_other | now rewrite find_drop_other].
  - destruct (String.eqb a b) eqn:Hab; intros Hd.
    + apply String.eqb_eq in Hab. subst b.
      destruct t as [x|es]; simpl; [reflexivity|].
      rewrite find_modify_same. destruct (find a es); simpl; [now apply IH | reflexivity].
    + destruct t as [x|es]; simpl; [reflexivity|].
      rewrite find_modify_other; [reflexivity|].
      intros ->. now rewrite String.eqb_refl in Hab.
Qed.

Lemma set_at_set_at (d : path) (k : string) (v v' : node) (t : node) :
  set_at (d ++ [k]) (Some v') (set_at (d ++ [k]) (Some v) t)
  = set_at (d ++ [k]) (Some v') t.
Proof.
  unfold set_at. rewrite dirname_snoc, basename_snoc, update_update.
  apply update_ext. intros es. apply put_put.
Qed.

(** ** Frames *)

Lemma frame_refl (ps : list path) (t : node) : frame ps t t.
Proof. intros q _. reflexivity. Qed.

Lemma frame_trans (ps : list path) (t1 t2 t3 : node) :
  frame ps t1 t2 -> frame ps t2 t3 -> frame ps t1 t3.
Proof. intros H12 H23 q Hq. rewrite (H23 q Hq). apply H12, Hq. Qed.

Lemma frame_weaken (ps ps' : list path) (t t' : node) :
  incl ps ps' -> frame ps t t' -> frame ps' t t'.
Proof. intros Hi H q Hq. apply H. intros p Hp. apply Hq, Hi, Hp. Qed.

Lemma frame_update (p r : path) (f : entries -> entries) (t : node) :
  frame [p] t (update (p ++ r) f t).
Proof.
  intros q Hq. apply lookup_update_diverge, diverge_app_l, Hq. now left.
Qed.

Lemma frame_update_same (p : path) (f : entries -> entries) (t : node) :
  frame [p] t (update p f t).
Proof.
  pose proof (frame_update p [] f t) as H. now rewrite app_nil_r in H.
Qed.

Lemma frame_set_at (d : path) (k : string) (v : option node) (t : node) :
  frame [d ++ [k]] t (set_at (d ++ [k]) v t).
Proof.
  intros q Hq. apply lookup_set_at_diverge, Hq. now left.
Qed.

Lemma frame_shorten (p r : path) (t t' : node) :
  frame [p ++ r] t t' -> frame [p] t t'.
Proof.
  intros H q Hq. apply H. intros p' [<-|[]]. apply diverge_app_l, Hq. now left.
Qed.

(** ** Rules for the monad *)

Arguments rmtree_node : simpl never.
Arguments rglob_remove : simpl never.
Arguments height : simpl never.
Arguments walk : simpl never.
Arguments update : simpl never.

Ltac run_monad :=
  unfold bind, ret, raise, fail, sys_exit, when, get_fs, get_cwd, set_fs,
    set_cwd, print, os_getcwd in *; simpl in *.

Ltac case_if :=
  match goal with
  | |- context [if ?b then _ else _] => destruct b eqn:?
  end.

Lemma bind_run {A B} (m : M A) (k : A -> M B) (w : world) :
  bind m k w = match m w with
               | (Return a, w') => k a w'
               | (Raise x, w') => (Raise x, w')
               end.
Proof. reflexivity. Qed.

Lemma bind_Return_inv {A B} (m : M A) (k : A -> M B) (w w' : world) (b : B) :
  bind m k w = (Return b, w') ->
  exists a w1, m w = (Return a, w1) /\ k a w1 = (Return b, w').
Proof.
  unfold bind. destruct (m w) as [[a|x] w1]; [|discriminate].
  intros H. now exists a, w1.
Qed.

Lemma preserves_ret {A} (P : world -> Prop) (a : A) : preserves P (ret a).
Proof. intros w H. exact H. Qed.

Lemma preserves_raise {A} (P : world -> Prop) (x : exn) :
  preserves P (@raise A x).
Proof. intros w H. exact H. Qed.

Lemma preserves_bind {A B} (P : world -> Prop) (m : M A) (k : A -> M B) :
  preserves P m -> (forall a, preserves P (k a)) -> preserves P (bind m k).
Proof.
  intros Hm Hk w H. unfold bind. specialize (Hm w H).
  destruct (m w) as [[a|x] w1]; simpl in *; [now apply Hk | exact Hm].
Qed.

Lemma preserves_when (P : world -> Prop) (b : bool) (m : M unit) :
  preserves P m -> preserves P (when b m).
Proof. destruct b; simpl; [auto | intros _; apply preserves_ret]. Qed.

Lemma preserves_for_each {A} (P : world -> Prop) (xs : list A) (body : A -> M unit) :
  (forall x, preserves P (body x)) -> preserves P (for_each xs body).
Proof.
  intros Hb. induction xs as [|x xs IH]; simpl.
  - apply preserves_ret.
  - apply preserves_bind; auto.
Qed.

Lemma preserves_print (P : world -> Prop) (e : event) :
  out_blind P -> preserves P (print e).
Proof. intros Hob [t c o] H. simpl. now apply (Hob t c o). Qed.

Lemma preserves_pure {A} (P : world -> Prop) (m : M A) :
  pure m -> preserves P m.
Proof. intros Hp w H. now rewrite Hp. Qed.

Lemma pure_os_path_exists (pn : pathname) : pure (os_path_exists pn).
Proof. intros w. reflexivity. Qed.

Lemma pure_os_walk (top : path) : pure (os_walk top).
Proof. intros w. unfold os_walk. run_monad. now destruct (lookup _ _). Qed.

Lemma pure_os_path_getsize (pn : pathname) : pure (os_path_getsize pn).
Proof. intros w. unfold os_path_getsize. run_monad. now destruct (exists_at _ _). Qed.

Lemma pure_get_cwd : pure get_cwd.
Proof. intros w. reflexivity. Qed.

Lemma pure_open_json_load (E : env) (pn : pathname) : pure (open_json_load E pn).
Proof.
  intros w. unfold open_json_load. run_monad.
  destruct (lookup _ _) as [[[s|m ms]|es]|]; try reflexivity.
  now destruct (json_load E s).
Qed.

Lemma out_blind_framed (c : path) (ps : list path) (t0 : node) :
  out_blind (framed c ps t0).
Proof. intros t c' o o' H. exact H. Qed.

Lemma out_blind_staged (c : path) : out_blind (staged c).
Proof. intros t c' o o' H. exact H. Qed.

Lemma out_blind_at_cwd (c : path) : out_blind (at_cwd c).
Proof. intros t c' o o' H. exact H. Qed.

(** ** What the primitives write *)

Lemma writes_framed {A} (r : path) (m : M A) (c : path) (ps : list path) (t0 : node) :
  writes r m -> In (c ++ r) ps -> preserves (framed c ps t0) m.
Proof.
  intros Hw Hin w [Hc Hf]. destruct (Hw w) as [Hc' Hf']. split; [congruence|].
  eapply frame_trans; [exact Hf|].
  eapply frame_weaken; [|exact Hf'].
  intros p [<-|[]]. now rewrite Hc.
Qed.

Lemma writes_at_cwd {A} (r : path) (m : M A) (c : path) :
  writes r m -> preserves (at_cwd c) m.
Proof. intros Hw w Hc. destruct (Hw w) as [Hc' _]. unfold at_cwd in *. congruence. Qed.

Lemma writes_staged {A} (r : path) (m : M A) (c : path) :
  writes r m -> diverge r ["bundle"] = true -> preserves (staged c) m.
Proof.
  intros Hw Hd w [Hc Hb]. destruct (Hw w) as [Hc' Hf']. split; [congruence|].
  unfold is_dir_at in *. rewrite Hf'; [exact Hb|].
  intros p [<-|[]]. rewrite Hc. now rewrite diverge_common.
Qed.

Lemma app_snoc (c d : path) (k : string) : c ++ d ++ [k] = (c ++ d) ++ [k].
Proof. apply app_assoc. Qed.

Lemma writes_shutil_rmtree (E : env) (d : path) (k : string) (b : bool) :
  writes (d ++ [k]) (shutil_rmtree E (Rel (d ++ [k])) b).
Proof.
  intros [t c o]. unfold shutil_rmtree. run_monad. rewrite app_snoc.
  destruct (lookup _ t) as [[x|es]|].
  - destruct b; simpl; split; auto using frame_refl.
  - match goal with
    | |- context [rmtree_node ?e ?i ?p ?n] => destruct (rmtree_node e i p n) as [|r]
    end; simpl.
    + split; [reflexivity | apply frame_set_at].
    + destruct b; simpl; (split; [reflexivity | apply frame_set_at]).
  - destruct b; simpl; split; auto using frame_refl.
Qed.

Lemma writes_os_remove (E : env) (d : path) (k : string) :
  writes (d ++ [k]) (os_remove E (Rel (d ++ [k]))).
Proof.
  intros [t c o]. unfold os_remove. run_monad. rewrite app_snoc.
  destruct (lookup _ t) as [[x|es]|]; simpl; try (split; solve [auto using frame_refl]).
  match goal with
  | |- context [unlink_node ?e ?p ?n] => destruct (unlink_node e p n)
  end; simpl; split; auto using frame_refl, frame_set_at.
Qed.

Lemma writes_os_makedirs_exist_ok (d : path) (k : string) :
  writes (d ++ [k]) (os_makedirs_exist_ok (Rel (d ++ [k]))).
Proof.
  intros [t c o]. unfold os_makedirs_exist_ok. run_monad. rewrite app_snoc.
  destruct (lookup _ t) as [[x|es]|]; simpl; try (split; solve [auto using frame_refl]).
  destruct (is_dir_at _ t); simpl; split; auto using frame_refl, frame_set_at.
Qed.

Lemma writes_zipfile_open (d : path) (k : string) (m : compression) :
  writes (d ++ [k]) (zipfile_open (Rel (d ++ [k])) m).
Proof.
  intros [t c o]. unfold zipfile_open. run_monad. rewrite app_snoc.
  destruct (is_dir_at ((c ++ d) ++ [k]) t); simpl; [split; auto using frame_refl|].
  destruct (is_dir_at _ t); simpl; split; auto using frame_refl, frame_set_at.
Qed.

Lemma writes_zipfile_write {E : env} (d : path) (k : string) (f : path) (a : string) :
  writes (d ++ [k]) (zipfile_write E (Rel (d ++ [k])) f a).
Proof.
  intros [t c o]. unfold zipfile_write. run_monad. rewrite app_snoc.
  destruct (lookup (c ++ f) t) as [n|]; simpl; [|split; auto using frame_refl].
  destruct (zip_error E (c ++ f)); simpl; [split; auto using frame_refl|].
  destruct (lookup ((c ++ d) ++ [k]) t) as [[[s|m ms]|es]|]; simpl;
    split; auto using frame_refl, frame_set_at.
Qed.

Lemma writes_shutil_copy2 (src : pathname) (r : path) :
  writes r (shutil_copy2 src (Rel r)).
Proof.
  intros [t c o]. unfold shutil_copy2. run_monad.
  destruct (lookup _ t) as [[x|es]|]; simpl; try (split; solve [auto using frame_refl]).
  destruct (is_dir_at (c ++ r) t); simpl.
  - case_if; simpl; split; auto using frame_refl, frame_update_same.
  - split; auto using frame_refl.
Qed.

Lemma writes_for_rglob_remove (E : env) (r : path) (pattern : string) :
  writes r (for_rglob_remove E (Rel r) pattern).
Proof.
  intros [t c o]. unfold for_rglob_remove. run_monad.
  destruct (lookup _ t) as [[x|es]|]; simpl; split;
    auto using frame_refl, frame_update_same.
Qed.

Lemma writes_shorten {A} (p r : path) (m : M A) :
  writes (p ++ r) m -> writes p m.
Proof.
  intros H w. destruct (H w) as [Hc Hf]. split; [exact Hc|].
  rewrite app_assoc in Hf. eapply frame_shorten, Hf.
Qed.

Lemma staged_shutil_copy2 (src : pathname) (c : path) :
  preserves (staged c) (shutil_copy2 src bundle).
Proof.
  intros [t c' o] [Hc Hb]. simpl in Hc. subst c'.
  unfold shutil_copy2, bundle. run_monad.
  destruct (lookup _ t) as [[x|es]|]; simpl; try (split; solve [auto]).
  rewrite Hb.
  case_if; simpl; split; simpl; auto.
  now rewrite is_dir_at_update_same.
Qed.

Lemma staged_for_rglob_remove (E : env) (r : path) (pattern : string) (c : path) :
  preserves (staged c) (for_rglob_remove E (Rel ("bundle" :: r)) pattern).
Proof.
  intros [t c' o] [Hc Hb]. simpl in Hc. subst c'.
  unfold for_rglob_remove. run_monad.
  destruct (lookup _ t) as [[x|es]|]; simpl; split; simpl; auto.
  change (c ++ "bundle" :: r) with (c ++ ["bundle"] ++ r).
  rewrite app_assoc. now rewrite is_dir_at_update_above.
Qed.

(** ** What the stages keep *)

Ltac preserves_leaf :=
  first
    [ apply preserves_ret
    | apply preserves_raise
    | apply preserves_print;
      first [apply out_blind_framed | apply out_blind_staged | apply out_blind_at_cwd]
    | apply preserves_pure;
      first [apply pure_os_path_exists | apply pure_os_walk
            | apply pure_os_path_getsize | apply pure_get_cwd
            | apply pure_open_json_load]
    | eapply writes_framed;
      [ first [apply (writes_shutil_rmtree _ [] _ _)
              | apply (writes_os_remove _ [] _)
              | apply (writes_os_makedirs_exist_ok [] _)
              | apply (writes_zipfile_open [] _ _)
              | apply (writes_zipfile_write [] _ _ _)
              | apply writes_shutil_copy2
              | apply (writes_shorten ["bundle"] ["node_modules"]);
                apply writes_for_rglob_remove ]
      | simpl; tauto ]
    | eapply writes_at_cwd;
      first [apply (writes_shutil_rmtree _ [] _ _)
            | apply (writes_os_remove _ [] _)
            | apply (writes_os_makedirs_exist_ok [] _)
            | apply (writes_zipfile_open [] _ _)
            | apply (writes_zipfile_write [] _ _ _)
            | apply writes_shutil_copy2
            | apply writes_for_rglob_remove ]
    | apply staged_shutil_copy2
    | apply staged_for_rglob_remove
    | eapply writes_staged;
      [ first [apply (writes_os_remove _ [] _)
              | apply (writes_zipfile_open [] _ _)
              | apply (writes_zipfile_write [] _ _ _) ]
      | reflexivity ] ].

Ltac preserves_tac :=
  repeat first
    [ preserves_leaf
    | apply preserves_bind; [|intros ?]
    | apply preserves_when
    | apply preserves_for_each; intros ?
    | match goal with
      | |- preserves _ (let '(_, _) := ?x in _) => destruct x as [[? ?] ?]
      | |- preserves _ (match ?x with _ => _ end) => destruct x
      | |- preserves _ (if ?x then _ else _) => destruct x
      end ].

Lemma framed_clean_build (E : env) (c : path) (t0 : node) :
  preserves (framed c (touched c) t0) (clean_build E).
Proof. unfold clean_build, bundle, libralm_dxt, touched. preserves_tac. Qed.

Lemma staged_copy_source_files (c : path) :
  preserves (staged c) copy_source_files.
Proof. unfold copy_source_files. preserves_tac. Qed.

Lemma staged_prune_dependencies (E : env) (c : path) :
  preserves (staged c) (prune_dependencies E).
Proof. unfold prune_dependencies. preserves_tac. Qed.

Lemma staged_create_dxt_package {E : env} (c : path) :
  preserves (staged c) (create_dxt_package E).
Proof. unfold create_dxt_package, libralm_dxt. preserves_tac. Qed.

Lemma at_cwd_clean_build (E : env) (c : path) :
  preserves (at_cwd c) (clean_build E).
Proof. unfold clean_build, bundle, libralm_dxt. preserves_tac. Qed.

Lemma at_cwd_create_bundle_dir (c : path) :
  preserves (at_cwd c) create_bundle_dir.
Proof. unfold create_bundle_dir, bundle. preserves_tac. Qed.

Lemma at_cwd_copy_source_files (c : path) :
  preserves (at_cwd c) copy_source_files.
Proof. unfold copy_source_files, bundle. preserves_tac. Qed.

Lemma at_cwd_prune_dependencies (E : env) (c : path) :
  preserves (at_cwd c) (prune_dependencies E).
Proof. unfold prune_dependencies. preserves_tac. Qed.

(** ** The installation *)

Lemma lookup_is_dir_at (p : path) (t : node) (es : entries) :
  lookup p t = Some (Dir es) -> is_dir_at p t = true.
Proof. unfold is_dir_at. now intros ->. Qed.

Lemma is_dir_at_lookup (p : path) (t : node) :
  is_dir_at p t = true -> exists es, lookup p t = Some (Dir es).
Proof.
  unfold is_dir_at. destruct (lookup p t) as [[x|es]|]; try discriminate.
  intros _. now exists es.
Qed.

Lemma lookup_update_same (p : path) (f : entries -> entries) (t : node) (es : entries) :
  lookup p t = Some (Dir es) -> lookup p (update p f t) = Some (Dir (f es)).
Proof.
  intros H. pose proof (lookup_update_above p [] f t) as Hu.
  rewrite app_nil_r in Hu. rewrite Hu, H. reflexivity.
Qed.

(** The package manager has run: whatever it did, the [finally] clause
    finds the original directory and goes back to it. *)
Lemma install_packages_runs (E : env) (t : node) (c : path) (o : list event)
      (x : data) (es : entries) :
  lookup (c ++ ["package.json"]) t = Some (File x) ->
  lookup (c ++ ["bundle"]) t = Some (Dir es) ->
  is_dir_at ((c ++ ["bundle"]) ++ ["package.json"]) t = false ->
  let es1 := put "package.json" (File x) es in
  install_packages E (World t c o)
  = (fst (npm_outcome (fst (npm_install E es1))),
     World (update (c ++ ["bundle"]) (fun _ => snd (npm_install E es1)) t) c
           (o ++ Installing_dependencies
              :: snd (npm_outcome (fst (npm_install E es1))))).
Proof.
  intros Hpj Hb Hnd es1.
  assert (Hc : is_dir_at c t = true) by (eapply is_dir_at_parent; exact Hb).
  unfold install_packages, shutil_copy2, bundle, os_chdir, subprocess_run,
    try_finally, try_except.
  run_monad. rewrite Hpj, basename_snoc, (lookup_is_dir_at _ _ _ Hb), Hnd. simpl.
  rewrite (lookup_update_same _ _ _ _ Hb). simpl.
  rewrite (lookup_update_same _ _ _ _ Hb). simpl.
  fold es1. rewrite update_update.
  assert (Hc' : exists es', lookup c (update (c ++ ["bundle"])
                 (fun _ => snd (npm_install E es1)) t) = Some (Dir es')).
  { apply is_dir_at_lookup. now rewrite is_dir_at_update_above. }
  destruct Hc' as [es' Hc'].
  destruct (fst (npm_install E es1)) as [rc so|e]; simpl.
  - destruct (rc =? 0)%Z; simpl; rewrite Hc'; simpl; rewrite <- app_assoc; reflexivity.
  - destruct e; simpl; rewrite Hc'; simpl; rewrite <- ?app_assoc; reflexivity.
Qed.

(** The copy of [package.json] fails: nothing has changed. *)
Lemma install_packages_stops (E : env) (t : node) (c : path) (o : list event) :
  (forall x es, lookup (c ++ ["package.json"]) t = Some (File x) ->
                lookup (c ++ ["bundle"]) t = Some (Dir es) ->
                is_dir_at ((c ++ ["bundle"]) ++ ["package.json"]) t = true) ->
  exists e, install_packages E (World t c o)
            = (Raise (Exception e), World t c (o ++ [Installing_dependencies]))
            /\ (lookup (c ++ ["package.json"]) t = None -> e = FileNotFoundError).
Proof.
  intros H.
  unfold install_packages, shutil_copy2, bundle.
  run_monad. rewrite basename_snoc.
  destruct (lookup (c ++ ["package.json"]) t) as [[x|es]|] eqn:Hpj; simpl.
  - destruct (is_dir_at (c ++ ["bundle"]) t) eqn:Hb; simpl.
    + destruct (is_dir_at_lookup _ _ Hb) as [es Hes].
      rewrite (H x es eq_refl Hes). simpl.
      exists IsADirectoryError. split; [reflexivity | discriminate].
    + exists FileNotFoundError. split; [reflexivity | discriminate].
  - exists IsADirectoryError. split; [reflexivity | discriminate].
  - exists FileNotFoundError. split; reflexivity.
Qed.

Lemma install_packages_cases (E : env) (w : world) :
  (exists e,
      install_packages E w
      = (Raise (Exception e),
         World (fs w) (cwd w) (out w ++ [Installing_dependencies]))
      /\ (lookup (cwd w ++ ["package.json"]) (fs w) = None -> e = FileNotFoundError))
  \/ (exists x es,
         lookup (cwd w ++ ["package.json"]) (fs w) = Some (File x)
         /\ lookup (cwd w ++ ["bundle"]) (fs w) = Some (Dir es)
         /\ install_packages E w
            = (fst (npm_outcome (fst (npm_install E (put "package.json" (File x) es)))),
               World (update (cwd w ++ ["bundle"])
                        (fun _ => snd (npm_install E (put "package.json" (File x) es)))
                        (fs w))
                     (cwd w)
                     (out w ++ Installing_dependencies
                        :: snd (npm_outcome
                                  (fst (npm_install E (put "package.json" (File x) es))))))).
Proof.
  destruct w as [t c o]. simpl.
  assert (Hstop : (forall x es, lookup (c ++ ["package.json"]) t = Some (File x) ->
                     lookup (c ++ ["bundle"]) t = Some (Dir es) ->
                     is_dir_at ((c ++ ["bundle"]) ++ ["package.json"]) t = true) ->
                  exists e,
                    install_packages E (World t c o)
                    = (Raise (Exception e), World t c (o ++ [Installing_dependencies]))
                    /\ (lookup (c ++ ["package.json"]) t = None -> e = FileNotFoundError))
    by apply install_packages_stops.
  destruct (lookup (c ++ ["package.json"]) t) as [[x|es0]|] eqn:Hpj.
  - destruct (lookup (c ++ ["bundle"]) t) as [[y|es]|] eqn:Hb.
    + left. apply Hstop. intros; discriminate.
    + destruct (is_dir_at ((c ++ ["bundle"]) ++ ["package.json"]) t) eqn:Hnd.
      * left. apply Hstop. intros; reflexivity.
      * right. exists x, es. repeat split.
        apply install_packages_runs; assumption.
    + left. apply Hstop. intros; discriminate.
  - left. apply Hstop. intros; discriminate.
  - left. apply Hstop. intros; discriminate.
Qed.

Lemma at_cwd_install_packages (E : env) (c : path) :
  preserves (at_cwd c) (install_packages E).
Proof.
  intros w Hc. unfold at_cwd in *.
  destruct (install_packages_cases E w) as [[e [-> _]]|[x [es [_ [_ ->]]]]];
    simpl; exact Hc.
Qed.

Lemma staged_install_packages (E : env) (c : path) :
  preserves (staged c) (install_packages E).
Proof.
  intros w [Hc Hb].
  destruct (install_packages_cases E w) as [[e [-> _]]|[x [es [_ [_ ->]]]]];
    simpl; split; simpl; auto.
  rewrite Hc. now rewrite is_dir_at_update_same.
Qed.

Lemma at_cwd_install_dependencies (E : env) (c : path) :
  preserves (at_cwd c) (install_dependencies E).
Proof.
  unfold install_dependencies. apply preserves_bind.
  - apply at_cwd_install_packages.
  - intros _. apply at_cwd_prune_dependencies.
Qed.

(** C1.  Whatever happens to the package manager (it succeeds, it exits
    with a non-zero status and the function ends in [sys.exit], [run]
    raises something else), and also when the function stops before it
    runs the package manager, the working directory after
    [install_dependencies] is the working directory before it. *)
Theorem install_dependencies_restores_cwd (E : env) (w : world) :
  cwd (snd (install_dependencies E w)) = cwd w.
Proof. now apply (at_cwd_install_dependencies E (cwd w) w). Qed.

(** ** The two checks of [main] *)

Lemma check_required_run (manifest : json) (fields : list string) :
  exists r evs,
    (forall w, check_required manifest fields w
               = (r, World (fs w) (cwd w) (out w ++ evs)))
    /\ (forall code, r <> Raise (SystemExit code)).
Proof.
  induction fields as [|f fields IH]; simpl.
  - exists (Return true), [Manifest_is_valid]. split; [|discriminate].
    intros [t c o]. reflexivity.
  - destruct IH as [r [evs [IH Hr]]].
    unfold py_in.
    destruct manifest as [|b|l|s|xs|members];
      try (exists (Raise (Exception TypeError)), []; split; [|discriminate];
           intros [t c o]; run_monad; now rewrite app_nil_r).
    all: match goal with
         | |- context [ret ?b] => destruct b eqn:Hb
         end.
    all: try (exists r, evs; split; [|exact Hr]; intros w; rewrite bind_run;
              unfold ret; simpl; apply IH).
    all: exists (Return false), [Missing_required_field f]; split; [|discriminate];
      intros [t c o]; reflexivity.
Qed.

Arguments check_required : simpl never.

Lemma validate_manifest_run (E : env) (t : node) (c : path) :
  exists b evs,
    forall o, validate_manifest E (World t c o) = (Return b, World t c (o ++ evs)).
Proof.
  unfold validate_manifest, open_json_load, try_except. run_monad.
  assert (Hfail : forall e, exists evs, forall o : list event,
             (@Return bool false,
              World t c ((o ++ [Validating_manifest]) ++ [Error_reading_manifest e]))
             = (Return false, World t c (o ++ evs))).
  { intros e. exists [Validating_manifest; Error_reading_manifest e].
    intros o. now rewrite <- app_assoc. }
  destruct (lookup (c ++ ["manifest.json"]) t) as [[[s|m ms]|es]|]; simpl;
    try (destruct (Hfail FileNotFoundError) as [evs H]; now exists false, evs);
    try (destruct (Hfail IsADirectoryError) as [evs H]; now exists false, evs);
    try (destruct (Hfail ValueError) as [evs H]; now exists false, evs).
  destruct (json_load E s) as [manifest|]; simpl;
    [|destruct (Hfail ValueError) as [evs H]; now exists false, evs].
  destruct (check_required_run manifest required) as [r [evs [Hrun Hr]]].
  destruct r as [b|[e|code]].
  - exists b, (Validating_manifest :: evs). intros o. rewrite Hrun. simpl.
    now rewrite <- app_assoc.
  - exists false, (Validating_manifest :: evs ++ [Error_reading_manifest e]).
    intros o. rewrite Hrun. simpl.
    now rewrite <- !app_assoc.
  - now destruct (Hr code).
Qed.

Lemma check_node_run (E : env) :
  exists r evs,
    (forall w, check_node E w = (r, World (fs w) (cwd w) (out w ++ evs)))
    /\ (forall code, r <> Raise (SystemExit code)).
Proof.
  unfold check_node, subprocess_run, try_except. run_monad.
  destruct (node_version E) as [rc so|e]; simpl.
  - destruct (rc =? 0)%Z; simpl.
    + exists (Return true), [Node_found (strip so)]. split; [|discriminate].
      now intros [t c o].
    + exists (Return false), [Node_not_found]. split; [|discriminate]. now intros [t c o].
  - destruct e; simpl;
      try (exists (Return false), [Node_not_found]; split; [|discriminate];
           now intros [t c o]);
      eexists (Raise (Exception _)), []; (split; [|discriminate]);
      intros [t c o]; simpl; now rewrite app_nil_r.
Qed.

(** [main] up to the [try] statement: the two checks pass and the build
    starts, or the process ends with status 1 and the tree as it was. *)
Lemma main_checks (E : env) (t : node) (c : path) (o : list event) :
  exists evs,
    (fst (check_node E (World t c o)) = Return true
     /\ fst (validate_manifest E (World t c o)) = Return true
     /\ main E (World t c o)
        = try_except (build_steps E) (except_Exception) (World t c (o ++ evs)))
    \/ ((fst (check_node E (World t c o)) <> Return true
         \/ fst (validate_manifest E (World t c o)) = Return false)
        /\ exit_status (fst (main E (World t c o))) = 1%Z
        /\ snd (main E (World t c o)) = World t c (o ++ evs)).
Proof.
  destruct (check_node_run E) as [rn [evn [Hn Hrn]]].
  destruct (validate_manifest_run E t c) as [b [evv Hv]].
  rewrite (Hn (World t c o)), (Hv o). simpl.
  remember (main E (World t c o)) as R eqn:HR.
  unfold main in HR. rewrite bind_run in HR. unfold print at 1 in HR.
  cbv beta iota in HR. rewrite bind_run in HR. unfold print at 1 in HR.
  cbv beta iota in HR. rewrite bind_run, Hn in HR. simpl in HR.
  destruct rn as [[|]|[e|code]]; simpl in HR.
  - rewrite bind_run in HR. unfold when at 1, ret at 1 in HR. cbv beta iota in HR.
    rewrite bind_run, Hv in HR.
    destruct b; simpl in HR.
    + exists (Building_banner :: Banner_rule :: evn ++ evv). left. repeat split.
      rewrite bind_run in HR. unfold ret at 1 in HR. cbv beta iota in HR.
      now rewrite <- !app_assoc in HR.
    + exists (Building_banner :: Banner_rule
                :: evn ++ evv ++ [Build_failed_invalid_manifest]).
      right. split; [now right|]. subst R. simpl. split; [reflexivity|].
      now rewrite <- !app_assoc.
  - exists (Building_banner :: Banner_rule
              :: evn ++ [Build_failed_node_required; Please_install_node]).
    right. split; [left; discriminate|]. subst R. simpl. split; [reflexivity|].
    now rewrite <- !app_assoc.
  - exists (Building_banner :: Banner_rule :: evn).
    right. split; [left; discriminate|]. subst R. simpl. split; [reflexivity|].
    now rewrite <- !app_assoc.
  - now destruct (Hrn code).
Qed.

Lemma first_missing_split (members : list (string * json)) (fields : list string) :
  (exists f, In f fields /\ has_key f members = false) ->
  exists before field after,
    fields = before ++ field :: after
    /\ (forall f, In f before -> has_key f members = true)
    /\ has_key field members = false.
Proof.
  induction fields as [|f0 fields IH]; intros [f [Hin Hf]]; [destruct Hin|].
  destruct (has_key f0 members) eqn:H0.
  - destruct Hin as [->|Hin]; [congruence|].
    destruct IH as [before [field [after [-> [Hb Hm]]]]]; [now exists f|].
    exists (f0 :: before), field, after. repeat split; auto;
      intros g [<-|Hg]; auto.
  - exists [], f0, fields. repeat split; auto; intros g [].
Qed.

Lemma check_required_missing (members : list (string * json))
      (before : list string) (field : string) (after : list string) (w : world) :
  (forall f, In f before -> has_key f members = true) ->
  has_key field members = false ->
  check_required (JObject members) (before ++ field :: after) w
  = (Return false,
     World (fs w) (cwd w) (out w ++ [Missing_required_field field])).
Proof.
  intros Hb Hm. induction before as [|f before IH]; simpl.
  - unfold check_required. run_monad. rewrite Hm. now destruct w.
  - unfold check_required. fold check_required. run_monad.
    rewrite (Hb f (or_introl eq_refl)). simpl. apply IH.
    intros g Hg. apply Hb. now right.
Qed.

(** C2.  The manifest parses to an object that lacks one of the six
    required keys: [validate_manifest] returns [False] after a single
    report, which names the first missing key in the order of the list
    and no other, and the run ends with status 1. *)
Theorem validate_manifest_reports_first_missing_key
        (E : env) (w : world) (text : string) (members : list (string * json)) :
  lookup (cwd w ++ ["manifest.json"]) (fs w) = Some (File (Bytes text)) ->
  json_load E text = Some (JObject members) ->
  (exists f, In f required /\ has_key f members = false) ->
  exists before field after,
    required = before ++ field :: after
    /\ (forall f, In f before -> has_key f members = true)
    /\ has_key field members = false
    /\ validate_manifest E w
       = (Return false,
          World (fs w) (cwd w)
                (out w ++ [Validating_manifest; Missing_required_field field]))
    /\ fst (run E w) = 1%Z.
Proof.
  intros Hfile Hload Hmiss.
  destruct (first_missing_split members required Hmiss)
    as [before [field [after [Hreq [Hb Hm]]]]].
  exists before, field, after.
  assert (Hv : validate_manifest E w
               = (Return false,
                  World (fs w) (cwd w)
                        (out w ++ [Validating_manifest; Missing_required_field field]))).
  { unfold validate_manifest, open_json_load, try_except. run_monad.
    rewrite Hfile, Hload. simpl. rewrite Hreq.
    rewrite (check_required_missing members before field after _ Hb Hm). simpl.
    now rewrite <- app_assoc. }
  repeat split; auto.
  unfold run. simpl. destruct w as [t c o].
  destruct (main_checks E t c o) as [evs [[_ [Hok _]]|[_ [Hexit _]]]].
  - rewrite Hv in Hok. discriminate.
  - exact Hexit.
Qed.

Lemma validate_manifest_reports_first_missing_key_witness :
  exists before field after,
    required = before ++ field :: after
    /\ (forall f, In f before -> has_key f [("dxt_version", JString "0.1");
          ("name", JString "libralm"); ("description", JString "books");
          ("server", JObject [])] = true)
    /\ has_key field [("dxt_version", JString "0.1");
          ("name", JString "libralm"); ("description", JString "books");
          ("server", JObject [])] = false
    /\ validate_manifest demo_env demo_short_world
       = (Return false,
          World (fs demo_short_world) (cwd demo_short_world)
                (out demo_short_world
                   ++ [Validating_manifest; Missing_required_field field]))
    /\ fst (run demo_env demo_short_world) = 1%Z.
Proof.
  apply (validate_manifest_reports_first_missing_key
           demo_env demo_short_world demo_short_text).
  - reflexivity.
  - reflexivity.
  - exists "version". split; [simpl; tauto | reflexivity].
Defined.

(** C9.  The prerequisite check or the validation of the manifest fails:
    the process ends with status 1, and the tree (an archive and a staging
    directory of an earlier run included) and the working directory are
    what they were. *)
Theorem failed_checks_change_nothing (E : env) (w : world) :
  fst (check_node E w) <> Return true
  \/ fst (validate_manifest E w) <> Return true ->
  fst (run E w) = 1%Z
  /\ fs (snd (run E w)) = fs w
  /\ cwd (snd (run E w)) = cwd w.
Proof.
  intros H. unfold run. simpl. destruct w as [t c o].
  destruct (main_checks E t c o) as [evs [[Hn [Hv _]]|[_ [Hexit Hw]]]].
  - destruct H as [H|H]; contradiction.
  - rewrite Hw. simpl. auto.
Qed.

Lemma failed_checks_change_nothing_witness :
  fst (run demo_env_no_node demo_world) = 1%Z
  /\ fs (snd (run demo_env_no_node demo_world)) = fs demo_world
  /\ cwd (snd (run demo_env_no_node demo_world)) = cwd demo_world.
Proof.
  apply (failed_checks_change_nothing demo_env_no_node demo_world).
  left. vm_compute. discriminate.
Defined.

(** ** Removing a tree *)

Lemma rmtree_node_Dir (E : env) (b : bool) (p : path) (es : entries) :
  rmtree_node E b p (Dir es)
  = match rmtree_children (rmtree_node E b) b p es with
    | [] => if deny E p then Refused (Dir []) else Removed
    | rest => Refused (Dir rest)
    end.
Proof. reflexivity. Qed.

Lemma rmtree_node_File (E : env) (b : bool) (p : path) (d : data) :
  rmtree_node E b p (File d) = if deny E p then Refused (File d) else Removed.
Proof. reflexivity. Qed.

(** Nothing is refused at or below [p]: the tree goes. *)
Lemma rmtree_node_allowed (E : env) (b : bool) (n : node) :
  forall p, (forall q, deny E (p ++ q) = false) -> rmtree_node E b p n = Removed.
Proof.
  induction n as [d|es IH] using node_ind'; intros p Hp.
  - rewrite rmtree_node_File. specialize (Hp []). rewrite app_nil_r in Hp.
    now rewrite Hp.
  - rewrite rmtree_node_Dir.
    assert (Hes : rmtree_children (rmtree_node E b) b p es = []).
    { induction es as [|[k c] es IHes]; simpl; [reflexivity|].
      inversion IH as [|? ? Hc Hrest]; subst. simpl in Hc.
      rewrite Hc; [now apply IHes|].
      intros q. rewrite <- app_assoc. apply Hp. }
    rewrite Hes. specialize (Hp []). rewrite app_nil_r in Hp. now rewrite Hp.
Qed.

(** What a refused removal leaves is refused again, and left as it is. *)
Lemma rmtree_node_again (E : env) (b : bool) (n : node) :
  forall p r, rmtree_node E b p n = Refused r -> rmtree_node E b p r = Refused r.
Proof.
  induction n as [d|es IH] using node_ind'; intros p r.
  - rewrite rmtree_node_File. destruct (deny E p) eqn:Hd; [|discriminate].
    intros [= <-]. rewrite rmtree_node_File. now rewrite Hd.
  - rewrite rmtree_node_Dir.
    assert (Hes : rmtree_children (rmtree_node E b) b p
                    (rmtree_children (rmtree_node E b) b p es)
                  = rmtree_children (rmtree_node E b) b p es).
    { induction es as [|[k c] es IHes]; simpl; [reflexivity|].
      inversion IH as [|? ? Hc Hrest]; subst. simpl in Hc.
      destruct (rmtree_node E b (p ++ [k]) c) as [|c'] eqn:Hrm; [now apply IHes|].
      simpl. rewrite (Hc _ _ Hrm).
      destruct b; [now rewrite IHes | reflexivity]. }
    destruct (rmtree_children (rmtree_node E b) b p es) as [|e rest] eqn:Hrest.
    + destruct (deny E p) eqn:Hd; [|discriminate].
      intros [= <-]. rewrite rmtree_node_Dir. simpl. now rewrite Hd.
    + intros [= <-]. rewrite rmtree_node_Dir, Hes. reflexivity.
Qed.

Lemma rmtree_node_leaves_dir (E : env) (b : bool) (p : path) (es : entries) (r : node) :
  rmtree_node E b p (Dir es) = Refused r -> exists es', r = Dir es'.
Proof.
  rewrite rmtree_node_Dir.
  destruct (rmtree_children (rmtree_node E b) b p es) as [|e rest].
  - destruct (deny E p); [|discriminate]. intros [= <-]. now exists [].
  - intros [= <-]. now eexists.
Qed.

(** ** [clean_build] *)

Lemma clean_build_steps (E : env) (w : world) :
  clean_build E w
  = (print Cleaning_previous_build ;; remove_old_bundle E ;; remove_old_archive E) w.
Proof.
  unfold clean_build, remove_old_bundle, remove_old_archive.
  rewrite !bind_run. destruct (print Cleaning_previous_build w) as [[u|x] w1]; [|reflexivity].
  rewrite !bind_run. destruct (os_path_exists bundle w1) as [[b|x] w2]; [|reflexivity].
  rewrite !bind_run. destruct (when b (shutil_rmtree E bundle false) w2) as [[u'|x] w3];
    reflexivity.
Qed.

Lemma remove_old_bundle_spec (E : env) (t : node) (c : path) :
  exists r t',
    (forall o, remove_old_bundle E (World t c o) = (r, World t' c o))
    /\ (forall o, remove_old_bundle E (World t' c o) = (r, World t' c o))
    /\ (r = Return tt -> lookup (c ++ ["bundle"]) t' = None)
    /\ (is_file_at (c ++ ["bundle"]) t = false ->
        (forall q, deny E ((c ++ ["bundle"]) ++ q) = false) -> r = Return tt)
    /\ (is_dir_at (c ++ ["bundle"]) t = true -> r <> Return tt ->
        is_dir_at (c ++ ["bundle"]) t' = true)
    /\ frame [c ++ ["bundle"]] t t'.
Proof.
  unfold remove_old_bundle, os_path_exists, shutil_rmtree, bundle, exists_at,
    is_file_at, is_dir_at.
  run_monad.
  destruct (lookup (c ++ ["bundle"]) t) as [[d|es]|] eqn:Hb.
  - exists (Raise (Exception NotADirectoryError)), t.
    repeat (progress (simpl; rewrite ?Hb)).
    repeat split; try discriminate; auto using frame_refl.
  - assert (Hc : is_dir_at c t = true) by (eapply is_dir_at_parent; exact Hb).
    destruct (rmtree_node E false (c ++ ["bundle"]) (Dir es)) as [|r] eqn:Hrm.
    + exists (Return tt), (set_at (c ++ ["bundle"]) None t).
      repeat (progress (simpl;
                        rewrite ?Hb, ?Hrm, ?(lookup_set_at_same c "bundle" None t Hc))).
      repeat split; auto using frame_set_at; intros _ H; now destruct H.
    + exists (Raise (Exception PermissionError)), (set_at (c ++ ["bundle"]) (Some r) t).
      destruct (rmtree_node_leaves_dir E false _ es r Hrm) as [es' ->].
      pose proof (rmtree_node_again E false (Dir es) _ _ Hrm) as Hagain.
      repeat (progress (simpl;
                        rewrite ?Hb, ?Hrm, ?Hagain,
                          ?(lookup_set_at_same c "bundle" (Some (Dir es')) t Hc))).
      rewrite set_at_set_at.
      repeat split; try discriminate; auto using frame_set_at.
      intros _ Hd. rewrite (rmtree_node_allowed E false (Dir es) _ Hd) in Hrm.
      discriminate.
  - exists (Return tt), t.
    repeat (progress (simpl; rewrite ?Hb)).
    repeat split; auto using frame_refl; discriminate.
Qed.

Lemma remove_old_archive_spec (E : env) (t : node) (c : path) :
  exists r t',
    (forall o, remove_old_archive E (World t c o) = (r, World t' c o))
    /\ (forall o, remove_old_archive E (World t' c o) = (r, World t' c o))
    /\ (r = Return tt -> lookup (c ++ ["libralm.dxt"]) t' = None)
    /\ (is_dir_at (c ++ ["libralm.dxt"]) t = false ->
        deny E (c ++ ["libralm.dxt"]) = false -> r = Return tt)
    /\ frame [c ++ ["libralm.dxt"]] t t'.
Proof.
  unfold remove_old_archive, os_path_exists, os_remove, libralm_dxt, exists_at,
    is_dir_at, unlink_node.
  run_monad.
  destruct (lookup (c ++ ["libralm.dxt"]) t) as [[d|es]|] eqn:Ha.
  - assert (Hc : is_dir_at c t = true) by (eapply is_dir_at_parent; exact Ha).
    destruct (deny E (c ++ ["libralm.dxt"])) eqn:Hd.
    + exists (Raise (Exception PermissionError)), t.
      repeat (progress (simpl; rewrite ?Ha, ?Hd)).
      repeat split; try discriminate; auto using frame_refl.
    + exists (Return tt), (set_at (c ++ ["libralm.dxt"]) None t).
      repeat (progress (simpl;
                        rewrite ?Ha, ?Hd, ?(lookup_set_at_same c "libralm.dxt" None t Hc))).
      repeat split; auto. apply frame_set_at.
  - exists (Raise (Exception IsADirectoryError)), t.
    repeat (progress (simpl; rewrite ?Ha)).
    repeat split; try discriminate; auto using frame_refl.
  - exists (Return tt), t.
    repeat (progress (simpl; rewrite ?Ha)).
    repeat split; auto using frame_refl.
Qed.

Lemma remove_old_bundle_absent (E : env) (t : node) (c : path) (o : list event) :
  lookup (c ++ ["bundle"]) t = None ->
  remove_old_bundle E (World t c o) = (Return tt, World t c o).
Proof.
  intros H. unfold remove_old_bundle, os_path_exists, bundle, exists_at.
  run_monad. now rewrite H.
Qed.

Lemma diverge_bundle_archive (c : path) :
  diverge (c ++ ["libralm.dxt"]) (c ++ ["bundle"]) = true.
Proof. now rewrite diverge_common. Qed.

Lemma diverge_archive_bundle (c : path) :
  diverge (c ++ ["bundle"]) (c ++ ["libralm.dxt"]) = true.
Proof. now rewrite diverge_common. Qed.

Lemma frame_one (p q : path) (t t' : node) :
  frame [p] t t' -> diverge p q = true -> lookup q t' = lookup q t.
Proof. intros H Hd. apply H. intros p' [<-|[]]. exact Hd. Qed.

(** One run of [clean_build] and a second one after it. *)
Lemma clean_build_run (E : env) (t : node) (c : path) :
  exists r t',
    (forall o, clean_build E (World t c o)
               = (r, World t' c (o ++ [Cleaning_previous_build])))
    /\ (forall o, clean_build E (World t' c o)
                  = (r, World t' c (o ++ [Cleaning_previous_build])))
    /\ (r = Return tt ->
        lookup (c ++ ["bundle"]) t' = None /\ lookup (c ++ ["libralm.dxt"]) t' = None)
    /\ (is_file_at (c ++ ["bundle"]) t = false ->
        is_dir_at (c ++ ["libralm.dxt"]) t = false ->
        (forall q, deny E ((c ++ ["bundle"]) ++ q) = false) ->
        deny E (c ++ ["libralm.dxt"]) = false ->
        r = Return tt).
Proof.
  destruct (remove_old_bundle_spec E t c)
    as [r1 [t1 [Hb1 [Hb2 [Hbp [Hbok [_ Hbf]]]]]]].
  destruct r1 as [[]|x].
  - destruct (remove_old_archive_spec E t1 c)
      as [r2 [t2 [Ha1 [Ha2 [Hap [Haok Haf]]]]]].
    assert (Hbt2 : lookup (c ++ ["bundle"]) t2 = None).
    { rewrite (frame_one _ _ _ _ Haf (diverge_bundle_archive c)). now apply Hbp. }
    exists r2, t2. repeat split.
    + intros o. rewrite clean_build_steps, bind_run. unfold print at 1. simpl.
      rewrite bind_run, Hb1. apply Ha1.
    + intros o. rewrite clean_build_steps, bind_run. unfold print at 1. simpl.
      rewrite bind_run, remove_old_bundle_absent by exact Hbt2. apply Ha2.
    + exact Hbt2.
    + now apply Hap.
    + intros _ Hd _ Hda. apply Haok; [|exact Hda].
      unfold is_dir_at in *.
      now rewrite (frame_one _ _ _ _ Hbf (diverge_archive_bundle c)).
  - exists (Raise x), t1. repeat split; try discriminate.
    + intros o. rewrite clean_build_steps, bind_run. unfold print at 1. simpl.
      rewrite bind_run, Hb1. reflexivity.
    + intros o. rewrite clean_build_steps, bind_run. unfold print at 1. simpl.
      rewrite bind_run, Hb2. reflexivity.
    + intros Hf _ Hd _. now apply Hbok.
Qed.

(** C6.  [clean_build] succeeds when the staging directory and the archive
    are there to remove (a directory and a file that the system lets go) or
    are absent; after it has returned neither of them exists; and a second
    run in a row ends as the first did and leaves the tree of the first. *)
Theorem clean_build_removes_and_is_idempotent (E : env) (w : world) :
  let w1 := snd (clean_build E w) in
  (is_file_at (cwd w ++ ["bundle"]) (fs w) = false ->
   is_dir_at (cwd w ++ ["libralm.dxt"]) (fs w) = false ->
   (forall q, deny E ((cwd w ++ ["bundle"]) ++ q) = false) ->
   deny E (cwd w ++ ["libralm.dxt"]) = false ->
   fst (clean_build E w) = Return tt)
  /\ (fst (clean_build E w) = Return tt ->
      exists_at (cwd w ++ ["bundle"]) (fs w1) = false
      /\ exists_at (cwd w ++ ["libralm.dxt"]) (fs w1) = false)
  /\ cwd w1 = cwd w
  /\ fst (clean_build E w1) = fst (clean_build E w)
  /\ fs (snd (clean_build E w1)) = fs w1
  /\ cwd (snd (clean_build E w1)) = cwd w1.
Proof.
  destruct w as [t c o]. simpl.
  destruct (clean_build_run E t c) as [r [t' [H1 [H2 [Hp Hok]]]]].
  rewrite (H1 o). simpl. rewrite (H2 _). simpl.
  split; [exact Hok|]. split; [|auto].
  intros Hr. destruct (Hp Hr) as [Hb Ha]. unfold exists_at.
  now rewrite Hb, Ha.
Qed.

Lemma clean_build_removes_and_is_idempotent_witness :
  fst (clean_build demo_env demo_world) = Return tt
  /\ exists_at (demo_home ++ ["bundle"])
               (fs (snd (clean_build demo_env demo_world))) = false
  /\ exists_at (demo_home ++ ["libralm.dxt"])
               (fs (snd (clean_build demo_env demo_world))) = false
  /\ fs (snd (clean_build demo_env (snd (clean_build demo_env demo_world))))
     = fs (snd (clean_build demo_env demo_world)).
Proof.
  pose proof (clean_build_removes_and_is_idempotent demo_env demo_world) as H.
  simpl in H. destruct H as [Hok [Hgone [_ [_ [Hsame _]]]]].
  assert (Hr : fst (clean_build demo_env demo_world) = Return tt).
  { apply Hok; reflexivity. }
  destruct (Hgone Hr) as [Hb Ha].
  repeat split; assumption.
Defined.

(** ** [copy_source_files] *)

Lemma lookup_child_put (p : path) (f g : string) (v : node) (t : node) :
  is_dir_at p t = true ->
  lookup (p ++ [g]) (update p (put f v) t)
  = if String.eqb g f then Some v else lookup (p ++ [g]) t.
Proof.
  intros Hd. destruct (is_dir_at_lookup _ _ Hd) as [es Hes].
  rewrite lookup_update_below, lookup_app, Hes.
  unfold update. simpl.
  destruct (String.eqb g f) eqn:Hg.
  - apply String.eqb_eq in Hg. subst g. now rewrite find_put_same.
  - rewrite find_put_other; [reflexivity|].
    intros ->. now rewrite String.eqb_refl in Hg.
Qed.

Lemma shutil_copy2_file (t : node) (c : path) (o : list event) (f : string) (x : data) :
  lookup (c ++ [f]) t = Some (File x) ->
  is_dir_at (c ++ ["bundle"]) t = true ->
  is_dir_at ((c ++ ["bundle"]) ++ [f]) t = false ->
  shutil_copy2 (Rel [f]) bundle (World t c o)
  = (Return tt, World (update (c ++ ["bundle"]) (put f (File x)) t) c o).
Proof.
  intros Hf Hb Hn. unfold shutil_copy2, bundle. run_monad.
  rewrite Hf, basename_snoc, Hb, Hn. reflexivity.
Qed.

Lemma lookup_source_after_copy (c : path) (f g : string) (v : node) (t : node) :
  g <> "bundle" ->
  lookup (c ++ [g]) (update (c ++ ["bundle"]) (put f v) t) = lookup (c ++ [g]) t.
Proof.
  intros Hg. apply lookup_update_diverge. rewrite diverge_common.
  change (diverge ["bundle"] [g]) with (if String.eqb "bundle" g then false else true).
  destruct (String.eqb "bundle" g) eqn:H; [|reflexivity].
  apply String.eqb_eq in H. congruence.
Qed.

(** The loop of [copy_source_files], for any list of names. *)
Lemma copy_loop (fl : list string) :
  forall (t : node) (c : path) (o : list event),
    is_dir_at (c ++ ["bundle"]) t = true ->
    (forall f, In f fl -> f <> "bundle") ->
    (forall f, In f fl -> is_dir_at (c ++ [f]) t = false) ->
    (forall f, In f fl -> is_dir_at ((c ++ ["bundle"]) ++ [f]) t = false) ->
    exists t' o',
      for_each fl (fun file =>
        b <- os_path_exists (Rel [file]) ;;
        when b (shutil_copy2 (Rel [file]) bundle ;; print (Copied file)))
        (World t c o)
      = (Return tt, World t' c o')
      /\ is_dir_at (c ++ ["bundle"]) t' = true
      /\ frame [c ++ ["bundle"]] t t'
      /\ (forall name,
             lookup ((c ++ ["bundle"]) ++ [name]) t'
             = if existsb (String.eqb name) fl && exists_at (c ++ [name]) t
               then lookup (c ++ [name]) t
               else lookup ((c ++ ["bundle"]) ++ [name]) t).
Proof.
  induction fl as [|f fl IH]; intros t c o Hb Hnb Hsrc Hdst.
  - exists t, o. repeat split; auto using frame_refl.
  - simpl for_each. rewrite bind_run.
    unfold os_path_exists at 1. run_monad.
    destruct (lookup (c ++ [f]) t) as [[x|es]|] eqn:Hf.
    + unfold exists_at at 1. rewrite Hf. simpl.
      rewrite (shutil_copy2_file t c o f x Hf Hb (Hdst f (or_introl eq_refl))). simpl.
      set (t1 := update (c ++ ["bundle"]) (put f (File x)) t).
      assert (Hsame : forall g, g <> "bundle" -> lookup (c ++ [g]) t1 = lookup (c ++ [g]) t)
        by (intros g Hg; apply lookup_source_after_copy, Hg).
      destruct (IH t1 c (o ++ [Copied f])) as [t' [o' [Hrun [Hb' [Hfr Hlk]]]]].
      * unfold t1. now rewrite is_dir_at_update_same.
      * intros g Hg. apply Hnb. now right.
      * intros g Hg. unfold is_dir_at. rewrite Hsame by (apply Hnb; now right).
        apply Hsrc. now right.
      * intros g Hg. unfold is_dir_at, t1. rewrite lookup_child_put by exact Hb.
        destruct (String.eqb g f); [reflexivity|]. apply Hdst. now right.
      * exists t', o'. split; [exact Hrun|]. split; [exact Hb'|]. split.
        { eapply frame_trans; [apply frame_update_same | exact Hfr]. }
        intros name. rewrite Hlk. unfold exists_at. subst t1.
        rewrite lookup_child_put by exact Hb.
        destruct (String.eqb name f) eqn:Hname; simpl.
        -- apply String.eqb_eq in Hname. subst name.
           rewrite Hsame by (apply Hnb; now left). rewrite Hf.
           now destruct (existsb (String.eqb f) fl).
        -- destruct (existsb (String.eqb name) fl) eqn:Hin; simpl; [|reflexivity].
           apply existsb_exists in Hin. destruct Hin as [g [Hg Heq]].
           apply String.eqb_eq in Heq. subst g.
           rewrite Hsame by (apply Hnb; now right). reflexivity.
    + specialize (Hsrc f (or_introl eq_refl)). unfold is_dir_at in Hsrc.
      rewrite Hf in Hsrc. discriminate.
    + unfold exists_at at 1. rewrite Hf. simpl.
      destruct (IH t c o Hb (fun g Hg => Hnb g (or_intror Hg))
                   (fun g Hg => Hsrc g (or_intror Hg))
                   (fun g Hg => Hdst g (or_intror Hg)))
        as [t' [o' [Hrun [Hb' [Hfr Hlk]]]]].
      exists t', o'. repeat split; auto.
      intros name. rewrite Hlk.
      destruct (String.eqb name f) eqn:Hname; simpl; [|reflexivity].
      apply String.eqb_eq in Hname. subst name.
      unfold exists_at. rewrite Hf. now rewrite andb_false_r.
Qed.



(** ** Pruning *)

Lemma height_Dir (es : entries) :
  height (Dir es) = S (list_max (map (fun e => height (snd e)) es)).
Proof. reflexivity. Qed.

Lemma height_child (es : entries) (e : string * node) (fuel : nat) :
  height (Dir es) <= S fuel -> In e es -> height (snd e) <= fuel.
Proof.
  rewrite height_Dir. intros H Hin.
  apply le_S_n in H. rewrite list_max_le in H. rewrite Forall_forall in H.
  apply H. apply in_map_iff. now exists e.
Qed.

Lemma rglob_remove_S (E : env) (fuel : nat) (pattern : string) (p : path) (es : entries) :
  rglob_remove E (S fuel) pattern p es
  = map (fun e =>
           match snd e with
           | Dir sub => (fst e, Dir (rglob_remove E fuel pattern (p ++ [fst e]) sub))
           | File _ => e
           end) (sweep E pattern p es).
Proof. reflexivity. Qed.

Lemma clean_Dir (pattern : string) (es : entries) :
  clean pattern (Dir es)
  = forallb (fun e => negb (glob_match pattern (fst e)) && clean pattern (snd e)) es.
Proof. reflexivity. Qed.

(** Nothing is refused below [p]: the sweep drops the matches. *)
Lemma sweep_allowed (E : env) (pattern : string) (p : path) (es : entries) :
  (forall q, deny E (p ++ q) = false) ->
  sweep E pattern p es = filter (fun e => negb (glob_match pattern (fst e))) es.
Proof.
  intros Hp. unfold sweep. induction es as [|[k c] es IH]; simpl; [reflexivity|].
  rewrite IH. destruct (glob_match pattern k) eqn:Hk; simpl; [|reflexivity].
  assert (Hq : forall q, deny E ((p ++ [k]) ++ q) = false)
    by (intros q; rewrite <- app_assoc; apply Hp).
  unfold remove_match. destruct c as [d|sub]; simpl.
  - unfold unlink_node. specialize (Hq []). rewrite app_nil_r in Hq. now rewrite Hq.
  - now rewrite (rmtree_node_allowed E true (Dir sub) _ Hq).
Qed.

Lemma rglob_remove_clean (E : env) (pattern : string) (fuel : nat) :
  forall p es,
    height (Dir es) <= fuel ->
    (forall q, deny E (p ++ q) = false) ->
    clean pattern (Dir (rglob_remove E fuel pattern p es)) = true.
Proof.
  induction fuel as [|fuel IH]; intros p es Hh Hp.
  - rewrite height_Dir in Hh. inversion Hh.
  - rewrite rglob_remove_S, sweep_allowed by exact Hp.
    rewrite clean_Dir, forallb_forall. intros e' He'.
    apply in_map_iff in He'. destruct He' as [[k c] [<- He]].
    apply filter_In in He. destruct He as [Hin Hk]. simpl in *.
    destruct c as [d|sub]; simpl; rewrite Hk; simpl; [reflexivity|].
    apply IH.
    + apply (height_child es (k, Dir sub) fuel Hh Hin).
    + intros q. rewrite <- app_assoc. apply Hp.
Qed.

Lemma rglob_remove_keeps_clean (E : env) (pattern pattern0 : string) (fuel : nat) :
  forall p es,
    (forall q, deny E (p ++ q) = false) ->
    clean pattern0 (Dir es) = true ->
    clean pattern0 (Dir (rglob_remove E fuel pattern p es)) = true.
Proof.
  induction fuel as [|fuel IH]; intros p es Hp Hc; [exact Hc|].
  rewrite rglob_remove_S, sweep_allowed by exact Hp.
  rewrite clean_Dir, forallb_forall in *. intros e' He'.
  apply in_map_iff in He'. destruct He' as [[k c] [<- He]].
  apply filter_In in He. destruct He as [Hin _].
  specialize (Hc (k, c) Hin). simpl in *.
  apply andb_prop in Hc. destruct Hc as [Hk Hcc].
  destruct c as [d|sub]; simpl; rewrite Hk; simpl; [reflexivity|].
  apply IH; [|exact Hcc].
  intros q. rewrite <- app_assoc. apply Hp.
Qed.

Lemma find_In (k : string) (es : entries) (c : node) :
  find k es = Some c -> In (k, c) es.
Proof.
  induction es as [|[k' n] es IH]; simpl; [discriminate|].
  destruct (String.eqb k' k) eqn:Hk.
  - intros [= ->]. apply String.eqb_eq in Hk. subst. now left.
  - intros H. right. now apply IH.
Qed.


Lemma find_sweep_other (E : env) (pattern : string) (p : path) (es : entries)
      (k : string) :
  glob_match pattern k = false -> find k (sweep E pattern p es) = find k es.
Proof.
  intros Hk. unfold sweep. induction es as [|[k' c] es IH]; simpl; [reflexivity|].
  destruct (String.eqb k' k) eqn:Hkk.
  - apply String.eqb_eq in Hkk. subst k'. rewrite Hk. simpl.
    now rewrite String.eqb_refl.
  - destruct (glob_match pattern k'); simpl.
    + destruct (remove_match E (p ++ [k']) c); simpl; [rewrite Hkk|]; exact IH.
    + rewrite Hkk. exact IH.
Qed.

Lemma find_map_same_name (g : string * node -> string * node) (es : entries)
      (k : string) :
  (forall e, fst (g e) = fst e) ->
  find k (map g es) = option_map (fun c => snd (g (k, c))) (find k es).
Proof.
  intros Hg. induction es as [|[k' c] es IH]; simpl; [reflexivity|].
  pose proof (Hg (k', c)) as H. destruct (g (k', c)) as [k'' c'] eqn:He.
  simpl in H. subst k''.
  destruct (String.eqb k' k) eqn:Hk; [|exact IH].
  apply String.eqb_eq in Hk. subst k'. simpl. now rewrite He.
Qed.

(** A file none of whose path components matches stays, whatever is
    refused. *)
Lemma rglob_remove_keeps_file (E : env) (pattern : string) (fuel : nat) :
  forall p es q d,
    lookup q (Dir es) = Some (File d) ->
    forallb (fun k => negb (glob_match pattern k)) q = true ->
    lookup q (Dir (rglob_remove E fuel pattern p es)) = Some (File d).
Proof.
  induction fuel as [|fuel IH]; intros p es q d Hl Hq; [exact Hl|].
  destruct q as [|k q]; [discriminate|].
  simpl in Hl, Hq. apply andb_prop in Hq. destruct Hq as [Hk Hq].
  apply negb_true_iff in Hk.
  rewrite rglob_remove_S. simpl.
  rewrite find_map_same_name by (intros [k' [d'|sub]]; reflexivity).
  rewrite find_sweep_other by exact Hk.
  destruct (find k es) as [c|]; [|discriminate]. simpl.
  destruct c as [d'|sub]; simpl; [exact Hl|].
  now apply IH.
Qed.

Lemma lookup_prune_tree (E : env) (pattern : string) (p : path) (t : node) (q : path) :
  lookup (p ++ q) (prune_tree E pattern p t)
  = match lookup p t with
    | Some (Dir es) =>
        lookup q (Dir (rglob_remove E (height (Dir es)) pattern p es))
    | Some (File d) => lookup q (File d)
    | None => None
    end.
Proof.
  unfold prune_tree. destruct (lookup p t) as [[d|es]|] eqn:Hp.
  - now rewrite lookup_app, Hp.
  - now rewrite lookup_update_below, Hp.
  - now rewrite lookup_app, Hp.
Qed.

Lemma clean_at_prune_tree (E : env) (pattern : string) (p : path) (t : node) :
  (forall q, deny E (p ++ q) = false) ->
  clean_at pattern p (prune_tree E pattern p t) = true.
Proof.
  intros Hp. unfold clean_at.
  pose proof (lookup_prune_tree E pattern p t []) as H. rewrite app_nil_r in H.
  rewrite H. destruct (lookup p t) as [[d|es]|]; simpl; try reflexivity.
  now apply rglob_remove_clean.
Qed.

Lemma clean_at_kept (E : env) (pattern pattern0 : string) (p : path) (t : node) :
  (forall q, deny E (p ++ q) = false) ->
  clean_at pattern0 p t = true ->
  clean_at pattern0 p (prune_tree E pattern p t) = true.
Proof.
  intros Hp. unfold clean_at.
  pose proof (lookup_prune_tree E pattern p t []) as H. rewrite app_nil_r in H.
  rewrite H. destruct (lookup p t) as [[d|es]|]; simpl; try reflexivity.
  now apply rglob_remove_keeps_clean.
Qed.

Lemma clean_at_fold_kept (E : env) (pattern0 : string) (p : path)
      (patterns : list string) :
  (forall q, deny E (p ++ q) = false) ->
  forall t, clean_at pattern0 p t = true ->
            clean_at pattern0 p
              (fold_left (fun t pattern => prune_tree E pattern p t) patterns t) = true.
Proof.
  intros Hp. induction patterns as [|a l IH]; intros t Ht; simpl; [exact Ht|].
  apply IH. now apply clean_at_kept.
Qed.

Lemma clean_at_fold (E : env) (p : path) (patterns : list string) :
  (forall q, deny E (p ++ q) = false) ->
  forall t pattern,
    In pattern patterns ->
    clean_at pattern p
      (fold_left (fun t pattern => prune_tree E pattern p t) patterns t) = true.
Proof.
  intros Hp. induction patterns as [|a l IH]; intros t pattern Hin; [destruct Hin|].
  simpl. destruct Hin as [->|Hin].
  - apply clean_at_fold_kept; [exact Hp|]. now apply clean_at_prune_tree.
  - now apply IH.
Qed.

Lemma keeps_file_fold (E : env) (p : path) (patterns : list string) (q : path) (d : data) :
  forallb (fun k => negb (matches patterns k)) q = true ->
  forall t, lookup (p ++ q) t = Some (File d) ->
            lookup (p ++ q)
              (fold_left (fun t pattern => prune_tree E pattern p t) patterns t)
            = Some (File d).
Proof.
  induction patterns as [|a l IH]; intros Hq t Ht; simpl; [exact Ht|].
  assert (Ha : forallb (fun k => negb (glob_match a k)) q = true
               /\ forallb (fun k => negb (matches l k)) q = true).
  { rewrite !forallb_forall in *. split; intros k Hk; specialize (Hq k Hk);
      unfold matches in Hq; simpl in Hq; rewrite negb_orb in Hq;
      apply andb_prop in Hq; tauto. }
  destruct Ha as [Ha Hl]. apply IH; [exact Hl|].
  rewrite lookup_prune_tree. rewrite lookup_app in Ht.
  destruct (lookup p t) as [[d'|es]|]; try exact Ht.
  now apply rglob_remove_keeps_file.
Qed.

Lemma frame_prune_fold (E : env) (p : path) (patterns : list string) :
  forall t,
    frame [p] t (fold_left (fun t pattern => prune_tree E pattern p t) patterns t).
Proof.
  induction patterns as [|a l IH]; intros t; simpl; [apply frame_refl|].
  eapply frame_trans; [|apply IH].
  unfold prune_tree. destruct (lookup p t) as [[d|es]|];
    auto using frame_refl, frame_update_same.
Qed.

Lemma for_rglob_remove_run (E : env) (r : path) (pattern : string)
      (t : node) (c : path) (o : list event) :
  for_rglob_remove E (Rel r) pattern (World t c o)
  = (Return tt, World (prune_tree E pattern (c ++ r) t) c o).
Proof.
  unfold for_rglob_remove, prune_tree. run_monad.
  now destruct (lookup (c ++ r) t) as [[d|es]|].
Qed.

Lemma prune_loop_run (E : env) (r : path) (patterns : list string) :
  forall t c o,
    for_each patterns (fun pattern => for_rglob_remove E (Rel r) pattern) (World t c o)
    = (Return tt,
       World (fold_left (fun t pattern => prune_tree E pattern (c ++ r) t) patterns t)
             c o).
Proof.
  induction patterns as [|a l IH]; intros t c o; [reflexivity|].
  simpl for_each. rewrite bind_run, for_rglob_remove_run. apply IH.
Qed.

Lemma prune_dependencies_run (E : env) (t : node) (c : path) (o : list event) :
  prune_dependencies E (World t c o)
  = (Return tt,
     World (fold_left (fun t pattern =>
                         prune_tree E pattern (c ++ ["bundle"; "node_modules"]) t)
                      patterns_to_remove t)
           c (o ++ [Cleaning_up_dependencies])).
Proof.
  unfold prune_dependencies. rewrite bind_run. unfold print at 1.
  cbv beta iota. apply prune_loop_run.
Qed.



(** ** The archive *)

Arguments members_of : simpl never.
Arguments os_path_relpath : simpl never.

Lemma for_each_cons {A} (x : A) (xs : list A) (body : A -> M unit) (w : world) :
  for_each (x :: xs) body w = (body x ;; for_each xs body) w.
Proof. reflexivity. Qed.

Lemma for_each_app {A} (l1 l2 : list A) (body : A -> M unit) (w : world) :
  for_each (l1 ++ l2) body w = (for_each l1 body ;; for_each l2 body) w.
Proof.
  revert w. induction l1 as [|x l1 IH]; intros w; simpl.
  - reflexivity.
  - rewrite !bind_run. destruct (body x w) as [[u|e] w1]; [|reflexivity].
    rewrite IH. reflexivity.
Qed.

Lemma common_prefix_app (c a b : path) :
  common_prefix (c ++ a) (c ++ b) = List.length c + common_prefix a b.
Proof.
  induction c as [|x c IH]; simpl; [reflexivity|].
  now rewrite String.eqb_refl, IH.
Qed.

Lemma relpath_below_bundle (c rel : path) :
  rel <> [] -> os_path_relpath c ("bundle" :: rel) ["bundle"] = join_sep rel.
Proof.
  intros Hne. unfold os_path_relpath.
  rewrite common_prefix_app.
  change (common_prefix ["bundle"] ("bundle" :: rel)) with 1.
  rewrite length_app. simpl List.length.
  rewrite Nat.sub_diag. simpl repeat. rewrite app_nil_l.
  replace (c ++ "bundle" :: rel) with ((c ++ ["bundle"]) ++ rel)
    by (now rewrite <- app_assoc).
  replace (List.length c + 1) with (List.length (c ++ ["bundle"]))
    by (rewrite length_app; reflexivity).
  rewrite skipn_app, skipn_all, Nat.sub_diag. simpl.
  destruct rel; [contradiction | reflexivity].
Qed.

Lemma walk_Dir (root : path) (es : entries) :
  walk root (Dir es)
  = (root,
     map fst (filter (fun e => is_dir_node (snd e)) es),
     map fst (filter (fun e => negb (is_dir_node (snd e))) es))
    :: flat_map (fun e => walk (root ++ [fst e]) (snd e)) es.
Proof. reflexivity. Qed.

Lemma members_of_Dir (rel : path) (es : entries) :
  members_of rel (Dir es)
  = map (fun fd => (join_sep (rel ++ [fst fd]), snd fd)) (file_pairs es)
    ++ flat_map (fun e => members_of (rel ++ [fst e]) (snd e)) es.
Proof. reflexivity. Qed.

Lemma file_pairs_names (es : entries) :
  map fst (file_pairs es)
  = map fst (filter (fun e => negb (is_dir_node (snd e))) es).
Proof.
  unfold file_pairs. induction es as [|[k [d|sub]] es IH]; simpl;
    [reflexivity | now rewrite IH | exact IH].
Qed.

Lemma file_pairs_In (es : entries) (f : string) (d : data) :
  In (f, d) (file_pairs es) <-> In (f, File d) es.
Proof.
  unfold file_pairs. rewrite in_flat_map. split.
  - intros [[k [d'|sub]] [Hin H]]; simpl in H; [|destruct H].
    destruct H as [[= -> ->]|[]]. exact Hin.
  - intros Hin. exists (f, File d). split; [exact Hin | now left].
Qed.

Lemma distinct_find (es : entries) (k : string) (n : node) :
  distinct (map fst es) = true -> In (k, n) es -> find k es = Some n.
Proof.
  induction es as [|[k' n'] es IH]; simpl; [intros _ []|].
  intros Hd [[= -> ->]|Hin].
  - now rewrite String.eqb_refl.
  - apply andb_prop in Hd. destruct Hd as [Hk Hd].
    destruct (String.eqb k' k) eqn:Hkk; [|now apply IH].
    apply String.eqb_eq in Hkk. subst k'.
    apply negb_true_iff in Hk.
    assert (Hex : existsb (String.eqb k) (map fst es) = true).
    { apply existsb_exists. exists k. split; [|apply String.eqb_refl].
      apply in_map_iff. now exists (k, n). }
    congruence.
Qed.

Lemma walk_File (root : path) (d : data) : walk root (File d) = [].
Proof. reflexivity. Qed.

Lemma lookup_with_archive (c : path) (t0 : node) (ms : list (string * data)) :
  is_dir_at c t0 = true ->
  lookup (c ++ ["libralm.dxt"]) (with_archive c t0 ms)
  = Some (File (Zip ZIP_DEFLATED ms)).
Proof. intros Hc. unfold with_archive. now apply lookup_set_at_same. Qed.

Lemma lookup_bundle_with_archive (c : path) (t0 : node) (ms : list (string * data))
      (rel : path) :
  lookup (c ++ "bundle" :: rel) (with_archive c t0 ms) = lookup (c ++ "bundle" :: rel) t0.
Proof.
  unfold with_archive. apply lookup_set_at_diverge.
  now rewrite diverge_common.
Qed.

Lemma zipfile_write_run (E : env) (c : path) (t0 : node) (ms : list (string * data))
      (o : list event) (rel : path) (arcname : string) (d : data) :
  zip_error E (c ++ "bundle" :: rel) = None ->
  is_dir_at c t0 = true ->
  lookup (c ++ "bundle" :: rel) t0 = Some (File d) ->
  zipfile_write E libralm_dxt ("bundle" :: rel) arcname (World (with_archive c t0 ms) c o)
  = (Return tt, World (with_archive c t0 (ms ++ [(arcname, d)])) c o).
Proof.
  intros Hz Hc Hf. unfold zipfile_write, libralm_dxt. run_monad.
  rewrite lookup_bundle_with_archive, Hf, Hz, (lookup_with_archive c t0 ms Hc).
  simpl. unfold with_archive. now rewrite set_at_set_at.
Qed.

(** The inner loop: the files of one directory. *)
Lemma write_files (E : env) (c : path) (t0 : node) (rel : path)
      (fl : list (string * data)) :
  (forall q, zip_error E (c ++ "bundle" :: q) = None) ->
  is_dir_at c t0 = true ->
  (forall f d, In (f, d) fl ->
               lookup (c ++ "bundle" :: rel ++ [f]) t0 = Some (File d)) ->
  forall ms o,
    archive_directory E c ("bundle" :: rel, @nil string, map fst fl)
                      (World (with_archive c t0 ms) c o)
    = (Return tt,
       World (with_archive c t0
                (ms ++ map (fun fd => (join_sep (rel ++ [fst fd]), snd fd)) fl))
             c o).
Proof.
  intros Hz Hc. unfold archive_directory.
  induction fl as [|[f d] fl IH]; intros Hfl ms o; simpl.
  - now rewrite app_nil_r.
  - rewrite bind_run. unfold os_path_join at 1 2.
    change (("bundle" :: rel) ++ [f]) with ("bundle" :: rel ++ [f]).
    rewrite (zipfile_write_run E c t0 ms o (rel ++ [f]) _ d (Hz _) Hc
               (Hfl f d (or_introl eq_refl))).
    rewrite relpath_below_bundle by (intros H; now apply app_eq_nil in H as [_ H]).
    rewrite IH by (intros f' d' H; apply Hfl; now right).
    now rewrite <- app_assoc.
Qed.

Lemma wf_Dir (es : entries) :
  wf (Dir es) = true ->
  distinct (map fst es) = true
  /\ forall e, In e es -> valid_name (fst e) = true /\ wf (snd e) = true.
Proof.
  simpl. intros H. apply andb_prop in H. destruct H as [Hd Hall].
  split; [exact Hd|]. rewrite forallb_forall in Hall.
  intros e He. specialize (Hall e He). now apply andb_prop in Hall.
Qed.

Lemma archive_directory_files {E : env} (c : path) (root : path)
      (dirs dirs' files : list string)
      (w : world) :
  archive_directory E c (root, dirs, files) w = archive_directory E c (root, dirs', files) w.
Proof. reflexivity. Qed.

(** The outer loop: the whole tree below the staging directory. *)
Lemma write_tree (E : env) (c : path) (t0 : node) :
  (forall q, zip_error E (c ++ "bundle" :: q) = None) ->
  is_dir_at c t0 = true ->
  forall n rel ms o,
    lookup (c ++ "bundle" :: rel) t0 = Some n ->
    wf n = true ->
    for_each (walk ("bundle" :: rel) n) (archive_directory E c)
             (World (with_archive c t0 ms) c o)
    = (Return tt, World (with_archive c t0 (ms ++ members_of rel n)) c o).
Proof.
  intros Hz Hc. induction n as [d|es IH] using node_ind'; intros rel ms o Hn Hwf.
  - rewrite walk_File. simpl. unfold members_of. now rewrite app_nil_r.
  - destruct (wf_Dir es Hwf) as [Hd Hes].
    rewrite Forall_forall in IH.
    assert (Hchild : forall k n', In (k, n') es ->
                       lookup (c ++ "bundle" :: rel ++ [k]) t0 = Some n').
    { intros k n' Hin.
      replace (c ++ "bundle" :: rel ++ [k]) with ((c ++ "bundle" :: rel) ++ [k])
        by (now rewrite <- app_assoc).
      rewrite lookup_app, Hn. simpl. now rewrite (distinct_find es k n' Hd Hin). }
    rewrite walk_Dir, members_of_Dir, for_each_cons, bind_run.
    rewrite <- file_pairs_names.
    rewrite (archive_directory_files c _ _ (@nil string)).
    rewrite (write_files E c t0 rel (file_pairs es) Hz Hc).
    2: { intros f d Hin. apply Hchild. now apply file_pairs_In. }
    rewrite app_assoc.
    generalize (ms ++ map (fun fd => (join_sep (rel ++ [fst fd]), snd fd))
                          (file_pairs es)).
    assert (Hsub : incl es es) by apply incl_refl.
    revert Hsub. generalize es at 1 3 4. intros es'.
    induction es' as [|[k n'] es' IHes]; intros Hsub ms' ; simpl.
    + now rewrite app_nil_r.
    + rewrite for_each_app, bind_run.
      assert (Hin : In (k, n') es) by (apply Hsub; now left).
      change (("bundle" :: rel) ++ [k]) with ("bundle" :: rel ++ [k]).
      pose proof (IH (k, n') Hin (rel ++ [k]) ms' o (Hchild k n' Hin)
                     (proj2 (Hes (k, n') Hin))) as Hn'.
      cbn [snd] in Hn'. rewrite Hn'.
      rewrite IHes by (intros e He; apply Hsub; now right).
      now rewrite <- app_assoc.
Qed.

Lemma members_of_complete (rel : path) :
  forall b base d,
    rel <> [] -> lookup rel b = Some (File d) ->
    In (join_sep (base ++ rel), d) (members_of base b).
Proof.
  induction rel as [|k rel IH]; intros b base d Hne Hl; [contradiction|].
  simpl in Hl. destruct b as [x|es]; [discriminate|].
  destruct (find k es) as [n|] eqn:Hf; [|discriminate].
  apply find_In in Hf. rewrite members_of_Dir. apply in_or_app.
  destruct rel as [|k' rel].
  - simpl in Hl. injection Hl as ->. left.
    apply in_map_iff. exists (k, d). split; [reflexivity|].
    now apply file_pairs_In.
  - right. apply in_flat_map. exists (k, n). split; [exact Hf|]. simpl.
    replace (base ++ k :: k' :: rel) with ((base ++ [k]) ++ k' :: rel)
      by (now rewrite <- app_assoc).
    apply IH; [discriminate | exact Hl].
Qed.

Lemma members_of_sound (b : node) :
  forall base name d,
    wf b = true ->
    In (name, d) (members_of base b) ->
    exists rel,
      rel <> [] /\ name = join_sep (base ++ rel)
      /\ lookup rel b = Some (File d)
      /\ forallb valid_name rel = true.
Proof.
  induction b as [x|es IH] using node_ind'; intros base name d Hwf Hin.
  - destruct Hin.
  - destruct (wf_Dir es Hwf) as [Hd Hes]. rewrite Forall_forall in IH.
    rewrite members_of_Dir in Hin. apply in_app_or in Hin. destruct Hin as [Hin|Hin].
    + apply in_map_iff in Hin. destruct Hin as [[f d'] [[= <- <-] Hin]].
      apply file_pairs_In in Hin. exists [f]. simpl.
      rewrite (distinct_find es f (File d') Hd Hin).
      pose proof (proj1 (Hes _ Hin)) as Hvf. cbn [fst] in Hvf. rewrite Hvf.
      repeat split. discriminate.
    + apply in_flat_map in Hin. destruct Hin as [[k n] [Hk Hin]]. simpl in Hin.
      destruct (IH (k, n) Hk (base ++ [k]) name d (proj2 (Hes _ Hk)) Hin)
        as [rel [Hne [Hname [Hl Hv]]]].
      exists (k :: rel). simpl.
      pose proof (proj1 (Hes _ Hk)) as Hvk. cbn [fst] in Hvk.
      rewrite (distinct_find es k n Hd Hk), Hvk.
      repeat split; auto; [discriminate|].
      now rewrite <- app_assoc in Hname.
Qed.


Lemma create_dxt_package_run (E : env) (t : node) (c : path) (o : list event)
      (b : node) :
  (forall q, zip_error E (c ++ "bundle" :: q) = None) ->
  lookup (c ++ ["bundle"]) t = Some b ->
  wf b = true ->
  is_dir_at (c ++ ["libralm.dxt"]) t = false ->
  create_dxt_package E (World t c o)
  = (Return tt,
     World (with_archive c t (members_of [] b)) c
           (o ++ [Creating_DXT_package; Created_libralm_dxt])).
Proof.
  intros Hz Hb Hwf Ha.
  assert (Hc : is_dir_at c t = true) by (eapply is_dir_at_parent; exact Hb).
  unfold create_dxt_package. rewrite bind_run. unfold print at 1. cbv beta iota.
  rewrite bind_run. unfold zipfile_open, libralm_dxt at 1. run_monad.
  rewrite Ha, dirname_snoc, Hc. simpl.
  fold (with_archive c t []).
  unfold os_walk. run_monad.
  rewrite (lookup_bundle_with_archive c t [] []), Hb. simpl.
  pose proof (write_tree E c t Hz Hc b [] [] (o ++ [Creating_DXT_package]) Hb Hwf)
    as Hw.
  unfold archive_directory in Hw. simpl app in Hw.
  match goal with
  | |- context [for_each ?l ?body ?w] =>
      change (for_each l body w)
        with (for_each (walk ["bundle"] b) (archive_directory E c)
                (World (with_archive c t []) c (o ++ [Creating_DXT_package])))
  end.
  unfold archive_directory. rewrite Hw. simpl.
  unfold os_path_getsize, libralm_dxt, exists_at. run_monad.
  rewrite (lookup_with_archive c t _ Hc). simpl.
  now rewrite <- app_assoc.
Qed.




(** ** The whole build *)

Lemma main_after_checks (E : env) (w : world) :
  main E w = (checks E ;; try_except (build_steps E) except_Exception) w.
Proof.
  unfold main, checks, bind.
  destruct (print Building_banner w) as [[[]|x] w1]; [|reflexivity].
  destruct (print Banner_rule w1) as [[[]|x] w1']; [|reflexivity].
  destruct (check_node E w1') as [[n|x] w2]; [|reflexivity].
  destruct (when (negb n) _ w2) as [[[]|x] w3]; [|reflexivity].
  destruct (validate_manifest E w3) as [[m|x] w4]; [|reflexivity].
  destruct (when (negb m) _ w4) as [[[]|x] w5]; reflexivity.
Qed.

Lemma try_except_after {A} (p : M unit) (rest : M A) (h : exn -> option (M A))
      (w w' : world) :
  p w = (Return tt, w') ->
  try_except (p ;; rest) h w = try_except rest h w'.
Proof. intros H. unfold try_except, bind. now rewrite H. Qed.

Lemma main_after_staging (E : env) (w w2 : world) :
  reaches_staging E w = (Return tt, w2) ->
  main E w = try_except (after_staging E) except_Exception w2.
Proof.
  intros H. rewrite main_after_checks.
  unfold reaches_staging in H.
  apply bind_Return_inv in H. destruct H as [[] [w0 [Hc H]]].
  apply bind_Return_inv in H. destruct H as [[] [w1 [Hcb Hbd]]].
  rewrite bind_run, Hc.
  unfold build_steps.
  rewrite (try_except_after _ _ _ _ _ Hcb).
  now rewrite (try_except_after _ _ _ _ _ Hbd).
Qed.


Lemma preserves_check_node (E : env) (P : world -> Prop) :
  out_blind P -> preserves P (check_node E).
Proof.
  intros Hob [t c o] H. destruct (check_node_run E) as [r [evs [Hrun _]]].
  rewrite Hrun. simpl. now apply (Hob t c o).
Qed.

Lemma preserves_validate_manifest (E : env) (P : world -> Prop) :
  out_blind P -> preserves P (validate_manifest E).
Proof.
  intros Hob [t c o] H. destruct (validate_manifest_run E t c) as [b [evs Hrun]].
  rewrite Hrun. simpl. now apply (Hob t c o).
Qed.

Lemma preserves_checks (E : env) (P : world -> Prop) :
  out_blind P -> preserves P (checks E).
Proof.
  intros Hob. unfold checks.
  apply preserves_bind; [now apply preserves_print|]. intros _.
  apply preserves_bind; [now apply preserves_print|]. intros _.
  apply preserves_bind; [now apply preserves_check_node|]. intros n.
  apply preserves_bind.
  { apply preserves_when, preserves_bind; [now apply preserves_print|].
    intros _. apply preserves_bind; [now apply preserves_print|].
    intros _. apply preserves_raise. }
  intros _.
  apply preserves_bind; [now apply preserves_validate_manifest|]. intros m.
  apply preserves_when, preserves_bind; [now apply preserves_print|].
  intros _. apply preserves_raise.
Qed.

Lemma checks_keep_the_world (E : env) (w : world) :
  fs (snd (checks E w)) = fs w /\ cwd (snd (checks E w)) = cwd w.
Proof.
  apply (preserves_checks E (fun w' => fs w' = fs w /\ cwd w' = cwd w)).
  - intros t c o o' H. exact H.
  - split; reflexivity.
Qed.

(** *** Exit codes *)

Lemma exits_with_1_ret {A} (a : A) : exits_with_1 (ret a).
Proof. intros w code H. discriminate. Qed.

Lemma exits_with_1_sys_exit {A} : exits_with_1 (@sys_exit A 1%Z).
Proof. intros w code H. simpl in H. now injection H as <-. Qed.

Lemma exits_with_1_bind {A B} (m : M A) (k : A -> M B) :
  exits_with_1 m -> (forall a, exits_with_1 (k a)) -> exits_with_1 (bind m k).
Proof.
  intros Hm Hk w code. unfold bind. specialize (Hm w code).
  destruct (m w) as [[a|x] w1]; simpl in *; [apply Hk|].
  intros [= ->]. now apply Hm.
Qed.

Lemma exits_with_1_when (b : bool) (m : M unit) :
  exits_with_1 m -> exits_with_1 (when b m).
Proof. destruct b; simpl; [auto | intros _; apply exits_with_1_ret]. Qed.

Lemma exits_with_1_for_each {A} (xs : list A) (body : A -> M unit) :
  (forall x, exits_with_1 (body x)) -> exits_with_1 (for_each xs body).
Proof.
  intros Hb. induction xs as [|x xs IH]; simpl.
  - apply exits_with_1_ret.
  - apply exits_with_1_bind; auto.
Qed.

Lemma exits_with_1_try_except {A} (body : M A) (h : exn -> option (M A)) :
  exits_with_1 body -> (forall x k, h x = Some k -> exits_with_1 k) ->
  exits_with_1 (try_except body h).
Proof.
  intros Hb Hh w code. unfold try_except. specialize (Hb w code).
  destruct (body w) as [[a|x] w1]; simpl in *; [discriminate|].
  destruct (h x) as [k|] eqn:Hx; simpl; [|exact Hb].
  apply (Hh x k Hx).
Qed.

Lemma no_exit_exits_with_1 {A} (m : M A) : no_exit m -> exits_with_1 m.
Proof. intros H w code Hr. now destruct (H w code). Qed.

Lemma no_exit_print (e : event) : no_exit (print e).
Proof. intros w code. discriminate. Qed.

Lemma no_exit_os_path_exists (pn : pathname) : no_exit (os_path_exists pn).
Proof. intros w code. discriminate. Qed.

Lemma no_exit_get_cwd : no_exit get_cwd.
Proof. intros w code. discriminate. Qed.

Lemma no_exit_shutil_rmtree (E : env) (pn : pathname) (b : bool) :
  no_exit (shutil_rmtree E pn b).
Proof.
  intros [t c o] code. unfold shutil_rmtree. run_monad.
  destruct (lookup _ t) as [[d|es]|]; [destruct b; discriminate | | destruct b; discriminate].
  match goal with
  | |- context [rmtree_node ?e ?i ?p ?n] => destruct (rmtree_node e i p n)
  end; simpl; [discriminate|]. destruct b; discriminate.
Qed.

Lemma no_exit_os_remove (E : env) (pn : pathname) : no_exit (os_remove E pn).
Proof.
  intros [t c o] code. unfold os_remove, unlink_node. run_monad.
  destruct (lookup _ t) as [[d|es]|]; try discriminate.
  destruct (deny E _); discriminate.
Qed.

Lemma no_exit_os_makedirs_exist_ok (pn : pathname) : no_exit (os_makedirs_exist_ok pn).
Proof.
  intros [t c o] code. unfold os_makedirs_exist_ok. run_monad.
  destruct (lookup _ t) as [[d|es]|]; try discriminate.
  destruct (is_dir_at _ t); discriminate.
Qed.

Lemma no_exit_shutil_copy2 (src dst : pathname) : no_exit (shutil_copy2 src dst).
Proof.
  intros [t c o] code. unfold shutil_copy2. run_monad.
  destruct (lookup _ t) as [[d|es]|]; try discriminate.
  destruct (is_dir_at (resolve c dst) t).
  - destruct (is_dir_at _ t); discriminate.
  - discriminate.
Qed.

Lemma no_exit_for_rglob_remove (E : env) (pn : pathname) (pattern : string) :
  no_exit (for_rglob_remove E pn pattern).
Proof.
  intros [t c o] code. unfold for_rglob_remove. run_monad.
  destruct (lookup _ t) as [[d|es]|]; discriminate.
Qed.

Lemma no_exit_os_walk (top : path) : no_exit (os_walk top).
Proof.
  intros [t c o] code. unfold os_walk. run_monad.
  destruct (lookup _ t); discriminate.
Qed.

Lemma no_exit_zipfile_open (pn : pathname) (m : compression) : no_exit (zipfile_open pn m).
Proof.
  intros [t c o] code. unfold zipfile_open. run_monad.
  destruct (is_dir_at (resolve c pn) t); [discriminate|].
  destruct (is_dir_at _ t); discriminate.
Qed.

Lemma no_exit_zipfile_write {E : env} (pn : pathname) (f : path) (a : string) :
  no_exit (zipfile_write E pn f a).
Proof.
  intros [t c o] code. unfold zipfile_write. run_monad.
  destruct (lookup (c ++ f) t) as [n|]; [|discriminate].
  destruct (zip_error E (c ++ f)); [discriminate|].
  destruct (lookup (resolve c pn) t) as [[[s|m ms]|es]|]; discriminate.
Qed.

Lemma no_exit_os_path_getsize (pn : pathname) : no_exit (os_path_getsize pn).
Proof.
  intros [t c o] code. unfold os_path_getsize. run_monad.
  destruct (exists_at _ t); discriminate.
Qed.

Ltac exits_leaf :=
  first
    [ apply exits_with_1_ret
    | apply exits_with_1_sys_exit
    | apply no_exit_exits_with_1;
      first [ apply no_exit_print | apply no_exit_os_path_exists
            | apply no_exit_get_cwd | apply no_exit_shutil_rmtree
            | apply no_exit_os_remove | apply no_exit_os_makedirs_exist_ok
            | apply no_exit_shutil_copy2 | apply no_exit_for_rglob_remove
            | apply no_exit_os_walk | apply no_exit_zipfile_open
            | apply no_exit_zipfile_write | apply no_exit_os_path_getsize ] ].

Ltac exits_tac :=
  repeat first
    [ exits_leaf
    | apply exits_with_1_when
    | apply exits_with_1_for_each; intros ?
    | apply exits_with_1_bind; [|intros ?]
    | match goal with
      | |- exits_with_1 (let '(_, _) := ?x in _) => destruct x as [[? ?] ?]
      end ].

Lemma exits_with_1_install_packages (E : env) : exits_with_1 (install_packages E).
Proof.
  intros w code.
  destruct (install_packages_cases E w) as [[e [-> _]]|[x [es [_ [_ ->]]]]]; simpl.
  - discriminate.
  - unfold npm_outcome. destruct (fst (npm_install E _)) as [rc so|e].
    + destruct (rc =? 0)%Z; simpl; [discriminate|]. now intros [= <-].
    + destruct e; simpl; try discriminate. now intros [= <-].
Qed.

Lemma exits_with_1_build_steps (E : env) : exits_with_1 (build_steps E).
Proof.
  unfold build_steps, clean_build, create_bundle_dir, copy_source_files,
    install_dependencies, prune_dependencies, create_dxt_package.
  repeat first [ apply exits_with_1_install_packages
               | exits_leaf
               | apply exits_with_1_when
               | apply exits_with_1_for_each; intros ?
               | apply exits_with_1_bind; [|intros ?]
               | match goal with
                 | |- exits_with_1 (let '(_, _) := ?x in _) =>
                     destruct x as [[? ?] ?]
                 end ].
Qed.

Lemma exits_with_1_main (E : env) : exits_with_1 (main E).
Proof.
  intros w code. rewrite main_after_checks. revert w code.
  apply exits_with_1_bind.
  - intros w code H.
    destruct w as [t c o].
    destruct (check_node_run E) as [rn [evn [Hn Hrn]]].
    unfold checks in H. rewrite bind_run in H. unfold print at 1 in H.
    cbv beta iota in H. rewrite bind_run in H. unfold print at 1 in H.
    cbv beta iota in H. rewrite bind_run, Hn in H. cbn [fs cwd out] in H.
    destruct (validate_manifest_run E t c) as [b [evv Hv]].
    destruct rn as [[|]|[e|code']]; simpl in H.
    + rewrite bind_run in H. unfold ret at 1 in H. cbv beta iota in H.
      rewrite bind_run, Hv in H. destruct b; simpl in H; [discriminate|].
      now injection H as <-.
    + now injection H as <-.
    + discriminate.
    + now destruct (Hrn code').
  - intros _. apply exits_with_1_try_except; [apply exits_with_1_build_steps|].
    intros [e|code'] k Hk; simpl in Hk; [|discriminate].
    injection Hk as <-. exits_tac.
Qed.

(** The process exits with status 0 exactly when [main] returns. *)
Lemma exit_0_main_returns (E : env) (w : world) :
  fst (run E w) = 0%Z -> fst (main E w) = Return tt.
Proof.
  unfold run. simpl. pose proof (exits_with_1_main E w) as H.
  destruct (fst (main E w)) as [[]|[e|code]]; simpl; try discriminate; auto.
  intros ->. now specialize (H 0%Z eq_refl).
Qed.

(** *** Creating and filling the staging directory writes below it *)

Lemma staging_only_create_bundle_dir (c : path) (t0 : node) :
  preserves (framed c [c ++ ["bundle"]] t0) create_bundle_dir.
Proof. unfold create_bundle_dir, bundle. preserves_tac. Qed.


Lemma staged_install_dependencies (E : env) (c : path) :
  preserves (staged c) (install_dependencies E).
Proof.
  unfold install_dependencies. apply preserves_bind.
  - apply staged_install_packages.
  - intros _. apply staged_prune_dependencies.
Qed.

Lemma create_bundle_dir_returns (w w' : world) :
  create_bundle_dir w = (Return tt, w') ->
  staged (cwd w) w'
  /\ (lookup (cwd w ++ ["bundle"]) (fs w) = None ->
      lookup (cwd w ++ ["bundle"]) (fs w') = Some (Dir [])).
Proof.
  destruct w as [t c o]. unfold create_bundle_dir, os_makedirs_exist_ok, bundle, staged.
  run_monad. rewrite dirname_snoc.
  destruct (lookup (c ++ ["bundle"]) t) as [[d|es]|] eqn:Hb; simpl.
  - discriminate.
  - intros [= <-]. simpl. unfold is_dir_at. rewrite Hb. repeat split. discriminate.
  - destruct (is_dir_at c t) eqn:Hc; simpl; [|discriminate].
    intros [= <-]. simpl. unfold is_dir_at.
    rewrite (lookup_set_at_same c "bundle" (Some (Dir [])) t Hc). auto.
Qed.

Lemma shutil_rmtree_returns (E : env) (w w' : world) :
  shutil_rmtree E bundle false w = (Return tt, w') ->
  cwd w' = cwd w
  /\ lookup (cwd w ++ ["bundle"]) (fs w') = None
  /\ frame [cwd w ++ ["bundle"]] (fs w) (fs w').
Proof.
  destruct w as [t c o]. unfold shutil_rmtree, bundle. run_monad.
  destruct (lookup (c ++ ["bundle"]) t) as [[d|es]|] eqn:Hb; simpl; try discriminate.
  assert (Hc : is_dir_at c t = true) by (eapply is_dir_at_parent; exact Hb).
  destruct (rmtree_node E false (c ++ ["bundle"]) (Dir es)); simpl; [|discriminate].
  intros [= <-]. simpl.
  rewrite (lookup_set_at_same c "bundle" None t Hc).
  repeat split. apply frame_set_at.
Qed.

Lemma shutil_rmtree_raises (E : env) (c : path) (w : world) :
  staged c w ->
  fst (shutil_rmtree E bundle false w) <> Return tt ->
  staged c (snd (shutil_rmtree E bundle false w)).
Proof.
  destruct w as [t c' o]. intros [Hc Hb]. simpl in Hc. subst c'. simpl in Hb.
  destruct (is_dir_at_lookup _ _ Hb) as [es Hes].
  assert (Hp : is_dir_at c t = true) by (eapply is_dir_at_parent; exact Hes).
  unfold shutil_rmtree, bundle, staged. run_monad. rewrite Hes.
  destruct (rmtree_node E false (c ++ ["bundle"]) (Dir es)) as [|r] eqn:Hrm; simpl.
  - intros H. now destruct H.
  - intros _. split; [reflexivity|].
    destruct (rmtree_node_leaves_dir E false _ es r Hrm) as [es' ->].
    unfold is_dir_at.
    now rewrite (lookup_set_at_same c "bundle" (Some (Dir es')) t Hp).
Qed.

(** *** The archive, once written, is a regular file *)

Lemma out_blind_archived (c : path) : out_blind (archived c).
Proof. intros t c' o o' H. exact H. Qed.

Lemma archived_zipfile_write {E : env} (c : path) (f : path) (a : string) :
  preserves (archived c) (zipfile_write E libralm_dxt f a).
Proof.
  intros [t c' o] [Hc Ha]. simpl in Hc. subst c'. simpl in Ha.
  unfold zipfile_write, libralm_dxt, archived. run_monad.
  destruct (lookup (c ++ f) t) as [n|]; simpl; [|now split].
  destruct (zip_error E (c ++ f)); simpl; [now split|].
  destruct (lookup (c ++ ["libralm.dxt"]) t) as [[[s|m ms]|es]|] eqn:Hl; simpl;
    try (now split).
  split; [reflexivity|]. unfold is_file_at.
  rewrite lookup_set_at_same; [reflexivity|].
  eapply is_dir_at_parent. exact Hl.
Qed.

Lemma create_dxt_package_returns {E : env} (w w' : world) :
  create_dxt_package E w = (Return tt, w') -> archived (cwd w) w'.
Proof.
  destruct w as [t c o]. unfold create_dxt_package. intros H.
  apply bind_Return_inv in H. destruct H as [[] [w1 [Hp H]]].
  apply bind_Return_inv in H. destruct H as [[] [w2 [Hopen H]]].
  assert (Hw2 : archived c w2).
  { unfold print in Hp. injection Hp as <-.
    unfold zipfile_open, libralm_dxt in Hopen. run_monad.
    destruct (is_dir_at (c ++ ["libralm.dxt"]) t); [discriminate|].
    rewrite dirname_snoc in Hopen.
    destruct (is_dir_at c t) eqn:Hc; [|discriminate].
    injection Hopen as <-. split; [reflexivity|]. simpl. unfold is_file_at.
    now rewrite lookup_set_at_same. }
  assert (Hrest : preserves (archived c)
            (c0 <- get_cwd ;;
             triples <- os_walk ["bundle"] ;;
             for_each triples (fun '(root, _, files) =>
               for_each files (fun file =>
                 let file_path := os_path_join root file in
                 let arcname := os_path_relpath c0 file_path ["bundle"] in
                 zipfile_write E libralm_dxt file_path arcname)) ;;
             os_path_getsize libralm_dxt ;;
             print Created_libralm_dxt)).
  { repeat first
      [ apply archived_zipfile_write
      | apply preserves_print; apply out_blind_archived
      | apply preserves_pure;
        first [apply pure_get_cwd | apply pure_os_walk | apply pure_os_path_getsize]
      | apply preserves_for_each; intros ?
      | apply preserves_bind; [|intros ?]
      | match goal with
        | |- preserves _ (let '(_, _) := ?x in _) => destruct x as [[? ?] ?]
        end ]. }
  specialize (Hrest w2 Hw2).
  match type of Hrest with
  | archived _ (snd ?x) =>
      replace x with (@Return unit tt, w') in Hrest by (symmetry; exact H)
  end.
  exact Hrest.
Qed.

(** *** Runs that reach the staging directory *)

Lemma preserves_run {A} (P : world -> Prop) (m : M A) (w w' : world) (r : result A) :
  preserves P m -> m w = (r, w') -> P w -> P w'.
Proof. intros Hp Hm HP. specialize (Hp w HP). now rewrite Hm in Hp. Qed.

Lemma clean_build_returns (E : env) (w w1 : world) :
  clean_build E w = (Return tt, w1) ->
  cwd w1 = cwd w
  /\ lookup (cwd w ++ ["bundle"]) (fs w1) = None
  /\ lookup (cwd w ++ ["libralm.dxt"]) (fs w1) = None
  /\ frame (touched (cwd w)) (fs w) (fs w1).
Proof.
  intros H.
  assert (Hf : framed (cwd w) (touched (cwd w)) (fs w) w1).
  { apply (preserves_run _ _ _ _ _ (framed_clean_build E (cwd w) (fs w)) H).
    split; [reflexivity | apply frame_refl]. }
  destruct Hf as [Hc Hf].
  destruct w as [t c o]. simpl in *.
  destruct (clean_build_run E t c) as [r [t' [H1 [_ [Hp _]]]]].
  rewrite H1 in H. injection H as Hr Hw. subst r w1. simpl in *.
  destruct (Hp eq_refl) as [Hb Ha]. auto.
Qed.

Lemma reaches_staging_facts (E : env) (w w2 : world) :
  reaches_staging E w = (Return tt, w2) ->
  cwd w2 = cwd w
  /\ lookup (cwd w ++ ["bundle"]) (fs w2) = Some (Dir [])
  /\ lookup (cwd w ++ ["libralm.dxt"]) (fs w2) = None
  /\ frame (touched (cwd w)) (fs w) (fs w2).
Proof.
  intros H. unfold reaches_staging in H.
  apply bind_Return_inv in H. destruct H as [[] [w0 [Hc H]]].
  apply bind_Return_inv in H. destruct H as [[] [w1 [Hcb Hbd]]].
  destruct (checks_keep_the_world E w) as [Hfs0 Hcwd0]. rewrite Hc in Hfs0, Hcwd0.
  simpl in Hfs0, Hcwd0.
  destruct (clean_build_returns E w0 w1 Hcb) as [Hcwd1 [Hb1 [Ha1 Hf1]]].
  rewrite Hcwd0, Hfs0 in *.
  destruct (create_bundle_dir_returns w1 w2 Hbd) as [[Hcwd2 _] Hnew].
  rewrite Hcwd1 in *.
  assert (Hf2 : framed (cwd w) [cwd w ++ ["bundle"]] (fs w1) w2).
  { apply (preserves_run _ _ _ _ _
             (staging_only_create_bundle_dir (cwd w) (fs w1)) Hbd).
    split; [exact Hcwd1 | apply frame_refl]. }
  destruct Hf2 as [_ Hf2].
  split; [exact Hcwd2|]. split; [now apply Hnew|]. split.
  - rewrite (frame_one _ _ _ _ Hf2 (diverge_archive_bundle (cwd w))). exact Ha1.
  - eapply frame_trans; [exact Hf1|].
    eapply frame_weaken; [|exact Hf2]. intros p [<-|[]]. now left.
Qed.

Lemma try_except_main_returns (body : M unit) (w w' : world) :
  try_except body except_Exception w = (Return tt, w') -> body w = (Return tt, w').
Proof.
  unfold try_except. destruct (body w) as [[[]|[e|code]] w1]; simpl.
  - auto.
  - discriminate.
  - discriminate.
Qed.

(** *** One archive *)

Lemma count_name_put_other (k k' : string) (v : node) (es : entries) :
  k <> k' -> count_name k' (put k v es) = count_name k' es.
Proof.
  intros Hne. unfold count_name. induction es as [|[k0 n] es IH]; simpl.
  - destruct (String.eqb k k') eqn:H; [apply String.eqb_eq in H; contradiction|].
    reflexivity.
  - destruct (String.eqb k0 k) eqn:H0; simpl.
    + apply String.eqb_eq in H0. subst k0.
      destruct (String.eqb k k') eqn:H; [apply String.eqb_eq in H; contradiction|].
      reflexivity.
    + destruct (String.eqb k0 k'); simpl; now rewrite IH.
Qed.

Lemma count_name_put_same (k : string) (v : node) (es : entries) :
  count_name k (put k v es) = Nat.max 1 (count_name k es).
Proof.
  unfold count_name. induction es as [|[k0 n] es IH]; simpl.
  - now rewrite String.eqb_refl.
  - destruct (String.eqb k0 k) eqn:H0; simpl.
    + rewrite String.eqb_refl. reflexivity.
    + rewrite H0. exact IH.
Qed.

Lemma count_name_drop_other (k k' : string) (es : entries) :
  k <> k' -> count_name k' (drop k es) = count_name k' es.
Proof.
  intros Hne. unfold count_name, drop. induction es as [|[k0 n] es IH]; simpl;
    [reflexivity|].
  destruct (String.eqb k0 k) eqn:H0; simpl.
  - apply String.eqb_eq in H0. subst k0.
    destruct (String.eqb k k') eqn:H; [apply String.eqb_eq in H; contradiction|].
    exact IH.
  - destruct (String.eqb k0 k'); simpl; now rewrite IH.
Qed.

Lemma count_name_modify (k k' : string) (f : node -> node) (es : entries) :
  count_name k' (modify k f es) = count_name k' es.
Proof.
  unfold count_name. induction es as [|[k0 n] es IH]; simpl; [reflexivity|].
  destruct (String.eqb k0 k); simpl.
  - destruct (String.eqb k0 k'); reflexivity.
  - destruct (String.eqb k0 k'); simpl; now rewrite IH.
Qed.

Lemma count_name_absent (k : string) (es : entries) :
  find k es = None -> count_name k es = 0.
Proof.
  unfold count_name. induction es as [|[k0 n] es IH]; simpl; [reflexivity|].
  destruct (String.eqb k0 k); [discriminate | exact IH].
Qed.

(** A change at or below another entry of the directory. *)
Lemma count_at_update_below (c : path) (k k' : string) (r : path)
      (f : entries -> entries) (t : node) :
  count_at c k' (update (c ++ k :: r) f t) = count_at c k' t.
Proof.
  unfold count_at. rewrite lookup_update_above.
  destruct (lookup c t) as [[d|es]|]; try reflexivity.
  unfold update. simpl. now rewrite count_name_modify.
Qed.

Lemma count_at_set_at_other (c : path) (k k' : string) (v : option node) (t : node) :
  k <> k' -> count_at c k' (set_at (c ++ [k]) v t) = count_at c k' t.
Proof.
  intros Hne. unfold count_at, set_at. rewrite dirname_snoc, basename_snoc.
  pose proof (lookup_update_above c []) as H. rewrite app_nil_r in H. rewrite H.
  destruct (lookup c t) as [[d|es]|]; try reflexivity.
  unfold update. simpl.
  destruct v; [now rewrite count_name_put_other | now rewrite count_name_drop_other].
Qed.

Lemma count_at_set_at_same (c : path) (k : string) (v : node) (t : node) :
  count_at c k (set_at (c ++ [k]) (Some v) t)
  = option_map (Nat.max 1) (count_at c k t).
Proof.
  unfold count_at, set_at. rewrite dirname_snoc, basename_snoc.
  pose proof (lookup_update_above c []) as H. rewrite app_nil_r in H. rewrite H.
  destruct (lookup c t) as [[d|es]|]; try reflexivity.
  unfold update. simpl. now rewrite count_name_put_same.
Qed.

Lemma out_blind_archives_here (c : path) (n : nat) : out_blind (archives_here c n).
Proof. intros t c' o o' H. exact H. Qed.

Lemma archives_here_shutil_copy2 (src : pathname) (c : path) (n : nat) :
  preserves (archives_here c n) (shutil_copy2 src bundle).
Proof.
  intros [t c' o] [Hc Hn]. simpl in Hc. subst c'. simpl in Hn.
  unfold shutil_copy2, bundle, archives_here. run_monad.
  destruct (lookup _ t) as [[x|es]|]; simpl; try (now split).
  destruct (is_dir_at (c ++ ["bundle"]) t); simpl.
  - case_if; simpl; split; simpl; auto.
    now rewrite (count_at_update_below c "bundle" _ []).
  - now split.
Qed.

Lemma archives_here_for_rglob_remove (E : env) (r : path) (pattern : string)
      (c : path) (n : nat) :
  preserves (archives_here c n) (for_rglob_remove E (Rel ("bundle" :: r)) pattern).
Proof.
  intros [t c' o] [Hc Hn]. simpl in Hc. subst c'. simpl in Hn.
  unfold for_rglob_remove, archives_here. run_monad.
  destruct (lookup _ t) as [[x|es]|]; simpl; split; simpl; auto.
  now rewrite count_at_update_below.
Qed.

Lemma archives_here_zipfile_write {E : env} (c : path) (f : path) (a : string) :
  preserves (archives_here c 1) (zipfile_write E libralm_dxt f a).
Proof.
  intros [t c' o] [Hc Hn]. simpl in Hc. subst c'. simpl in Hn.
  unfold zipfile_write, libralm_dxt, archives_here. run_monad.
  destruct (lookup (c ++ f) t) as [n'|]; simpl; [|now split].
  destruct (zip_error E (c ++ f)); simpl; [now split|].
  destruct (lookup (c ++ ["libralm.dxt"]) t) as [[[s|m ms]|es]|]; simpl;
    try (now split).
  split; [reflexivity|]. simpl. now rewrite count_at_set_at_same, Hn.
Qed.

Lemma archives_here_copy_source_files (c : path) (n : nat) :
  preserves (archives_here c n) copy_source_files.
Proof.
  unfold copy_source_files.
  repeat first
    [ apply archives_here_shutil_copy2
    | apply preserves_print; apply out_blind_archives_here
    | apply preserves_pure; apply pure_os_path_exists
    | apply preserves_when
    | apply preserves_for_each; intros ?
    | apply preserves_bind; [|intros ?] ].
Qed.

Lemma archives_here_install_dependencies (E : env) (c : path) (n : nat) :
  preserves (archives_here c n) (install_dependencies E).
Proof.
  unfold install_dependencies. apply preserves_bind.
  - intros w [Hc Hn].
    destruct (install_packages_cases E w) as [[e [-> _]]|[x [es [_ [_ ->]]]]];
      simpl; split; simpl; auto.
    rewrite Hc. now rewrite (count_at_update_below c "bundle" _ []).
  - intros _. unfold prune_dependencies.
    repeat first
      [ apply archives_here_for_rglob_remove
      | apply preserves_print; apply out_blind_archives_here
      | apply preserves_for_each; intros ?
      | apply preserves_bind; [|intros ?] ].
Qed.

Lemma create_dxt_package_counts {E : env} (w w' : world) :
  create_dxt_package E w = (Return tt, w') ->
  archives_here (cwd w) 0 w -> archives_here (cwd w) 1 w'.
Proof.
  destruct w as [t c o]. unfold create_dxt_package. intros H [_ Hn]. simpl in Hn.
  apply bind_Return_inv in H. destruct H as [[] [w1 [Hp H]]].
  apply bind_Return_inv in H. destruct H as [[] [w2 [Hopen H]]].
  assert (Hw2 : archives_here c 1 w2).
  { unfold print in Hp. injection Hp as <-.
    unfold zipfile_open, libralm_dxt in Hopen. run_monad.
    destruct (is_dir_at (c ++ ["libralm.dxt"]) t); [discriminate|].
    rewrite dirname_snoc in Hopen.
    destruct (is_dir_at c t) eqn:Hc; [|discriminate].
    injection Hopen as <-. split; [reflexivity|]. simpl.
    now rewrite count_at_set_at_same, Hn. }
  assert (Hrest : preserves (archives_here c 1)
            (c0 <- get_cwd ;;
             triples <- os_walk ["bundle"] ;;
             for_each triples (fun '(root, _, files) =>
               for_each files (fun file =>
                 let file_path := os_path_join root file in
                 let arcname := os_path_relpath c0 file_path ["bundle"] in
                 zipfile_write E libralm_dxt file_path arcname)) ;;
             os_path_getsize libralm_dxt ;;
             print Created_libralm_dxt)).
  { repeat first
      [ apply archives_here_zipfile_write
      | apply preserves_print; apply out_blind_archives_here
      | apply preserves_pure;
        first [apply pure_get_cwd | apply pure_os_walk | apply pure_os_path_getsize]
      | apply preserves_for_each; intros ?
      | apply preserves_bind; [|intros ?]
      | match goal with
        | |- preserves _ (let '(_, _) := ?x in _) => destruct x as [[? ?] ?]
        end ]. }
  specialize (Hrest w2 Hw2).
  match type of Hrest with
  | archives_here _ _ (snd ?x) =>
      replace x with (@Return unit tt, w') in Hrest by (symmetry; exact H)
  end.
  exact Hrest.
Qed.

Lemma count_at_absent (c : path) (k : string) (t : node) :
  is_dir_at c t = true -> lookup (c ++ [k]) t = None -> count_at c k t = Some 0.
Proof.
  unfold is_dir_at, count_at. rewrite lookup_app.
  destruct (lookup c t) as [[x|es]|]; try discriminate.
  intros _. simpl. intros H. f_equal. apply count_name_absent.
  destruct (find k es); [discriminate | reflexivity].
Qed.

Lemma create_bundle_dir_counts (w w' : world) :
  create_bundle_dir w = (Return tt, w') ->
  lookup (cwd w ++ ["libralm.dxt"]) (fs w) = None ->
  archives_here (cwd w) 0 w'.
Proof.
  destruct w as [t c o]. unfold create_bundle_dir, os_makedirs_exist_ok, bundle.
  run_monad. intros H HA.
  destruct (lookup (c ++ ["bundle"]) t) as [[x|es]|] eqn:HB; try discriminate.
  - injection H as <-. split; [reflexivity|]. simpl.
    apply count_at_absent; [|exact HA]. exact (is_dir_at_parent _ _ _ _ HB).
  - rewrite dirname_snoc in H. destruct (is_dir_at c t) eqn:Hc; [|discriminate].
    injection H as <-. split; [reflexivity|]. simpl.
    rewrite count_at_set_at_other by discriminate.
    now apply count_at_absent.
Qed.

Lemma archives_here_shutil_rmtree (E : env) (b : bool) (c : path) (n : nat) :
  preserves (archives_here c n) (shutil_rmtree E bundle b).
Proof.
  intros [t c' o] [Hc Hn]. simpl in Hc. subst c'. simpl in Hn.
  unfold shutil_rmtree, bundle, archives_here. run_monad.
  destruct (lookup (c ++ ["bundle"]) t) as [[x|es]|]; simpl.
  - destruct b; simpl; now split.
  - destruct (rmtree_node _ _ _ _); simpl.
    + split; [reflexivity|]. simpl. now rewrite count_at_set_at_other by discriminate.
    + destruct b; simpl; (split; [reflexivity|]); simpl;
        now rewrite count_at_set_at_other by discriminate.
  - destruct b; simpl; now split.
Qed.

(** The run ends with status 0: there is no staging directory, the archive
    is a regular file, and it is the one entry of that name. *)
Lemma successful_run (E : env) (w : world) :
  fst (run E w) = 0%Z ->
  exists_at (cwd w ++ ["bundle"]) (fs (snd (run E w))) = false
  /\ is_file_at (cwd w ++ ["libralm.dxt"]) (fs (snd (run E w))) = true
  /\ count_at (cwd w) "libralm.dxt" (fs (snd (run E w))) = Some 1
  /\ cwd (snd (run E w)) = cwd w.
Proof.
  intros H0. apply exit_0_main_returns in H0. unfold run. simpl.
  destruct (main E w) as [r w'] eqn:Hmain. simpl in H0. subst r.
  rewrite main_after_checks in Hmain.
  apply bind_Return_inv in Hmain. destruct Hmain as [[] [w0 [Hc H]]].
  apply try_except_main_returns in H. unfold build_steps in H.
  destruct (checks_keep_the_world E w) as [_ Hcwd0]. rewrite Hc in Hcwd0.
  simpl in Hcwd0.
  apply bind_Return_inv in H. destruct H as [[] [w1 [H1 H]]].
  apply bind_Return_inv in H. destruct H as [[] [w2 [H2 H]]].
  apply bind_Return_inv in H. destruct H as [[] [w3 [H3 H]]].
  apply bind_Return_inv in H. destruct H as [[] [w4 [H4 H]]].
  apply bind_Return_inv in H. destruct H as [[] [w5 [H5 H]]].
  apply bind_Return_inv in H. destruct H as [[] [w6 [H6 H]]].
  apply bind_Return_inv in H. destruct H as [[] [w7 [H7 H]]].
  assert (C1 : at_cwd (cwd w) w1)
    by (apply (preserves_run _ _ _ _ _ (at_cwd_clean_build E (cwd w)) H1); exact Hcwd0).
  assert (C2 : at_cwd (cwd w) w2)
    by (apply (preserves_run _ _ _ _ _ (at_cwd_create_bundle_dir (cwd w)) H2 C1)).
  assert (C3 : at_cwd (cwd w) w3)
    by (apply (preserves_run _ _ _ _ _ (at_cwd_copy_source_files (cwd w)) H3 C2)).
  assert (C4 : at_cwd (cwd w) w4)
    by (apply (preserves_run _ _ _ _ _ (at_cwd_install_dependencies E (cwd w)) H4 C3)).
  unfold at_cwd in *.
  assert (N7 : archives_here (cwd w) 1 w7).
  { destruct (clean_build_returns E w0 w1 H1) as [_ [_ [A1 _]]].
    pose proof (create_bundle_dir_counts w1 w2 H2) as N2.
    rewrite Hcwd0 in A1. rewrite C1 in N2. specialize (N2 A1).
    pose proof (preserves_run _ _ _ _ _
                  (archives_here_copy_source_files (cwd w) 0) H3 N2) as N3.
    pose proof (preserves_run _ _ _ _ _
                  (archives_here_install_dependencies E (cwd w) 0) H4 N3) as N4.
    pose proof (create_dxt_package_counts w4 w5 H5) as N5.
    rewrite C4 in N5. specialize (N5 N4).
    apply (preserves_run _ _ _ _ _
             (archives_here_shutil_rmtree E false (cwd w) 1) H7).
    unfold print in H6. injection H6 as <-. destruct w5. exact N5. }
  pose proof (create_dxt_package_returns w4 w5 H5) as A5. rewrite C4 in A5.
  destruct A5 as [C5 A5].
  unfold print in H6. injection H6 as <-.
  destruct (shutil_rmtree_returns E _ w7 H7) as [C7 [B7 F7]]. simpl in C7, B7, F7.
  rewrite C5 in *.
  unfold print in H. injection H as <-. simpl.
  destruct N7 as [_ N7].
  unfold exists_at, is_file_at in *. rewrite B7.
  rewrite (frame_one _ _ _ _ F7 (diverge_archive_bundle (cwd w))).
  auto.
Qed.

Lemma after_staging_fails (E : env) (c : path) (w2 : world) :
  staged c w2 ->
  fst (after_staging E w2) <> Return tt ->
  staged c (snd (after_staging E w2)).
Proof.
  intros S2. unfold after_staging.
  rewrite bind_run. destruct (copy_source_files w2) as [[[]|x] w3] eqn:H3;
    pose proof (preserves_run _ _ _ _ _ (staged_copy_source_files c) H3 S2) as S3;
    [|intros _; exact S3].
  rewrite bind_run. destruct (install_dependencies E w3) as [[[]|x] w4] eqn:H4;
    pose proof (preserves_run _ _ _ _ _ (staged_install_dependencies E c) H4 S3) as S4;
    [|intros _; exact S4].
  rewrite bind_run. destruct (create_dxt_package E w4) as [[[]|x] w5] eqn:H5;
    pose proof (preserves_run _ _ _ _ _ (staged_create_dxt_package c) H5 S4) as S5;
    [|intros _; exact S5].
  rewrite bind_run.
  assert (S6 : staged c (snd (print Cleaning_up w5)))
    by (destruct w5; exact S5).
  destruct (print Cleaning_up w5) as [r6 w6] eqn:H6.
  assert (r6 = Return tt) by (unfold print in H6; congruence). subst r6.
  simpl in S6. rewrite bind_run.
  destruct (shutil_rmtree E bundle false w6) as [[[]|x] w7] eqn:H7.
  - simpl. intros H. now destruct H.
  - intros _. simpl.
    pose proof (shutil_rmtree_raises E c _ S6) as S7. rewrite H7 in S7.
    apply S7. simpl. discriminate.
Qed.

(** The run has created the staging directory and does not end with
    status 0: the staging directory is still there. *)
Lemma failed_run_keeps_staging (E : env) (w w2 : world) :
  reaches_staging E w = (Return tt, w2) ->
  fst (run E w) <> 0%Z ->
  is_dir_at (cwd w ++ ["bundle"]) (fs (snd (run E w))) = true.
Proof.
  intros Hs Hexit. unfold run in *. simpl in *.
  rewrite (main_after_staging E w w2 Hs) in *.
  destruct (reaches_staging_facts E w w2 Hs) as [Hc [Hb _]].
  assert (S2 : staged (cwd w) w2).
  { split; [exact Hc|]. unfold is_dir_at. now rewrite Hb. }
  pose proof (after_staging_fails E (cwd w) w2 S2) as Hfail.
  unfold try_except in *.
  destruct (after_staging E w2) as [[[]|[e|code]] w'] eqn:Ha; simpl in *.
  - now destruct Hexit.
  - destruct Hfail as [_ Hd]; [discriminate|]. exact Hd.
  - destruct Hfail as [_ Hd]; [discriminate|]. exact Hd.
Qed.

(** C8.  A run that ends with status 0 leaves no staging directory and
    leaves the archive as a regular file, the one entry of that name in the
    directory it started in; so does a second run after it.  A run that has
    created the staging directory and then fails leaves the staging
    directory behind. *)
Theorem build_leaves_the_archive_and_no_staging (E E' : env) (w : world) :
  let w1 := snd (run E w) in
  let w2 := snd (run E' w1) in
  (fst (run E w) = 0%Z ->
   exists_at (cwd w ++ ["bundle"]) (fs w1) = false
   /\ is_file_at (cwd w ++ ["libralm.dxt"]) (fs w1) = true
   /\ count_at (cwd w) "libralm.dxt" (fs w1) = Some 1
   /\ cwd w1 = cwd w)
  /\ (fst (run E w) = 0%Z -> fst (run E' w1) = 0%Z ->
      exists_at (cwd w ++ ["bundle"]) (fs w2) = false
      /\ is_file_at (cwd w ++ ["libralm.dxt"]) (fs w2) = true
      /\ count_at (cwd w) "libralm.dxt" (fs w2) = Some 1
      /\ cwd w2 = cwd w)
  /\ (forall ws, reaches_staging E w = (Return tt, ws) ->
                 fst (run E w) <> 0%Z ->
                 is_dir_at (cwd w ++ ["bundle"]) (fs w1) = true).
Proof.
  cbv zeta. split; [apply successful_run|]. split.
  - intros H1 H2. destruct (successful_run E w H1) as [_ [_ [_ Hc]]].
    destruct (successful_run E' _ H2) as [Hb [Ha [Hn Hc']]].
    rewrite Hc in *. auto.
  - intros ws. apply failed_run_keeps_staging.
Qed.

Lemma build_leaves_the_archive_and_no_staging_witness :
  (exists_at (demo_home ++ ["bundle"]) (fs (snd (run demo_env demo_world))) = false
   /\ is_file_at (demo_home ++ ["libralm.dxt"])
                 (fs (snd (run demo_env demo_world))) = true
   /\ count_at demo_home "libralm.dxt"
                (fs (snd (run demo_env demo_world))) = Some 1)
  /\ (exists_at (demo_home ++ ["bundle"])
                (fs (snd (run demo_env (snd (run demo_env demo_world))))) = false
      /\ is_file_at (demo_home ++ ["libralm.dxt"])
                    (fs (snd (run demo_env (snd (run demo_env demo_world))))) = true
      /\ count_at demo_home "libralm.dxt"
                   (fs (snd (run demo_env (snd (run demo_env demo_world)))))
         = Some 1)
  /\ is_dir_at (demo_home ++ ["bundle"])
               (fs (snd (run demo_env_npm_fails demo_world))) = true.
Proof.
  destruct (build_leaves_the_archive_and_no_staging demo_env demo_env demo_world)
    as [Hone [Htwo _]].
  destruct (build_leaves_the_archive_and_no_staging
              demo_env_npm_fails demo_env demo_world) as [_ [_ Hfail]].
  assert (H0 : fst (run demo_env demo_world) = 0%Z) by (vm_compute; reflexivity).
  assert (H1 : fst (run demo_env (snd (run demo_env demo_world))) = 0%Z)
    by (vm_compute; reflexivity).
  destruct (Hone H0) as [Hb [Ha [Hn _]]].
  destruct (Htwo H0 H1) as [Hb' [Ha' [Hn' _]]].
  split; [repeat split; assumption|]. split; [repeat split; assumption|].
  apply (Hfail (snd (reaches_staging demo_env_npm_fails demo_world))).
  - vm_compute. reflexivity.
  - vm_compute. discriminate.
Defined.

(** *** The install fails *)




(** *** No [package.json] *)

Lemma listed_files_apart (c : path) (f : string) :
  In f files_to_copy ->
  f <> "bundle"
  /\ forall p, In p (touched c) -> diverge p (c ++ [f]) = true.
Proof.
  intros Hin. simpl in Hin.
  repeat (destruct Hin as [<-|Hin]; [split; [discriminate|];
    intros p [<-|[<-|[]]]; rewrite diverge_common; reflexivity|]).
  destruct Hin.
Qed.



(** * Further properties of the script *)

(** ** The node check *)

(** X1.  Node cannot be found, or answers the version query with a
    non-zero status: [main] prints the banner and its rule, that node was
    not found, that the build failed and where to get node, and ends in
    [sys.exit(1)] without reading the manifest; the tree and the working
    directory are what they were. *)
Theorem failed_node_check_ends_the_run (E : env) (w : world) :
  node_version E = NotStarted FileNotFoundError
  \/ (exists rc so, node_version E = Exited rc so /\ rc <> 0%Z) ->
  main E w
  = (Raise (SystemExit 1%Z),
     World (fs w) (cwd w)
           (out w ++ [Building_banner; Banner_rule; Node_not_found;
                      Build_failed_node_required; Please_install_node])).
Proof.
  destruct w as [t c o]. intros H.
  unfold main, check_node, subprocess_run, try_except. run_monad.
  destruct H as [-> | [rc [so [-> Hrc]]]]; simpl.
  - now rewrite <- !app_assoc.
  - apply Z.eqb_neq in Hrc. rewrite Hrc. simpl. now rewrite <- !app_assoc.
Qed.

Lemma failed_node_check_ends_the_run_witness :
  fst (run demo_env_no_node demo_world) = 1%Z
  /\ out (snd (main demo_env_no_node demo_world))
     = [Building_banner; Banner_rule; Node_not_found;
        Build_failed_node_required; Please_install_node].
Proof.
  pose proof (failed_node_check_ends_the_run demo_env_no_node demo_world
                (or_introl eq_refl)) as H.
  unfold run. rewrite H. split; reflexivity.
Defined.

(** X2.  Starting node fails with an error other than
    [FileNotFoundError]: [check_node] does not catch it and it is raised
    outside the [try] statement of [main], so it leaves [main] uncaught
    right after the banner; the process ends with status 1 and nothing
    has changed. *)
Theorem other_node_errors_escape_main (E : env) (w : world) (e : error) :
  node_version E = NotStarted e ->
  e <> FileNotFoundError ->
  check_node E w = (Raise (Exception e), w)
  /\ main E w
     = (Raise (Exception e),
        World (fs w) (cwd w) (out w ++ [Building_banner; Banner_rule]))
  /\ fst (run E w) = 1%Z.
Proof.
  destruct w as [t c o]. intros Hn He.
  assert (Hc : forall o', check_node E (World t c o')
                          = (Raise (Exception e), World t c o')).
  { intros o'. unfold check_node, subprocess_run, try_except. run_monad.
    rewrite Hn. simpl. destruct e; try reflexivity. now destruct He. }
  assert (Hm : main E (World t c o)
               = (Raise (Exception e),
                  World t c (o ++ [Building_banner; Banner_rule]))).
  { unfold main. rewrite bind_run. unfold print at 1. cbv beta iota.
    rewrite bind_run. unfold print at 1. cbv beta iota.
    cbn [fs cwd out]. rewrite bind_run, Hc. now rewrite <- app_assoc. }
  split; [apply Hc|]. split; [exact Hm|].
  unfold run. now rewrite Hm.
Qed.

Lemma other_node_errors_escape_main_witness :
  fst (run demo_env_node_denied demo_world) = 1%Z
  /\ out (snd (main demo_env_node_denied demo_world))
     = [Building_banner; Banner_rule].
Proof.
  destruct (other_node_errors_escape_main demo_env_node_denied demo_world
              PermissionError eq_refl) as [_ [Hm Hx]].
  - discriminate.
  - split; [exact Hx|]. rewrite Hm. reflexivity.
Defined.

(** ** The manifest *)

Lemma check_required_cons (manifest : json) (field : string) (rest : list string)
      (w : world) :
  check_required manifest (field :: rest) w
  = (b <- py_in field manifest ;;
     if negb b
     then print (Missing_required_field field) ;; ret false
     else check_required manifest rest) w.
Proof. reflexivity. Qed.

(** The loop over the fields, for a value on which [in] is defined. *)
Lemma check_required_in (manifest : json) (mem : string -> bool) :
  (forall f, py_in f manifest = ret (mem f)) ->
  forall fields w,
    fst (check_required manifest fields w) = Return (forallb mem fields)
    /\ (forallb mem fields = true ->
        check_required manifest fields w
        = (Return true, World (fs w) (cwd w) (out w ++ [Manifest_is_valid]))).
Proof.
  intros Hin fields. induction fields as [|f fields IH]; intros w.
  - split; reflexivity.
  - rewrite check_required_cons, bind_run, Hin. unfold ret at 1. cbv beta iota.
    simpl forallb. destruct (mem f); simpl.
    + apply IH.
    + split; [reflexivity | discriminate].
Qed.

Lemma validate_manifest_loaded (E : env) (w : world) (text : string) (j : json) :
  lookup (cwd w ++ ["manifest.json"]) (fs w) = Some (File (Bytes text)) ->
  json_load E text = Some j ->
  validate_manifest E w
  = try_except
      (check_required j required)
      (fun x => match x with
                | Exception e => Some (print (Error_reading_manifest e) ;; ret false)
                | SystemExit _ => None
                end)
      (World (fs w) (cwd w) (out w ++ [Validating_manifest])).
Proof.
  destruct w as [t c o]. simpl. intros Hf Hj.
  unfold validate_manifest, open_json_load, try_except. run_monad.
  rewrite Hf. simpl. rewrite Hj. reflexivity.
Qed.

Lemma validate_manifest_in (E : env) (w : world) (text : string) (j : json)
      (mem : string -> bool) :
  lookup (cwd w ++ ["manifest.json"]) (fs w) = Some (File (Bytes text)) ->
  json_load E text = Some j ->
  (forall f, py_in f j = ret (mem f)) ->
  fst (validate_manifest E w) = Return (forallb mem required)
  /\ (forallb mem required = true ->
      validate_manifest E w
      = (Return true,
         World (fs w) (cwd w) (out w ++ [Validating_manifest; Manifest_is_valid]))).
Proof.
  intros Hf Hj Hin. rewrite (validate_manifest_loaded E w text j Hf Hj).
  destruct (check_required_in j mem Hin required
              (World (fs w) (cwd w) (out w ++ [Validating_manifest]))) as [H1 H2].
  unfold try_except. split.
  - destruct (check_required j required _) as [[b|x] w1]; simpl in *;
      [exact H1 | discriminate].
  - intros Hall. rewrite (H2 Hall). simpl. now rewrite <- app_assoc.
Qed.

(** X3.  The manifest parses to an object: [validate_manifest] returns
    [True] exactly when the object has all six required keys, whatever
    their values and whatever other keys it has; it then prints that the
    manifest is valid and changes nothing. *)
Theorem validate_manifest_accepts_complete_objects
        (E : env) (w : world) (text : string) (members : list (string * json)) :
  lookup (cwd w ++ ["manifest.json"]) (fs w) = Some (File (Bytes text)) ->
  json_load E text = Some (JObject members) ->
  fst (validate_manifest E w)
  = Return (forallb (fun f => has_key f members) required)
  /\ (forallb (fun f => has_key f members) required = true ->
      validate_manifest E w
      = (Return true,
         World (fs w) (cwd w) (out w ++ [Validating_manifest; Manifest_is_valid]))).
Proof.
  intros Hf Hj.
  apply (validate_manifest_in E w text (JObject members)
           (fun f => has_key f members) Hf Hj).
  reflexivity.
Qed.

Lemma validate_manifest_accepts_complete_objects_witness :
  validate_manifest demo_env demo_world
  = (Return true,
     World (fs demo_world) (cwd demo_world) [Validating_manifest; Manifest_is_valid])
  /\ fst (validate_manifest demo_env demo_short_world) = Return false.
Proof.
  destruct (validate_manifest_accepts_complete_objects
              demo_env demo_world demo_manifest_text
              [("dxt_version", JString "0.1"); ("name", JString "libralm");
               ("version", JString "1.0.0"); ("description", JString "books");
               ("author", JObject [("name", JString "LibraLM")]);
               ("server", JObject [("type", JString "node")])]
              eq_refl eq_refl) as [_ H].
  destruct (validate_manifest_accepts_complete_objects
              demo_env demo_short_world demo_short_text
              [("dxt_version", JString "0.1"); ("name", JString "libralm");
               ("description", JString "books"); ("server", JObject [])]
              eq_refl eq_refl) as [H' _].
  split; [exact (H eq_refl) | exact H'].
Defined.

(** The three ways in which the loop over the fields ends. *)
Lemma check_required_verdict (manifest : json) (fields : list string) :
  (forall w, check_required manifest fields w
             = (Return true, World (fs w) (cwd w) (out w ++ [Manifest_is_valid])))
  \/ (exists f, In f fields
                /\ forall w, check_required manifest fields w
                             = (Return false,
                                World (fs w) (cwd w)
                                      (out w ++ [Missing_required_field f])))
  \/ (exists e, forall w, check_required manifest fields w
                          = (Raise (Exception e), w)).
Proof.
  induction fields as [|f fields IH].
  - left. intros [t c o]. reflexivity.
  - assert (Hin : (exists b, py_in f manifest = ret b)
                  \/ py_in f manifest = fail TypeError).
    { destruct manifest; simpl; eauto. }
    destruct Hin as [[b Hb] | Hf].
    + destruct b.
      * assert (Hstep : forall w, check_required manifest (f :: fields) w
                                  = check_required manifest fields w).
        { intros w. rewrite check_required_cons, bind_run, Hb. reflexivity. }
        destruct IH as [H | [[g [Hg H]] | [e H]]].
        -- left. intros w. now rewrite Hstep.
        -- right. left. exists g. split; [now right|]. intros w. now rewrite Hstep.
        -- right. right. exists e. intros w. now rewrite Hstep.
      * right. left. exists f. split; [now left|].
        intros [t c o]. rewrite check_required_cons, bind_run, Hb. reflexivity.
    + right. right. exists TypeError.
      intros [t c o]. rewrite check_required_cons, bind_run, Hf. reflexivity.
Qed.

(** X4.  Whatever goes wrong while the manifest is opened, parsed or
    searched ends in the handler of [validate_manifest].  On a standard
    output that takes its lines, every call prints two lines, the heading
    and one verdict, and returns the truth value that the verdict
    announces: [True] after the line that the manifest is valid, [False]
    after the line that names a missing required field or after the line
    that reports the error; the tree and the working directory are as
    before. *)
Theorem validate_manifest_reports_its_verdict (E : env) (w : world) :
  exists b ev,
    validate_manifest E w
    = (Return b, World (fs w) (cwd w) (out w ++ [Validating_manifest; ev]))
    /\ match ev with
       | Manifest_is_valid => b = true
       | Missing_required_field f => b = false /\ In f required
       | Error_reading_manifest e => b = false
       | _ => False
       end.
Proof.
  destruct w as [t c o]. cbn [fs cwd out].
  assert (Hfail : forall e,
             (@Return bool false,
              World t c ((o ++ [Validating_manifest]) ++ [Error_reading_manifest e]))
             = (Return false,
                World t c (o ++ [Validating_manifest; Error_reading_manifest e])))
    by (intros e; now rewrite <- app_assoc).
  unfold validate_manifest, open_json_load, try_except. run_monad.
  destruct (lookup (c ++ ["manifest.json"]) t) as [[[s|m ms]|es]|]; simpl;
    try (exists false, (Error_reading_manifest FileNotFoundError);
         split; [apply Hfail | reflexivity]);
    try (exists false, (Error_reading_manifest IsADirectoryError);
         split; [apply Hfail | reflexivity]);
    try (exists false, (Error_reading_manifest ValueError);
         split; [apply Hfail | reflexivity]).
  destruct (json_load E s) as [manifest|]; simpl;
    [|exists false, (Error_reading_manifest ValueError);
      split; [apply Hfail | reflexivity]].
  destruct (check_required_verdict manifest required) as [H | [[f [Hf H]] | [e H]]];
    rewrite H; cbn [fs cwd out].
  - exists true, Manifest_is_valid. split; [now rewrite <- app_assoc | reflexivity].
  - exists false, (Missing_required_field f).
    split; [now rewrite <- app_assoc | now split].
  - exists false, (Error_reading_manifest e). split; [apply Hfail | reflexivity].
Qed.

(** X5.  Node is there but the manifest cannot be loaded, because the file
    is missing or because its text does not parse: [validate_manifest]
    reports the error and returns [False], and [main] ends in
    [sys.exit(1)] before the clean-up of the previous build, with nothing
    changed. *)
Theorem unreadable_manifest_ends_the_run
        (E : env) (w : world) (so : string) (e : error) :
  node_version E = Exited 0%Z so ->
  (lookup (cwd w ++ ["manifest.json"]) (fs w) = None /\ e = FileNotFoundError)
  \/ (exists text,
         lookup (cwd w ++ ["manifest.json"]) (fs w) = Some (File (Bytes text))
         /\ json_load E text = None /\ e = ValueError) ->
  (forall o, validate_manifest E (World (fs w) (cwd w) o)
             = (Return false,
                World (fs w) (cwd w)
                      (o ++ [Validating_manifest; Error_reading_manifest e])))
  /\ main E w
     = (Raise (SystemExit 1%Z),
        World (fs w) (cwd w)
              (out w ++ [Building_banner; Banner_rule; Node_found (strip so);
                         Validating_manifest; Error_reading_manifest e;
                         Build_failed_invalid_manifest])).
Proof.
  destruct w as [t c o]. cbn [fs cwd out]. intros Hn Hm.
  assert (Hv : forall o', validate_manifest E (World t c o')
                          = (Return false,
                             World t c (o' ++ [Validating_manifest;
                                               Error_reading_manifest e]))).
  { intros o'. unfold validate_manifest, open_json_load, try_except. run_monad.
    destruct Hm as [[-> ->] | [text [-> [Hj ->]]]]; simpl.
    - now rewrite <- app_assoc.
    - rewrite Hj. simpl. now rewrite <- app_assoc. }
  split; [exact Hv|].
  assert (Hc : forall o', check_node E (World t c o')
                          = (Return true,
                             World t c (o' ++ [Node_found (strip so)]))).
  { intros o'. unfold check_node, subprocess_run, try_except. run_monad.
    rewrite Hn. reflexivity. }
  unfold main. rewrite bind_run. unfold print at 1. cbv beta iota.
  rewrite bind_run. unfold print at 1. cbv beta iota. cbn [fs cwd out].
  rewrite bind_run, Hc. cbv beta iota.
  simpl negb.
  rewrite bind_run. unfold when at 1, ret at 1. cbv beta iota.
  rewrite bind_run, Hv. cbv beta iota.
  run_monad. now rewrite <- !app_assoc.
Qed.

Lemma unreadable_manifest_ends_the_run_witness :
  fst (run demo_env demo_no_manifest) = 1%Z
  /\ out (snd (main demo_env demo_no_manifest))
     = [Building_banner; Banner_rule; Node_found "v20.1.0"; Validating_manifest;
        Error_reading_manifest FileNotFoundError; Build_failed_invalid_manifest].
Proof.
  destruct (unreadable_manifest_ends_the_run
              demo_env demo_no_manifest "v20.1.0" FileNotFoundError eq_refl)
    as [_ H].
  - left. split; reflexivity.
  - unfold run. rewrite H. split; reflexivity.
Defined.

(** X6.  The check does not ask the manifest to be an object.  A manifest
    that parses to a list is accepted exactly when the six names are
    among its string elements, one that parses to a string exactly when
    they are substrings of it; on a number, a boolean or [null] the
    operator [in] raises [TypeError], which is reported as an error of
    reading the manifest. *)
Theorem validate_manifest_on_other_values
        (E : env) (w : world) (text : string) (j : json) :
  lookup (cwd w ++ ["manifest.json"]) (fs w) = Some (File (Bytes text)) ->
  json_load E text = Some j ->
  (forall xs, j = JArray xs ->
     fst (validate_manifest E w)
     = Return (forallb (fun f => existsb (json_is_string f) xs) required))
  /\ (forall s, j = JString s ->
        fst (validate_manifest E w)
        = Return (forallb (fun f => is_infix f s) required))
  /\ (j = JNull \/ (exists b, j = JBool b) \/ (exists l, j = JNumber l) ->
      validate_manifest E w
      = (Return false,
         World (fs w) (cwd w)
               (out w ++ [Validating_manifest; Error_reading_manifest TypeError]))).
Proof.
  intros Hf Hj. split; [|split].
  - intros xs ->.
    apply (validate_manifest_in E w text (JArray xs)
             (fun f => existsb (json_is_string f) xs) Hf Hj).
    reflexivity.
  - intros s ->.
    apply (validate_manifest_in E w text (JString s)
             (fun f => is_infix f s) Hf Hj).
    reflexivity.
  - intros Hs. rewrite (validate_manifest_loaded E w text j Hf Hj).
    destruct w as [t c o]. cbn [fs cwd out].
    destruct Hs as [-> | [[b ->] | [l ->]]];
      unfold try_except, required; rewrite check_required_cons;
      unfold py_in; run_monad; now rewrite <- app_assoc.
Qed.

Lemma validate_manifest_on_other_values_witness :
  fst (validate_manifest demo_env_list demo_list_world) = Return true
  /\ validate_manifest demo_env_list demo_number_world
     = (Return false,
        World (fs demo_number_world) (cwd demo_number_world)
              [Validating_manifest; Error_reading_manifest TypeError]).
Proof.
  destruct (validate_manifest_on_other_values
              demo_env_list demo_list_world demo_list_text demo_list_manifest
              eq_refl eq_refl) as [Harr _].
  destruct (validate_manifest_on_other_values
              demo_env_list demo_number_world "7" (JNumber "7")
              eq_refl eq_refl) as [_ [_ Hnum]].
  split.
  - exact (Harr _ eq_refl).
  - apply Hnum. right. right. now exists "7".
Defined.

(** ** The exit status and the reach of a run *)

Lemma preserves_try_except {A} (P : world -> Prop) (body : M A)
      (h : exn -> option (M A)) :
  preserves P body -> (forall x k, h x = Some k -> preserves P k) ->
  preserves P (try_except body h).
Proof.
  intros Hb Hh w H. unfold try_except. specialize (Hb w H).
  destruct (body w) as [[a|x] w1]; simpl in *; [exact Hb|].
  destruct (h x) as [k|] eqn:Hx; simpl; [|exact Hb].
  now apply (Hh x k Hx).
Qed.




Lemma framed_create_bundle_dir (c : path) (t0 : node) :
  preserves (framed c (touched c) t0) create_bundle_dir.
Proof. unfold create_bundle_dir, bundle, touched. preserves_tac. Qed.

Lemma framed_copy_source_files (c : path) (t0 : node) :
  preserves (framed c (touched c) t0) copy_source_files.
Proof. unfold copy_source_files, bundle, touched. preserves_tac. Qed.

Lemma framed_prune_dependencies (E : env) (c : path) (t0 : node) :
  preserves (framed c (touched c) t0) (prune_dependencies E).
Proof. unfold prune_dependencies, touched. preserves_tac. Qed.

Lemma framed_create_dxt_package {E : env} (c : path) (t0 : node) :
  preserves (framed c (touched c) t0) (create_dxt_package E).
Proof. unfold create_dxt_package, libralm_dxt, touched. preserves_tac. Qed.

Lemma framed_install_packages (E : env) (c : path) (t0 : node) :
  preserves (framed c (touched c) t0) (install_packages E).
Proof.
  intros w [Hc Hf].
  destruct (install_packages_cases E w) as [[e [-> _]]|[x [es [_ [_ ->]]]]];
    simpl; split; simpl; auto.
  eapply frame_trans; [exact Hf|].
  eapply frame_weaken; [|apply frame_update_same].
  intros p [<-|[]]. rewrite Hc. now left.
Qed.

Lemma framed_build_steps (E : env) (c : path) (t0 : node) :
  preserves (framed c (touched c) t0) (build_steps E).
Proof.
  unfold build_steps.
  apply preserves_bind; [apply framed_clean_build | intros _].
  apply preserves_bind; [apply framed_create_bundle_dir | intros _].
  apply preserves_bind; [apply framed_copy_source_files | intros _].
  apply preserves_bind.
  { unfold install_dependencies.
    apply preserves_bind; [apply framed_install_packages | intros _].
    apply framed_prune_dependencies. }
  intros _.
  apply preserves_bind; [apply framed_create_dxt_package | intros _].
  unfold bundle, touched. preserves_tac.
Qed.

Lemma framed_main (E : env) (c : path) (t0 : node) :
  preserves (framed c (touched c) t0) (main E).
Proof.
  intros w H. rewrite main_after_checks. revert w H.
  apply preserves_bind; [apply preserves_checks, out_blind_framed | intros _].
  apply preserves_try_except; [apply framed_build_steps|].
  intros [e|code] k Hk; simpl in Hk; [|discriminate].
  injection Hk as <-. preserves_tac.
Qed.

(** X8.  However a run ends, it ends in the directory it started in, and
    every path that is neither at or below [bundle] nor at or below
    [libralm.dxt] in that directory leads to what it led to before. *)
Theorem build_changes_its_two_entries_only (E : env) (w : world) :
  cwd (snd (run E w)) = cwd w
  /\ frame (touched (cwd w)) (fs w) (fs (snd (run E w))).
Proof.
  unfold run. cbn [snd].
  apply (framed_main E (cwd w) (fs w) w).
  split; [reflexivity | apply frame_refl].
Qed.

(** ** Failures inside the [try] statement *)



(** X10.  A regular file called [bundle] is in the way: [os.path.exists]
    holds, [shutil.rmtree] raises [NotADirectoryError], and [clean_build]
    ends there, before it looks at the old archive.  The run ends with
    status 1 and the tree is what it was. *)
Theorem stray_bundle_file_stops_the_build (E : env) (w : world) :
  is_file_at (cwd w ++ ["bundle"]) (fs w) = true ->
  (forall o, clean_build E (World (fs w) (cwd w) o)
             = (Raise (Exception NotADirectoryError),
                World (fs w) (cwd w) (o ++ [Cleaning_previous_build])))
  /\ fst (run E w) = 1%Z
  /\ fs (snd (run E w)) = fs w.
Proof.
  destruct w as [t c o]. cbn [fs cwd out]. intros Hf.
  unfold is_file_at in Hf.
  destruct (lookup (c ++ ["bundle"]) t) as [[d|es]|] eqn:Hb; try discriminate.
  assert (Hcb : forall o', clean_build E (World t c o')
                           = (Raise (Exception NotADirectoryError),
                              World t c (o' ++ [Cleaning_previous_build]))).
  { intros o'. unfold clean_build, os_path_exists, shutil_rmtree, bundle, exists_at.
    run_monad. rewrite Hb. simpl. rewrite Hb. reflexivity. }
  split; [exact Hcb|].
  unfold run. cbn [fst snd].
  destruct (main_checks E t c o) as [evs [[_ [_ Hm]] | [_ [Hx Hw]]]].
  - rewrite Hm. unfold try_except, build_steps. rewrite bind_run, Hcb. simpl.
    split; reflexivity.
  - rewrite Hx, Hw. split; reflexivity.
Qed.

Lemma stray_bundle_file_stops_the_build_witness :
  fst (run demo_env demo_stray_world) = 1%Z
  /\ fs (snd (run demo_env demo_stray_world)) = fs demo_stray_world.
Proof.
  destruct (stray_bundle_file_stops_the_build demo_env demo_stray_world eq_refl)
    as [_ H].
  exact H.
Defined.

(** X11.  Once [clean_build] and [create_bundle_dir] have returned, the
    staging directory is there and empty and there is no archive: nothing
    of an earlier build is left to get into the new one.  Nothing else has
    changed. *)
Theorem staging_directory_starts_empty (E : env) (w w2 : world) :
  (clean_build E ;; create_bundle_dir) w = (Return tt, w2) ->
  lookup (cwd w ++ ["bundle"]) (fs w2) = Some (Dir [])
  /\ lookup (cwd w ++ ["libralm.dxt"]) (fs w2) = None
  /\ cwd w2 = cwd w
  /\ frame (touched (cwd w)) (fs w) (fs w2).
Proof.
  intros H.
  apply bind_Return_inv in H. destruct H as [[] [w1 [Hcb Hbd]]].
  destruct (clean_build_returns E w w1 Hcb) as [Hcwd1 [Hb1 [Ha1 Hf1]]].
  destruct (create_bundle_dir_returns w1 w2 Hbd) as [[Hcwd2 _] Hnew].
  rewrite Hcwd1 in *.
  assert (Hf2 : framed (cwd w) [cwd w ++ ["bundle"]] (fs w1) w2).
  { apply (preserves_run _ _ _ _ _
             (staging_only_create_bundle_dir (cwd w) (fs w1)) Hbd).
    split; [exact Hcwd1 | apply frame_refl]. }
  destruct Hf2 as [_ Hf2].
  split; [now apply Hnew|]. split; [|split; [exact Hcwd2|]].
  - rewrite (frame_one _ _ _ _ Hf2 (diverge_archive_bundle (cwd w))). exact Ha1.
  - eapply frame_trans; [exact Hf1|].
    eapply frame_weaken; [|exact Hf2]. intros p [<-|[]]. now left.
Qed.

Lemma staging_directory_starts_empty_witness :
  lookup (demo_home ++ ["bundle"])
         (fs (snd ((clean_build demo_env ;; create_bundle_dir) demo_world)))
  = Some (Dir [])
  /\ lookup (demo_home ++ ["libralm.dxt"])
            (fs (snd ((clean_build demo_env ;; create_bundle_dir) demo_world)))
     = None.
Proof.
  destruct (staging_directory_starts_empty demo_env demo_world
              (snd ((clean_build demo_env ;; create_bundle_dir) demo_world)))
    as [Hb [Ha _]].
  - vm_compute. reflexivity.
  - split; [exact Hb | exact Ha].
Defined.

(** ** What [copy_source_files] prints *)




(** ** More on the pruning *)

Lemma sweep_no_match (E : env) (pattern : string) (p : path) (es : entries) :
  forallb (fun e => negb (glob_match pattern (fst e))) es = true ->
  sweep E pattern p es = es.
Proof.
  unfold sweep. induction es as [|e es IH]; simpl; [reflexivity|].
  intros H. apply andb_prop in H. destruct H as [He Hes].
  apply negb_true_iff in He. rewrite He. simpl. now rewrite IH.
Qed.

Lemma rglob_remove_no_match (E : env) (pattern : string) (fuel : nat) :
  forall p es,
    clean pattern (Dir es) = true -> rglob_remove E fuel pattern p es = es.
Proof.
  induction fuel as [|fuel IH]; intros p es Hc; [reflexivity|].
  rewrite rglob_remove_S. rewrite clean_Dir in Hc.
  rewrite sweep_no_match.
  - rewrite <- (map_id es) at 2. apply map_ext_in.
    intros [k n] Hin. simpl.
    destruct n as [d|sub]; [reflexivity|].
    rewrite IH; [reflexivity|].
    rewrite forallb_forall in Hc. specialize (Hc _ Hin). simpl in Hc.
    now apply andb_prop in Hc.
  - rewrite forallb_forall in *. intros e He. specialize (Hc e He).
    now apply andb_prop in Hc.
Qed.

Lemma modify_same (k : string) (f : node -> node) (es : entries) (n : node) :
  find k es = Some n -> f n = n -> modify k f es = es.
Proof.
  induction es as [|[k' m] es IH]; simpl; [discriminate|].
  destruct (String.eqb k' k).
  - intros [= ->] ->. reflexivity.
  - intros H1 H2. now rewrite IH.
Qed.

Lemma update_same (p : path) (f : entries -> entries) :
  forall t es, lookup p t = Some (Dir es) -> f es = es -> update p f t = t.
Proof.
  induction p as [|k q IH]; intros t es Hl Hf.
  - simpl in Hl. injection Hl as ->. unfold update. now rewrite Hf.
  - destruct t as [d|es0]; [reflexivity|]. simpl in Hl.
    destruct (find k es0) as [n|] eqn:Hk; [|discriminate].
    change (update (k :: q) f (Dir es0)) with (Dir (modify k (update q f) es0)).
    f_equal. apply (modify_same k _ es0 n Hk). now apply (IH n es).
Qed.

Lemma prune_tree_no_match (E : env) (pattern : string) (p : path) (t : node) :
  clean_at pattern p t = true -> prune_tree E pattern p t = t.
Proof.
  unfold clean_at, prune_tree.
  destruct (lookup p t) as [[d|es]|] eqn:Hl; try reflexivity.
  intros Hc. apply (update_same p _ t es Hl).
  now apply rglob_remove_no_match.
Qed.

Lemma prune_fold_no_match (E : env) (p : path) (patterns : list string) (t : node) :
  (forall pattern, In pattern patterns -> clean_at pattern p t = true) ->
  fold_left (fun t pattern => prune_tree E pattern p t) patterns t = t.
Proof.
  induction patterns as [|pattern patterns IH]; intros H; [reflexivity|].
  simpl. rewrite prune_tree_no_match by (apply H; now left).
  apply IH. intros q Hq. apply H. now right.
Qed.

(** X13.  The pruning loop changes nothing in a tree that has no matching
    name below [bundle/node_modules] (or has no such directory).  When
    the system refuses no removal below it, the loop leaves such a tree,
    so a second pruning right after the first changes nothing. *)
Theorem pruning_twice_is_pruning_once (E : env) (w : world) :
  let nm := cwd w ++ ["bundle"; "node_modules"] in
  ((forall pattern, In pattern patterns_to_remove ->
                    clean_at pattern nm (fs w) = true) ->
   fs (snd (prune_dependencies E w)) = fs w)
  /\ ((forall q, deny E (nm ++ q) = false) ->
      fs (snd (prune_dependencies E (snd (prune_dependencies E w))))
      = fs (snd (prune_dependencies E w))).
Proof.
  destruct w as [t c o]. cbn [fs cwd out]. cbv zeta.
  assert (H1 : forall t' o',
             (forall pattern, In pattern patterns_to_remove ->
                clean_at pattern (c ++ ["bundle"; "node_modules"]) t' = true) ->
             fs (snd (prune_dependencies E (World t' c o'))) = t').
  { intros t' o' Hc. rewrite prune_dependencies_run. cbn [fs snd].
    now apply prune_fold_no_match. }
  split; [apply H1|].
  intros Hd. rewrite (prune_dependencies_run E t c o). cbn [snd fs].
  apply H1. intros pattern Hin. now apply clean_at_fold.
Qed.

Lemma pruning_twice_is_pruning_once_witness :
  fs (snd (prune_dependencies demo_env demo_world)) = fs demo_world
  /\ fs (snd (prune_dependencies demo_env
                (snd (prune_dependencies demo_env
                        (snd (install_packages demo_env
                                (snd (reaches_install demo_env demo_world))))))))
     = fs (snd (prune_dependencies demo_env
                  (snd (install_packages demo_env
                          (snd (reaches_install demo_env demo_world)))))).
Proof.
  destruct (pruning_twice_is_pruning_once demo_env demo_world) as [H1 _].
  destruct (pruning_twice_is_pruning_once demo_env
              (snd (install_packages demo_env
                      (snd (reaches_install demo_env demo_world)))))
    as [_ H2].
  split.
  - apply H1.
    assert (Hall : forallb (fun pattern =>
                              clean_at pattern
                                (cwd demo_world ++ ["bundle"; "node_modules"])
                                (fs demo_world))
                           patterns_to_remove = true) by reflexivity.
    rewrite forallb_forall in Hall. exact Hall.
  - apply H2. intros q. reflexivity.
Defined.

(** ** The names that the pruning removes *)

Lemma glob_match_literal (lit : string) :
  no_star lit = true -> forall name, glob_match lit name = String.eqb lit name.
Proof.
  induction lit as [|c lit IH]; intros Hs name.
  - now destruct name.
  - simpl in Hs. apply andb_prop in Hs. destruct Hs as [Hc Hs].
    apply negb_true_iff in Hc. simpl. rewrite Hc.
    destruct name as [|d name]; [reflexivity|].
    rewrite (IH Hs). simpl. now destruct (Ascii.eqb c d).
Qed.

Lemma glob_match_star (lit : string) (name : string) :
  glob_match (String "*" lit) name
  = glob_match lit name
    || match name with
       | EmptyString => false
       | String _ name' => glob_match (String "*" lit) name'
       end.
Proof. destruct name; reflexivity. Qed.

Lemma glob_match_suffix (lit : string) :
  no_star lit = true ->
  forall name,
    glob_match (String "*" lit) name = true <-> exists s, name = (s ++ lit)%string.
Proof.
  intros Hs name. induction name as [|a name IH]; rewrite glob_match_star.
  - rewrite orb_false_r, (glob_match_literal lit Hs). split.
    + intros H. apply String.eqb_eq in H. subst lit. now exists "".
    + intros [s H]. destruct s; simpl in H; [|discriminate].
      subst lit. reflexivity.
  - rewrite orb_true_iff, (glob_match_literal lit Hs), IH. split.
    + intros [H | [s H]].
      * apply String.eqb_eq in H. subst lit. now exists "".
      * exists (String a s). simpl. now rewrite H.
    + intros [s H]. destruct s as [|b s]; simpl in H.
      * left. subst lit. apply String.eqb_refl.
      * right. injection H as _ H. now exists s.
Qed.

(** X14.  The pruning patterns match a name exactly when it ends in [.md]
    or in [.txt], or is one of [test], [tests], [example], [examples] and
    [.github]; the comparison is sensitive to case. *)
Theorem names_that_pruning_removes (name : string) :
  matches patterns_to_remove name = true
  <-> (exists s, name = (s ++ ".md")%string)
      \/ (exists s, name = (s ++ ".txt")%string)
      \/ In name ["test"; "tests"; "example"; "examples"; ".github"].
Proof.
  unfold matches, patterns_to_remove. cbn [existsb].
  rewrite ?orb_false_r, !orb_true_iff.
  rewrite (glob_match_suffix ".md" eq_refl), (glob_match_suffix ".txt" eq_refl).
  rewrite !glob_match_literal by reflexivity.
  rewrite !String.eqb_eq. cbn [In]. intuition auto.
Qed.

(** ** When the install stage succeeds *)

(** X15.  [install_dependencies] returns normally only when its copy of
    [package.json] could be made ([package.json] is a regular file, the
    staging directory exists and has no directory of that name) and the
    package manager, run on the staging directory with that copy in it,
    exited with status 0: every other course of the install ends in an
    exception or in [sys.exit(1)]. *)
Theorem install_dependencies_succeeds_only_when (E : env) (w : world) :
  fst (install_dependencies E w) = Return tt ->
  exists x es so,
    lookup (cwd w ++ ["package.json"]) (fs w) = Some (File x)
    /\ lookup (cwd w ++ ["bundle"]) (fs w) = Some (Dir es)
    /\ is_dir_at ((cwd w ++ ["bundle"]) ++ ["package.json"]) (fs w) = false
    /\ fst (npm_install E (put "package.json" (File x) es)) = Exited 0%Z so.
Proof.
  destruct w as [t c o]. cbn [fs cwd out].
  assert (Hprune : forall r w1,
             install_packages E (World t c o) = (r, w1) ->
             fst (install_dependencies E (World t c o)) = Return tt -> r = Return tt).
  { intros r w1 H. unfold install_dependencies. rewrite bind_run, H.
    destruct r as [[]|x]; [reflexivity | discriminate]. }
  intros H.
  destruct (lookup (c ++ ["package.json"]) t) as [[x|es0]|] eqn:Hpj;
    [destruct (lookup (c ++ ["bundle"]) t) as [[y|es]|] eqn:Hb;
     [|destruct (is_dir_at ((c ++ ["bundle"]) ++ ["package.json"]) t) eqn:Hnd|]|
     |].
  3:{ pose proof (install_packages_runs E t c o x es Hpj Hb Hnd) as Hrun.
      cbv zeta in Hrun. apply (Hprune _ _ Hrun) in H.
      unfold npm_outcome in H.
      destruct (fst (npm_install E (put "package.json" (File x) es)))
        as [rc so|e] eqn:Hn.
      - destruct (rc =? 0)%Z eqn:Hz; [|discriminate].
        apply Z.eqb_eq in Hz. subst rc. now exists x, es, so.
      - destruct e; discriminate. }
  all: exfalso;
    destruct (install_packages_stops E t c o) as [e [Hstop _]];
    [ intros x' es' H1 H2; rewrite ?Hpj, ?Hb in *;
      first [discriminate
            | injection H1 as <-; injection H2 as <-; assumption
            | assumption]
    | apply (Hprune _ _ Hstop) in H; discriminate ].
Qed.

Lemma install_dependencies_succeeds_only_when_witness :
  exists x es so,
    lookup (demo_home ++ ["package.json"]) (fs demo_world) = Some (File x)
    /\ lookup (demo_home ++ ["bundle"])
              (fs (snd (reaches_install demo_env demo_world))) = Some (Dir es)
    /\ fst (npm_install demo_env (put "package.json" (File x) es)) = Exited 0%Z so.
Proof.
  destruct (install_dependencies_succeeds_only_when
              demo_env (snd (reaches_install demo_env demo_world)))
    as [x [es [so [Hpj [Hb [_ Hn]]]]]].
  - vm_compute. reflexivity.
  - exists x, es, so. split; [exact Hpj|]. split; [exact Hb | exact Hn].
Defined.

(** ** From the installed tree to the archive *)

Lemma rglob_remove_file_back (E : env) (pattern : string) (fuel : nat) :
  forall p es q d,
    lookup q (Dir (rglob_remove E fuel pattern p es)) = Some (File d) ->
    forallb (fun k => negb (glob_match pattern k)) q = true ->
    lookup q (Dir es) = Some (File d).
Proof.
  induction fuel as [|fuel IH]; intros p es q d Hl Hq; [exact Hl|].
  destruct q as [|k q]; [discriminate|].
  simpl in Hq. apply andb_prop in Hq. destruct Hq as [Hk Hq].
  apply negb_true_iff in Hk.
  rewrite rglob_remove_S in Hl. simpl in Hl. simpl.
  rewrite find_map_same_name in Hl by (intros [k' [d'|sub]]; reflexivity).
  rewrite find_sweep_other in Hl by exact Hk.
  destruct (find k es) as [c|]; [|discriminate]. simpl in Hl.
  destruct c as [d'|sub]; simpl in Hl; [exact Hl|].
  now apply (IH (p ++ [k])).
Qed.

Lemma file_back_fold (E : env) (p : path) (patterns : list string) (q : path) (d : data) :
  forallb (fun k => negb (matches patterns k)) q = true ->
  forall t,
    lookup (p ++ q) (fold_left (fun t pattern => prune_tree E pattern p t) patterns t)
    = Some (File d) ->
    lookup (p ++ q) t = Some (File d).
Proof.
  induction patterns as [|a l IH]; intros Hq t Ht; simpl in Ht; [exact Ht|].
  assert (Ha : forallb (fun k => negb (glob_match a k)) q = true
               /\ forallb (fun k => negb (matches l k)) q = true).
  { rewrite !forallb_forall in *. split; intros k Hk; specialize (Hq k Hk);
      unfold matches in Hq; simpl in Hq; rewrite negb_orb in Hq;
      apply andb_prop in Hq; tauto. }
  destruct Ha as [Ha Hl]. apply (IH Hl) in Ht.
  rewrite lookup_prune_tree in Ht. rewrite lookup_app.
  destruct (lookup p t) as [[d'|es]|]; try exact Ht.
  now apply (rglob_remove_file_back E a (height (Dir es)) p es).
Qed.

(** The components of a path that exists in a clean tree do not match. *)
Lemma clean_path (pattern : string) (q : path) :
  forall n m,
    clean pattern n = true -> lookup q n = Some m ->
    forallb (fun k => negb (glob_match pattern k)) q = true.
Proof.
  induction q as [|k q IH]; intros n m Hc Hl; [reflexivity|].
  destruct n as [d|es]; [discriminate|]. simpl in Hl.
  destruct (find k es) as [c|] eqn:Hk; [|discriminate].
  rewrite clean_Dir, forallb_forall in Hc.
  specialize (Hc _ (find_In _ _ _ Hk)). simpl in Hc.
  apply andb_prop in Hc. destruct Hc as [Hn Hc].
  simpl. rewrite Hn. simpl. now apply (IH c m).
Qed.

Lemma no_pattern_matches (patterns : list string) (q : path) :
  (forall pattern, In pattern patterns ->
                   forallb (fun k => negb (glob_match pattern k)) q = true) ->
  forallb (fun k => negb (matches patterns k)) q = true.
Proof.
  intros H. rewrite forallb_forall. intros k Hk.
  apply negb_true_iff. unfold matches.
  destruct (existsb (fun pat => glob_match pat k) patterns) eqn:He; [|reflexivity].
  apply existsb_exists in He. destruct He as [pat [Hin Hm]].
  specialize (H pat Hin). rewrite forallb_forall in H. specialize (H k Hk).
  rewrite Hm in H. discriminate.
Qed.

(** *** The pruning keeps a tree well formed *)

Lemma distinct_filter (P : string * node -> bool) (es : entries) :
  distinct (map fst es) = true -> distinct (map fst (filter P es)) = true.
Proof.
  induction es as [|[k n] es IH]; simpl; [reflexivity|].
  intros H. apply andb_prop in H. destruct H as [Hk Hd].
  destruct (P (k, n)); simpl; [|now apply IH].
  rewrite (IH Hd), andb_true_r. apply negb_true_iff in Hk. apply negb_true_iff.
  clear -Hk. induction es as [|[k' n'] es IH]; simpl in *; [reflexivity|].
  apply orb_false_iff in Hk. destruct Hk as [H1 H2].
  destruct (P (k', n')); simpl; [rewrite H1|]; now apply IH.
Qed.

Lemma wf_intro (es : entries) :
  distinct (map fst es) = true ->
  (forall e, In e es -> valid_name (fst e) = true /\ wf (snd e) = true) ->
  wf (Dir es) = true.
Proof.
  intros Hd Hall. simpl. rewrite Hd. simpl.
  apply forallb_forall. intros e He. destruct (Hall e He) as [-> ->]. reflexivity.
Qed.

Lemma wf_rglob_remove (E : env) (pattern : string) (fuel : nat) :
  forall p es,
    (forall q, deny E (p ++ q) = false) ->
    wf (Dir es) = true ->
    wf (Dir (rglob_remove E fuel pattern p es)) = true.
Proof.
  induction fuel as [|fuel IH]; intros p es Hd Hwf; [exact Hwf|].
  rewrite rglob_remove_S, (sweep_allowed E pattern p es Hd).
  destruct (wf_Dir es Hwf) as [Hdis Hall].
  apply wf_intro.
  - rewrite map_map.
    rewrite (map_ext _ fst) by (intros [k [d|sub]]; reflexivity).
    now apply distinct_filter.
  - intros e He. apply in_map_iff in He. destruct He as [[k n] [<- Hin]].
    apply filter_In in Hin. destruct Hin as [Hin _].
    destruct (Hall _ Hin) as [Hv Hw]. simpl in *.
    destruct n as [d|sub]; simpl; [now split|]. split; [exact Hv|].
    apply IH; [|exact Hw].
    intros q. rewrite <- app_assoc. apply Hd.
Qed.

Lemma map_fst_modify (k : string) (g : node -> node) (es : entries) :
  map fst (modify k g es) = map fst es.
Proof.
  induction es as [|[k' n] es IH]; simpl; [reflexivity|].
  destruct (String.eqb k' k); simpl; [reflexivity | now rewrite IH].
Qed.

Lemma In_modify (k : string) (g : node -> node) (es : entries) (e : string * node) :
  In e (modify k g es) -> In e es \/ exists n, In (fst e, n) es /\ snd e = g n.
Proof.
  induction es as [|[k' n] es IH]; simpl; [tauto|].
  destruct (String.eqb k' k); simpl.
  - intros [<-|H]; [right; exists n; simpl; auto | left; now right].
  - intros [<-|H]; [left; now left|].
    destruct (IH H) as [H1 | [m [H1 H2]]]; [left; now right|].
    right. exists m. auto.
Qed.

Lemma wf_update (p : path) (f : entries -> entries) :
  (forall es, wf (Dir es) = true -> wf (Dir (f es)) = true) ->
  forall t, wf t = true -> wf (update p f t) = true.
Proof.
  intros Hf. induction p as [|k q IH]; intros [d|es] Hwf; try exact Hwf.
  - now apply Hf.
  - change (update (k :: q) f (Dir es)) with (Dir (modify k (update q f) es)).
    destruct (wf_Dir es Hwf) as [Hdis Hall].
    apply wf_intro; [now rewrite map_fst_modify|].
    intros e He. destruct (In_modify _ _ _ _ He) as [H | [n [H1 H2]]].
    + now apply Hall.
    + destruct (Hall _ H1) as [Hv Hw]. simpl in *. rewrite H2. split; [exact Hv|].
      now apply IH.
Qed.

Lemma wf_prune_fold (E : env) (c : path) (patterns : list string) :
  (forall q, deny E ((c ++ ["bundle"; "node_modules"]) ++ q) = false) ->
  forall t b,
    lookup (c ++ ["bundle"]) t = Some b -> wf b = true ->
    exists b',
      lookup (c ++ ["bundle"])
             (fold_left (fun t pattern =>
                           prune_tree E pattern (c ++ ["bundle"; "node_modules"]) t)
                        patterns t) = Some b'
      /\ wf b' = true.
Proof.
  intros Hd. induction patterns as [|a l IH]; intros t b Hb Hwf; simpl.
  - now exists b.
  - unfold prune_tree at 2.
    destruct (lookup (c ++ ["bundle"; "node_modules"]) t) as [[d|es]|] eqn:Hnm;
      try (now apply (IH t b)).
    pose (F := fun es0 : entries =>
                 rglob_remove E (height (Dir es0)) a
                   (c ++ ["bundle"; "node_modules"]) es0).
    apply (IH _ (update ["node_modules"] F b)).
    + pose proof (lookup_update_above (c ++ ["bundle"]) ["node_modules"] F t) as H.
      rewrite Hb, <- app_assoc in H. exact H.
    + apply wf_update; [|exact Hwf].
      intros es0. now apply wf_rglob_remove.
Qed.

(** A regular file of the staging directory is there after the pruning
    exactly when it was there before and its path survives. *)
Lemma pruned_staging_file (E : env) (c : path) (t : node) (rel : path) (d : data) :
  (forall q, deny E ((c ++ ["bundle"; "node_modules"]) ++ q) = false) ->
  rel <> [] ->
  lookup (c ++ "bundle" :: rel)
         (fold_left (fun t pattern =>
                       prune_tree E pattern (c ++ ["bundle"; "node_modules"]) t)
                    patterns_to_remove t) = Some (File d)
  <-> survives rel = true /\ lookup (c ++ "bundle" :: rel) t = Some (File d).
Proof.
  intros Hd Hne.
  set (nm := c ++ ["bundle"; "node_modules"]) in *.
  set (t' := fold_left (fun t pattern => prune_tree E pattern nm t)
                       patterns_to_remove t).
  assert (Hout : forall q, diverge nm q = true -> lookup q t' = lookup q t).
  { intros q Hq. apply (frame_prune_fold E nm patterns_to_remove t).
    intros p [<-|[]]. exact Hq. }
  destruct rel as [|k q]; [now destruct Hne|]. clear Hne.
  destruct (String.eqb k "node_modules") eqn:Hk.
  - apply String.eqb_eq in Hk. subst k.
    assert (Hp : c ++ "bundle" :: "node_modules" :: q = nm ++ q)
      by (unfold nm; now rewrite <- app_assoc).
    rewrite Hp. cbn [survives]. rewrite String.eqb_refl. split.
    + intros H.
      assert (Hs : forallb (fun name => negb (matches patterns_to_remove name)) q
                   = true).
      { apply no_pattern_matches. intros pattern Hin.
        pose proof (clean_at_fold E nm patterns_to_remove Hd t pattern Hin) as Hc.
        fold t' in Hc. unfold clean_at in Hc.
        rewrite lookup_app in H.
        destruct (lookup nm t') as [n|]; [|discriminate].
        now apply (clean_path pattern q n (File d)). }
      split; [exact Hs|].
      now apply (file_back_fold E nm patterns_to_remove q d Hs t).
    + intros [Hs H]. now apply keeps_file_fold.
  - cbn [survives]. rewrite Hk.
    rewrite Hout; [tauto|].
    unfold nm. rewrite diverge_common. cbn [diverge].
    rewrite String.eqb_refl, String.eqb_sym, Hk. reflexivity.
Qed.

(** The pruning and the archiver, one after the other; the zip writer is
    that of [Ez]. *)
Lemma prune_then_archive (E Ez : env) (w : world) (b : node) :
  lookup (cwd w ++ ["bundle"]) (fs w) = Some b ->
  wf b = true ->
  is_dir_at (cwd w ++ ["libralm.dxt"]) (fs w) = false ->
  (forall q, deny E ((cwd w ++ ["bundle"; "node_modules"]) ++ q) = false) ->
  (forall rel, zip_error Ez (cwd w ++ "bundle" :: rel) = None) ->
  let w1 := snd (prune_dependencies E w) in
  let w2 := snd (create_dxt_package Ez w1) in
  exists members,
    fst (prune_dependencies E w) = Return tt
    /\ fst (create_dxt_package Ez w1) = Return tt
    /\ lookup (cwd w ++ ["libralm.dxt"]) (fs w2)
       = Some (File (Zip ZIP_DEFLATED members))
    /\ forall name d,
         In (name, d) members
         <-> exists rel,
               rel <> [] /\ survives rel = true /\ name = join_sep rel
               /\ lookup (cwd w ++ "bundle" :: rel) (fs w) = Some (File d).
Proof.
  destruct w as [t c o]. cbn [fs cwd out]. intros Hb Hwf Ha Hd Hz. cbv zeta.
  rewrite prune_dependencies_run. cbn [fst snd].
  set (nm := c ++ ["bundle"; "node_modules"]) in *.
  set (t' := fold_left (fun t pattern => prune_tree E pattern nm t)
                       patterns_to_remove t).
  destruct (wf_prune_fold E c patterns_to_remove Hd t b Hb Hwf) as [b' [Hb' Hwf']].
  fold nm in Hb'. fold t' in Hb'.
  assert (Ha' : is_dir_at (c ++ ["libralm.dxt"]) t' = false).
  { unfold is_dir_at, t'.
    rewrite (frame_prune_fold E nm patterns_to_remove t (c ++ ["libralm.dxt"]));
      [exact Ha|].
    intros p [<-|[]]. unfold nm. rewrite diverge_common. reflexivity. }
  assert (Hc' : is_dir_at c t' = true) by (eapply is_dir_at_parent; exact Hb').
  rewrite (create_dxt_package_run Ez t' c _ b' Hz Hb' Hwf' Ha'). cbn [fst snd fs].
  exists (members_of [] b').
  split; [reflexivity|]. split; [reflexivity|].
  split; [now apply lookup_with_archive|].
  assert (Hrel : forall rel, lookup (c ++ "bundle" :: rel) t' = lookup rel b').
  { intros rel.
    replace (c ++ "bundle" :: rel) with ((c ++ ["bundle"]) ++ rel)
      by now rewrite <- app_assoc.
    now rewrite lookup_app, Hb'. }
  intros name d. split.
  - intros Hin.
    destruct (members_of_sound b' [] name d Hwf' Hin) as [rel [Hne [Hn [Hl _]]]].
    rewrite <- Hrel in Hl.
    apply (pruned_staging_file E c t rel d Hd Hne) in Hl. destruct Hl as [Hs Hl].
    exists rel. auto.
  - intros [rel [Hne [Hs [-> Hl]]]].
    apply (members_of_complete rel b' [] d Hne).
    rewrite <- Hrel. apply (pruned_staging_file E c t rel d Hd Hne). auto.
Qed.



(** ** The staging directory stays well formed *)

Lemma existsb_put (k k0 : string) (v : node) (es : entries) :
  k0 <> k ->
  existsb (String.eqb k0) (map fst (put k v es))
  = existsb (String.eqb k0) (map fst es).
Proof.
  intros Hne. induction es as [|[k' n] es IH]; simpl.
  - destruct (String.eqb k0 k) eqn:H; [apply String.eqb_eq in H; contradiction|].
    reflexivity.
  - destruct (String.eqb k' k) eqn:Hk; simpl.
    + apply String.eqb_eq in Hk. subst k'. reflexivity.
    + now rewrite IH.
Qed.

Lemma distinct_put (k : string) (v : node) (es : entries) :
  distinct (map fst es) = true -> distinct (map fst (put k v es)) = true.
Proof.
  induction es as [|[k' n] es IH]; simpl; [reflexivity|].
  intros H. apply andb_prop in H. destruct H as [Hk Hd].
  destruct (String.eqb k' k) eqn:Heq; simpl.
  - apply String.eqb_eq in Heq. subst k'. now rewrite Hk, Hd.
  - rewrite (IH Hd), andb_true_r.
    rewrite existsb_put; [exact Hk|].
    intros ->. now rewrite String.eqb_refl in Heq.
Qed.

Lemma In_put (k : string) (v : node) (es : entries) (e : string * node) :
  In e (put k v es) -> e = (k, v) \/ In e es.
Proof.
  induction es as [|[k' n] es IH]; simpl.
  - intros [<-|[]]. now left.
  - destruct (String.eqb k' k); simpl.
    + intros [<-|H]; [now left | right; now right].
    + intros [<-|H]; [right; now left|].
      destruct (IH H); [now left | right; now right].
Qed.

Lemma wf_put (k : string) (v : node) (es : entries) :
  wf (Dir es) = true -> valid_name k = true -> wf v = true ->
  wf (Dir (put k v es)) = true.
Proof.
  intros Hwf Hk Hv. destruct (wf_Dir es Hwf) as [Hd Hall].
  apply wf_intro; [now apply distinct_put|].
  intros e He. destruct (In_put _ _ _ _ He) as [->|Hin]; [now split|].
  now apply Hall.
Qed.

Lemma copy_step_wf (f : string) (t : node) (c : path) (o : list event) (b : node) :
  valid_name f = true ->
  lookup (c ++ ["bundle"]) t = Some b -> wf b = true ->
  let w1 := snd ((b <- os_path_exists (Rel [f]) ;;
                  when b (shutil_copy2 (Rel [f]) bundle ;; print (Copied f)))
                 (World t c o)) in
  cwd w1 = c
  /\ exists b', lookup (c ++ ["bundle"]) (fs w1) = Some b' /\ wf b' = true.
Proof.
  intros Hv Hb Hwf. cbv zeta.
  assert (Hsame : cwd (World t c o) = c
                  /\ exists b', lookup (c ++ ["bundle"]) t = Some b' /\ wf b' = true)
    by (split; [reflexivity | now exists b]).
  unfold os_path_exists, bundle. run_monad.
  destruct (exists_at (c ++ [f]) t); simpl; [|exact Hsame].
  unfold shutil_copy2. run_monad. rewrite basename_snoc.
  destruct (lookup (c ++ [f]) t) as [[x|es0]|]; simpl; try exact Hsame.
  unfold raise.
  destruct (is_dir_at (c ++ ["bundle"]) t) eqn:Hd; simpl; [|exact Hsame].
  unfold is_dir_at in Hd. rewrite Hb in Hd.
  destruct b as [y|es]; [discriminate|].
  destruct (is_dir_at ((c ++ ["bundle"]) ++ [f]) t); simpl; [exact Hsame|].
  split; [reflexivity|]. exists (Dir (put f (File x) es)). split.
  - now rewrite (lookup_update_same _ _ _ _ Hb).
  - now apply wf_put.
Qed.

Lemma copy_loop_wf (fl : list string) :
  forall (w : world) (b : node),
    (forall f, In f fl -> valid_name f = true) ->
    lookup (cwd w ++ ["bundle"]) (fs w) = Some b -> wf b = true ->
    exists b',
      lookup (cwd w ++ ["bundle"])
             (fs (snd (for_each fl (fun file =>
                         b <- os_path_exists (Rel [file]) ;;
                         when b (shutil_copy2 (Rel [file]) bundle ;;
                                 print (Copied file)))
                       w))) = Some b'
      /\ wf b' = true.
Proof.
  induction fl as [|f fl IH]; intros w b Hv Hb Hwf.
  - now exists b.
  - rewrite for_each_cons, bind_run.
    destruct w as [t c o]. cbn [fs cwd] in *.
    destruct (copy_step_wf f t c o b (Hv f (or_introl eq_refl)) Hb Hwf)
      as [Hc [b1 [Hb1 Hwf1]]].
    destruct ((b0 <- os_path_exists (Rel [f]) ;;
               when b0 (shutil_copy2 (Rel [f]) bundle ;; print (Copied f)))
              (World t c o)) as [[[]|x] w1]; cbn [snd] in *.
    + subst c. apply (IH w1 b1); auto. intros g Hg. apply Hv. now right.
    + now exists b1.
Qed.

(** ** What a successful build puts into the archive *)

Lemma bind_Return_intro {A B} (m : M A) (rest : M B) (w w1 w2 : world)
      (a : A) (b : B) :
  m w = (Return a, w1) -> rest w1 = (Return b, w2) -> (m ;; rest) w = (Return b, w2).
Proof. intros H1 H2. unfold bind. now rewrite H1. Qed.

Lemma bind_Return_step {A B} (m : M A) (k : A -> M B) (w w1 : world)
      (a : A) (r : result B * world) :
  m w = (Return a, w1) -> k a w1 = r -> bind m k w = r.
Proof. intros H1 H2. unfold bind. now rewrite H1. Qed.

Lemma for_each_returns_agree {A} (xs : list A) (f g : A -> M unit) :
  (forall x w w', f x w = (Return tt, w') -> g x w = (Return tt, w')) ->
  forall w w', for_each xs f w = (Return tt, w') ->
               for_each xs g w = (Return tt, w').
Proof.
  intros Hfg. induction xs as [|x xs IH]; intros w w' H; [exact H|].
  simpl in H |- *.
  apply bind_Return_inv in H. destruct H as [[] [w1 [H1 H2]]].
  apply (bind_Return_intro _ _ _ _ _ _ _ (Hfg _ _ _ H1)). now apply IH.
Qed.

(** A member that the zip writer of [E] wrote is written alike by a
    writer that refuses nothing. *)
Lemma zipfile_write_accepting (E : env) (pn : pathname) (f : path) (a : string)
      (w w' : world) :
  zipfile_write E pn f a w = (Return tt, w') ->
  zipfile_write (accepting E) pn f a w = (Return tt, w').
Proof.
  unfold zipfile_write. destruct w as [t c o]. run_monad.
  destruct (lookup (c ++ f) t); [|discriminate].
  cbn [accepting zip_error].
  destruct (zip_error E (c ++ f)); [discriminate|]. exact (fun H => H).
Qed.

Lemma create_dxt_package_accepting (E : env) (w w' : world) :
  create_dxt_package E w = (Return tt, w') ->
  create_dxt_package (accepting E) w = (Return tt, w').
Proof.
  unfold create_dxt_package. intros H.
  apply bind_Return_inv in H. destruct H as [[] [w1 [Hp H]]].
  apply (bind_Return_intro _ _ _ _ _ _ _ Hp).
  apply bind_Return_inv in H. destruct H as [[] [w2 [Hopen H]]].
  apply (bind_Return_intro _ _ _ _ _ _ _ Hopen).
  apply bind_Return_inv in H. destruct H as [c [w3 [Hc H]]].
  apply (bind_Return_step _ _ _ _ _ _ Hc).
  apply bind_Return_inv in H. destruct H as [tr [w4 [Hw H]]].
  apply (bind_Return_step _ _ _ _ _ _ Hw).
  apply bind_Return_inv in H. destruct H as [[] [w5 [Hl H]]].
  refine (bind_Return_intro _ _ _ _ _ _ _ _ H).
  revert Hl. apply for_each_returns_agree.
  intros [[root ds] files]. apply for_each_returns_agree.
  intros file. apply zipfile_write_accepting.
Qed.

(** X17.  A run ends with status 0; no listed name is a directory, the
    package manager keeps a directory well formed, and no removal is
    refused below [bundle/node_modules].  Then the package manager was run
    on a staging directory that held the listed files that exist, and
    nothing else, and it exited with status 0; and the members of the
    archive are exactly the regular files of the directory it left,
    without those below [node_modules] that have a matching name on their
    path, each under its path relative to the staging directory. *)
Theorem successful_build_archives_the_installed_tree (E : env) (w : world) :
  fst (run E w) = 0%Z ->
  (forall f, In f files_to_copy -> is_dir_at (cwd w ++ [f]) (fs w) = false) ->
  (forall es, wf (Dir es) = true -> wf (Dir (snd (npm_install E es))) = true) ->
  (forall q, deny E ((cwd w ++ ["bundle"; "node_modules"]) ++ q) = false) ->
  exists x es so members,
    lookup (cwd w ++ ["package.json"]) (fs w) = Some (File x)
    /\ (forall name,
           find name es
           = if existsb (String.eqb name) files_to_copy
                && exists_at (cwd w ++ [name]) (fs w)
             then lookup (cwd w ++ [name]) (fs w)
             else None)
    /\ fst (npm_install E (put "package.json" (File x) es)) = Exited 0%Z so
    /\ lookup (cwd w ++ ["libralm.dxt"]) (fs (snd (run E w)))
       = Some (File (Zip ZIP_DEFLATED members))
    /\ forall name d,
         In (name, d) members
         <-> exists rel,
               rel <> [] /\ survives rel = true /\ name = join_sep rel
               /\ lookup rel (Dir (snd (npm_install E (put "package.json" (File x) es))))
                  = Some (File d).
Proof.
  intros H0 Hsrc Hnpm Hd.
  apply exit_0_main_returns in H0. unfold run. cbn [snd].
  destruct (main E w) as [r w'] eqn:Hmain. simpl in H0. subst r.
  rewrite main_after_checks in Hmain.
  apply bind_Return_inv in Hmain. destruct Hmain as [[] [w0 [Hc H]]].
  apply try_except_main_returns in H. unfold build_steps in H.
  apply bind_Return_inv in H. destruct H as [[] [w1 [H1 H]]].
  apply bind_Return_inv in H. destruct H as [[] [w2 [H2 H]]].
  apply bind_Return_inv in H. destruct H as [[] [w3 [H3 H]]].
  apply bind_Return_inv in H. destruct H as [[] [w4 [H4 H]]].
  apply bind_Return_inv in H. destruct H as [[] [w5 [H5 H]]].
  apply bind_Return_inv in H. destruct H as [[] [w6 [H6 H]]].
  apply bind_Return_inv in H. destruct H as [[] [w7 [H7 H]]].
  (* up to the staging directory *)
  assert (Hs : reaches_staging E w = (Return tt, w2)).
  { unfold reaches_staging. apply (bind_Return_intro _ _ _ _ _ _ _ Hc).
    apply (bind_Return_intro _ _ _ _ _ _ _ H1). exact H2. }
  destruct (reaches_staging_facts E w w2 Hs) as [Hc2 [Hb2 [Ha2 Hf2]]].
  assert (Hsame : forall f, In f files_to_copy ->
                            lookup (cwd w ++ [f]) (fs w2) = lookup (cwd w ++ [f]) (fs w)).
  { intros f Hin. apply Hf2. now apply listed_files_apart. }
  destruct w2 as [t2 c2 o2]. cbn [fs cwd out] in *. subst c2.
  (* the copies *)
  destruct (copy_loop files_to_copy t2 (cwd w) (o2 ++ [Copying_source_files]))
    as [t3 [o3 [Hrun [Hb3 [Hfr3 Hlk3]]]]].
  { unfold is_dir_at. now rewrite Hb2. }
  { intros f Hin. now apply (listed_files_apart (cwd w)). }
  { intros f Hin. unfold is_dir_at. rewrite Hsame by exact Hin. now apply Hsrc. }
  { intros f Hin. unfold is_dir_at. now rewrite lookup_app, Hb2. }
  assert (Hcopy : copy_source_files (World t2 (cwd w) o2)
                  = (Return tt, World t3 (cwd w) o3)) by exact Hrun.
  rewrite Hcopy in H3. injection H3 as <-.
  assert (Ha3 : lookup (cwd w ++ ["libralm.dxt"]) t3 = None).
  { rewrite (frame_one _ _ _ _ Hfr3 (diverge_archive_bundle (cwd w))). exact Ha2. }
  (* the package manager *)
  unfold install_dependencies in H4.
  apply bind_Return_inv in H4. destruct H4 as [[] [w3' [Hip Hpr]]].
  destruct (install_packages_cases E (World t3 (cwd w) o3))
    as [[e [Hstop _]] | [x [es [Hpj [Hes Hruns]]]]];
    cbn [fs cwd out] in *; [rewrite Hstop in Hip; discriminate|].
  rewrite Hruns in Hip.
  set (es1 := put "package.json" (File x) es) in *.
  assert (Hexit : exists so, fst (npm_install E es1) = Exited 0%Z so).
  { destruct (fst (npm_install E es1)) as [rc so|e]; simpl in Hip.
    - destruct (rc =? 0)%Z eqn:Hz; [|discriminate].
      apply Z.eqb_eq in Hz. subst rc. now exists so.
    - destruct e; discriminate. }
  destruct Hexit as [so Hso].
  injection Hip as _ Hw3'. 
  set (t4 := update (cwd w ++ ["bundle"]) (fun _ => snd (npm_install E es1)) t3) in *.
  assert (Hb4 : lookup (cwd w ++ ["bundle"]) t4 = Some (Dir (snd (npm_install E es1))))
    by (unfold t4; now rewrite (lookup_update_same _ _ _ _ Hes)).
  assert (Ha4 : is_dir_at (cwd w ++ ["libralm.dxt"]) t4 = false).
  { unfold is_dir_at, t4.
    rewrite lookup_update_diverge by apply diverge_archive_bundle.
    now rewrite Ha3. }
  assert (Hwf1 : wf (Dir es1) = true).
  { destruct (copy_loop_wf files_to_copy
                (World t2 (cwd w) (o2 ++ [Copying_source_files])) (Dir []))
      as [b3 [Hb3' Hwf3]]; auto.
    - intros f Hin. simpl in Hin.
      repeat (destruct Hin as [<-|Hin]; [reflexivity|]). destruct Hin.
    - rewrite Hrun in Hb3'. cbn [fs snd cwd] in Hb3'. rewrite Hes in Hb3'.
      injection Hb3' as <-. now apply wf_put. }
  (* the pruning and the archive *)
  subst w3'.
  set (o4 := o3 ++ Installing_dependencies
                :: snd (npm_outcome (fst (npm_install E es1)))) in *.
  destruct (prune_then_archive E (accepting E) (World t4 (cwd w) o4)
              (Dir (snd (npm_install E es1))) Hb4 (Hnpm es1 Hwf1) Ha4 Hd
              (fun _ => eq_refl))
    as [members [_ [_ [Hzip Hmem]]]].
  cbn [fs cwd out] in Hzip, Hmem.
  assert (Hw4 : snd (prune_dependencies E (World t4 (cwd w) o4)) = w4)
    by now rewrite Hpr.
  rewrite Hw4 in Hzip.
  rewrite (create_dxt_package_accepting E w4 w5 H5) in Hzip. cbn [snd] in Hzip.
  (* the final clean-up *)
  assert (C1 : cwd w1 = cwd w).
  { destruct (checks_keep_the_world E w) as [_ Hcw]. rewrite Hc in Hcw. simpl in Hcw.
    rewrite <- Hcw. apply (preserves_run _ _ _ _ _ (at_cwd_clean_build E (cwd w0)) H1).
    reflexivity. }
  assert (C4 : cwd w4 = cwd w).
  { rewrite <- Hw4. now rewrite prune_dependencies_run. }
  destruct (create_dxt_package_returns w4 w5 H5) as [C5 _]. rewrite C4 in C5.
  unfold print in H6. injection H6 as <-.
  destruct (shutil_rmtree_returns E _ w7 H7) as [_ [_ F7]]. cbn [fs cwd] in F7.
  rewrite C5 in F7.
  unfold print in H. injection H as <-. cbn [fs snd].
  exists x, es, so, members.
  split.
  { rewrite <- (Hsame "package.json") by (simpl; tauto).
    rewrite <- Hpj. symmetry. apply Hfr3.
    intros p [<-|[]]. apply (listed_files_apart (cwd w) "package.json"); simpl; tauto. }
  split.
  { intros name. specialize (Hlk3 name).
    rewrite lookup_app, Hes in Hlk3.
    rewrite (lookup_app (cwd w ++ ["bundle"]) [name]), Hb2 in Hlk3. simpl in Hlk3.
    assert (Hfind : find name es
                    = if existsb (String.eqb name) files_to_copy
                         && exists_at (cwd w ++ [name]) t2
                      then lookup (cwd w ++ [name]) t2
                      else None).
    { destruct (find name es); exact Hlk3. }
    rewrite Hfind.
    destruct (existsb (String.eqb name) files_to_copy) eqn:Hin; [|reflexivity].
    apply existsb_exists in Hin. destruct Hin as [g [Hg Heq]].
    apply String.eqb_eq in Heq. subst g.
    unfold exists_at. now rewrite (Hsame name Hg). }
  split; [exact Hso|]. split.
  { rewrite (frame_one _ _ _ _ F7 (diverge_archive_bundle (cwd w))). exact Hzip. }
  intros name d. rewrite Hmem. split; intros [rel [Hne [Hsv [Hn Hl]]]];
    exists rel; repeat split; auto.
  - replace (cwd w ++ "bundle" :: rel) with ((cwd w ++ ["bundle"]) ++ rel) in Hl
      by now rewrite <- app_assoc.
    now rewrite lookup_app, Hb4 in Hl.
  - replace (cwd w ++ "bundle" :: rel) with ((cwd w ++ ["bundle"]) ++ rel)
      by now rewrite <- app_assoc.
    now rewrite lookup_app, Hb4.
Qed.

Lemma successful_build_archives_the_installed_tree_witness :
  exists members,
    lookup (demo_home ++ ["libralm.dxt"]) (fs (snd (run demo_env demo_world)))
    = Some (File (Zip ZIP_DEFLATED members))
    /\ In ("node_modules/foo/index.js", Bytes "js") members
    /\ In ("manifest.json", Bytes demo_manifest_text) members.
Proof.
  assert (Hsrc : forallb (fun f => negb (is_dir_at (cwd demo_world ++ [f])
                                                   (fs demo_world)))
                         files_to_copy = true) by reflexivity.
  rewrite forallb_forall in Hsrc.
  destruct (successful_build_archives_the_installed_tree demo_env demo_world)
    as [x [es [so [members [_ [Hfind [_ [Hzip Hmem]]]]]]]].
  - vm_compute. reflexivity.
  - intros f Hin. apply negb_true_iff. now apply Hsrc.
  - intros es Hwf. apply wf_put; [|reflexivity|reflexivity].
    apply wf_put; [exact Hwf|reflexivity|reflexivity].
  - intros q. reflexivity.
  - exists members. split; [exact Hzip|]. split.
    + apply Hmem. exists ["node_modules"; "foo"; "index.js"].
      repeat split; try reflexivity; [discriminate|].
      cbn [npm_install demo_env demo_npm snd]. cbn [lookup].
      rewrite find_put_same. reflexivity.
    + apply Hmem. exists ["manifest.json"].
      repeat split; try reflexivity; [discriminate|].
      cbn [npm_install demo_env demo_npm snd]. cbn [lookup].
      rewrite !find_put_other by discriminate.
      rewrite Hfind. reflexivity.
Defined.

(** ** Edges of the archiver and of the final clean-up *)

(** X18.  There is no staging directory to walk: [os.walk] yields nothing
    and raises nothing, so [create_dxt_package] writes an archive without
    members, reports it as created and returns normally. *)
Theorem archive_of_a_missing_staging_directory (E : env) (w : world) :
  lookup (cwd w ++ ["bundle"]) (fs w) = None ->
  is_dir_at (cwd w) (fs w) = true ->
  is_dir_at (cwd w ++ ["libralm.dxt"]) (fs w) = false ->
  create_dxt_package E w
  = (Return tt,
     World (with_archive (cwd w) (fs w) []) (cwd w)
           (out w ++ [Creating_DXT_package; Created_libralm_dxt]))
  /\ lookup (cwd w ++ ["libralm.dxt"]) (with_archive (cwd w) (fs w) [])
     = Some (File (Zip ZIP_DEFLATED [])).
Proof.
  destruct w as [t c o]. cbn [fs cwd out]. intros Hb Hc Ha.
  split; [|now apply lookup_with_archive].
  unfold create_dxt_package. rewrite bind_run. unfold print at 1. cbv beta iota.
  rewrite bind_run. unfold zipfile_open, libralm_dxt at 1. run_monad.
  rewrite Ha, dirname_snoc, Hc. simpl.
  fold (with_archive c t []).
  unfold os_walk. run_monad.
  rewrite (lookup_bundle_with_archive c t [] []), Hb. simpl.
  unfold os_path_getsize, libralm_dxt, exists_at. run_monad.
  rewrite (lookup_with_archive c t _ Hc). simpl.
  now rewrite <- app_assoc.
Qed.

Lemma archive_of_a_missing_staging_directory_witness :
  fst (create_dxt_package demo_env demo_fresh_world) = Return tt
  /\ lookup (demo_home ++ ["libralm.dxt"])
            (fs (snd (create_dxt_package demo_env demo_fresh_world)))
     = Some (File (Zip ZIP_DEFLATED [])).
Proof.
  destruct (archive_of_a_missing_staging_directory demo_env demo_fresh_world)
    as [Hrun Hl]; try reflexivity.
  rewrite Hrun. split; [reflexivity | exact Hl].
Defined.




(** ** No two members of the archive share a name *)














(** ** A listed name that is a directory *)

Lemma copy_loop_directory (fl : list string) :
  forall (t : node) (c : path) (o : list event),
    is_dir_at (c ++ ["bundle"]) t = true ->
    (forall f, In f fl -> f <> "bundle") ->
    (exists f, In f fl /\ is_dir_at (c ++ [f]) t = true) ->
    fst (for_each fl (fun file =>
           b <- os_path_exists (Rel [file]) ;;
           when b (shutil_copy2 (Rel [file]) bundle ;; print (Copied file)))
         (World t c o))
    = Raise (Exception IsADirectoryError).
Proof.
  induction fl as [|f fl IH]; intros t c o Hb Hnb [g [Hg Hdir]]; [destruct Hg|].
  rewrite for_each_cons, bind_run.
  unfold os_path_exists at 1. run_monad.
  unfold exists_at at 1.
  destruct (lookup (c ++ [f]) t) as [[x|es]|] eqn:Hf; simpl.
  - unfold shutil_copy2, bundle. run_monad. rewrite Hf, basename_snoc, Hb. simpl.
    destruct (is_dir_at ((c ++ ["bundle"]) ++ [f]) t); [reflexivity|]. simpl.
    destruct Hg as [<-|Hg].
    { unfold is_dir_at in Hdir. rewrite Hf in Hdir. discriminate. }
    apply IH.
    + now rewrite is_dir_at_update_same.
    + intros h Hh. apply Hnb. now right.
    + exists g. split; [exact Hg|]. unfold is_dir_at.
      rewrite lookup_source_after_copy; [exact Hdir|]. apply Hnb. now right.
  - unfold shutil_copy2, bundle. run_monad. now rewrite Hf.
  - destruct Hg as [<-|Hg].
    { unfold is_dir_at in Hdir. rewrite Hf in Hdir. discriminate. }
    apply IH; [exact Hb | intros h Hh; apply Hnb; now right | now exists g].
Qed.

(** X21.  One of the listed names is a directory: [os.path.exists] holds
    for it and [shutil.copy2] cannot copy it, so [copy_source_files]
    raises [IsADirectoryError] instead of passing it over. *)
Theorem copy_source_files_rejects_a_directory (w : world) (f : string) :
  is_dir_at (cwd w ++ ["bundle"]) (fs w) = true ->
  In f files_to_copy ->
  is_dir_at (cwd w ++ [f]) (fs w) = true ->
  fst (copy_source_files w) = Raise (Exception IsADirectoryError).
Proof.
  destruct w as [t c o]. cbn [fs cwd]. intros Hb Hin Hdir.
  unfold copy_source_files. rewrite bind_run. unfold print at 1. cbv beta iota.
  cbn [fs cwd out].
  apply copy_loop_directory;
    [exact Hb | intros g Hg; now apply (listed_files_apart c) | now exists f].
Qed.

Lemma copy_source_files_rejects_a_directory_witness :
  fst (copy_source_files demo_license_dir_world)
  = Raise (Exception IsADirectoryError).
Proof.
  apply (copy_source_files_rejects_a_directory demo_license_dir_world "LICENSE").
  - reflexivity.
  - simpl. tauto.
  - reflexivity.
Defined.

